(** * gps-timesync: NMEA time parsing, sentence encoding, device probe and
      clock synchronisation

    A shallow embedding of the Go sources
      - pkg/nmea/nmea.go        (ParseNMEATime)
      - pkg/system/system.go    (SetSystemTime, ConfigureSerialPort)
      - pkg/gps                 (IsGPSDevice, SyncTime, MonitorGPS)
      - pkg/device              (FindGPSDevices, IsPotentialGPSDevice, MonitorDevices)
      - gps-simulator           (addChecksumAndCRLF, the RMC and GSV sentences
                                 of writeNMEASentences, the clamps of main)
    Go strings are byte sequences; they are modelled by [string], whose
    characters are the 256 [ascii] bytes.  Effects (files opened, commands
    executed, log lines, clock-set calls) are recorded in an explicit trace.
    The [select] loops are modelled twice: by the list of the cases that run,
    and, for the deadlines, by the instants at which the calls of
    [scanner.Scan()] return. *)

From Stdlib Require Import ZArith NArith List String Ascii Bool Lia.
From Stdlib Require Import DecimalString.
Import ListNotations.
Open Scope string_scope.

(** ** Go string primitives *)

Module GoStrings.

(** [len(s)] *)
Definition len (s : string) : nat := String.length s.

(** [s[i:j]] for [i <= j <= len(s)] (the callers below guard the bounds). *)
Definition slice (s : string) (i j : nat) : string := substring i (j - i) s.

(** [strings.HasPrefix(s, p)] *)
Definition HasPrefix (s p : string) : bool := prefix p s.

(** [strings.Split(s, sep)] for a one-byte separator: the pieces between
    the occurrences of [sep]; a string with [n] separators has [n+1] pieces. *)
Fixpoint Split (s : string) (sep : ascii) : list string :=
  match s with
  | EmptyString => [EmptyString]
  | String c rest =>
      if Ascii.eqb c sep then EmptyString :: Split rest sep
      else match Split rest sep with
           | [] => [String c EmptyString]
           | f :: fs => String c f :: fs
           end
  end.

(** byte value of a character *)
Definition byte (c : ascii) : N := N_of_ascii c.

Definition isDigitChar (c : ascii) : bool :=
  (48 <=? byte c)%N && (byte c <=? 57)%N.

Definition digitVal (c : ascii) : Z := Z.of_N (byte c) - 48.

Fixpoint zeros (n : nat) : string :=
  match n with O => EmptyString | S k => String "0" (zeros k) end.

(** Go's [appendInt(b, x, width)] of package [time]: a minus sign when [x]
    is negative, then the decimal digits of [|x|], left-padded with zeros to
    [width] (the sign does not count in the width). *)
Definition appendInt (x : Z) (width : nat) : string :=
  let ds := NilZero.string_of_uint (N.to_uint (Z.to_N (Z.abs x))) in
  let padded := zeros (width - String.length ds) ++ ds in
  if (x <? 0)%Z then "-" ++ padded else padded.

(** [fmt.Sprintf("%d", x)] *)
Definition Itoa (x : Z) : string :=
  if (x <? 0)%Z then "-" ++ appendInt (- x) 0 else appendInt x 0.

End GoStrings.
Import GoStrings.

(** ** Errors of the three packages *)

Inductive error : Type :=
| ErrInvalidNMEAData                       (* nmea.ErrInvalidNMEAData *)
| ErrTimeParse (value : string)            (* *time.ParseError from time.Parse *)
| ErrSystemTimeUpdate (cause : string)     (* wraps system.ErrSystemTimeUpdate *)
| ErrUnsupportedOS (goos : string)         (* wraps system.ErrUnsupportedOS *)
| ErrConfigure (cause : string)            (* "failed to configure serial port: ..." *)
| ErrDeviceAccess (cause : string)         (* wraps gps.ErrDeviceAccess *)
| ErrNoValidData                           (* gps.ErrNoValidData *)
| ErrInvalidDevicePath (device : string)   (* "invalid device path: ..." *)
| ErrReadingDevice (cause : string)        (* "error reading device: ..." *)
| ErrContext (cause : string).             (* g.Ctx.Err() *)

Inductive result (A : Type) : Type :=
| Ok (a : A)
| Err (e : error).
Arguments Ok {A} a.
Arguments Err {A} e.

(** ** The part of Go's [time] package that the program uses *)

Module GoTime.

(** A [time.Time] in UTC, by its civil fields. *)
Record Time : Type := mkTime {
  year : Z; month : Z; day : Z;
  hour : Z; minute : Z; second : Z; nsec : Z
}.

Definition Date (y mo d h mi s : Z) : Time := mkTime y mo d h mi s 0.

Definition isLeap (y : Z) : bool :=
  (y mod 4 =? 0)%Z && (negb (y mod 100 =? 0)%Z || (y mod 400 =? 0)%Z).

Definition daysIn (m y : Z) : Z :=
  if (m =? 2)%Z then (if isLeap y then 29 else 28)%Z
  else if ((m =? 4) || (m =? 6) || (m =? 9) || (m =? 11))%Z then 30%Z
  else 31%Z.

(** [getnum(s, fixed)]: one or two leading digits; with [fixed] exactly two. *)
Definition getnum (s : string) (fixed : bool) : option (Z * string) :=
  match s with
  | String c0 rest =>
      if isDigitChar c0 then
        match rest with
        | String c1 rest' =>
            if isDigitChar c1 then Some (digitVal c0 * 10 + digitVal c1, rest')%Z
            else if fixed then None else Some (digitVal c0, rest)
        | EmptyString => if fixed then None else Some (digitVal c0, rest)
        end
      else None
  | EmptyString => None
  end.

Fixpoint cutspace (s : string) : string :=
  match s with
  | String c rest => if Ascii.eqb c " " then cutspace rest else s
  | EmptyString => s
  end.

(** [skip(value, prefix)] for a one-byte literal of the layout. A space in
    the layout matches any run of spaces of the value. *)
Definition skip1 (value : string) (p : ascii) : option string :=
  if Ascii.eqb p " " then
    match value with
    | String c _ => if Ascii.eqb c " " then Some (cutspace value) else None
    | EmptyString => Some value
    end
  else
    match value with
    | String c rest => if Ascii.eqb c p then Some rest else None
    | EmptyString => None
    end.

(** the four-digit year of [stdLongYear] *)
Definition longYear (value : string) : option (Z * string) :=
  match value with
  | String a (String b (String c (String d rest))) =>
      if isDigitChar a && isDigitChar b && isDigitChar c && isDigitChar d
      then Some (digitVal a * 1000 + digitVal b * 100 + digitVal c * 10 + digitVal d, rest)%Z
      else None
  | _ => None
  end.

(** leading digits of [s] and what follows them *)
Fixpoint spanDigits (s : string) : list ascii * string :=
  match s with
  | String c rest =>
      if isDigitChar c then let '(ds, r) := spanDigits rest in (c :: ds, r)
      else ([], s)
  | EmptyString => ([], s)
  end.

(** [parseNanoseconds]: at most nine digits count, scaled to nanoseconds. *)
Fixpoint nanos (ds : list ascii) (scale : nat) : Z :=
  match scale with
  | O => 0%Z
  | S k =>
      match ds with
      | [] => 0%Z
      | d :: ds' => (digitVal d * 10 ^ Z.of_nat k + nanos ds' k)%Z
      end
  end.

Definition commaOrPeriod (c : ascii) : bool :=
  Ascii.eqb c "." || Ascii.eqb c ",".

(** a fractional second in the value that the layout does not mention *)
Definition fracSecond (value : string) : Z * string :=
  match value with
  | String c0 (String c1 rest) =>
      if commaOrPeriod c0 && isDigitChar c1 then
        let '(ds, r) := spanDigits (String c1 rest) in (nanos ds 9, r)
      else (0%Z, value)
  | _ => (0%Z, value)
  end.

Definition bind {A B} (o : option A) (k : A -> option B) : option B :=
  match o with Some a => k a | None => None end.
Notation "' p <- e ;; k" := (bind e (fun p => k))
  (at level 61, p pattern, e at next level, right associativity).

Definition guard (b : bool) : option unit := if b then Some tt else None.

(** [time.Parse("2006-01-02 15:04:05", value)], chunk by chunk: long year,
    "-", zero month, "-", zero day, " ", hour, ":", zero minute, ":",
    zero second, no extra text, then the day-of-month validation. *)
Definition parseFields (value : string) : option Time :=
  '(y, v) <- longYear value ;;
  'v <- skip1 v "-" ;;
  '(mo, v) <- getnum v true ;;
  '_ <- guard (negb ((mo <=? 0) || (12 <? mo))%Z) ;;
  'v <- skip1 v "-" ;;
  '(d, v) <- getnum v true ;;
  'v <- skip1 v " " ;;
  '(h, v) <- getnum v false ;;
  '_ <- guard (negb ((h <? 0) || (24 <=? h))%Z) ;;
  'v <- skip1 v ":" ;;
  '(mi, v) <- getnum v true ;;
  '_ <- guard (negb ((mi <? 0) || (60 <=? mi))%Z) ;;
  'v <- skip1 v ":" ;;
  '(s, v) <- getnum v true ;;
  '_ <- guard (negb ((s <? 0) || (60 <=? s))%Z) ;;
  let '(ns, v) := fracSecond v in
  '_ <- guard (String.length v =? 0)%nat ;;
  '_ <- guard (negb ((d <? 1) || (daysIn mo y <? d))%Z) ;;
  Some (mkTime y mo d h mi s ns).

Definition Parse (value : string) : result Time :=
  match parseFields value with
  | Some t => Ok t
  | None => Err (ErrTimeParse value)
  end.

(** [t.Format] for the layouts the program uses *)
Definition p2 (x : Z) : string := appendInt x 2.

Definition Format_time (t : Time) : string :=          (* "15:04:05" *)
  p2 (hour t) ++ ":" ++ p2 (minute t) ++ ":" ++ p2 (second t).
Definition Format_usdate (t : Time) : string :=        (* "01/02/2006" *)
  p2 (month t) ++ "/" ++ p2 (day t) ++ "/" ++ appendInt (year t) 4.
Definition Format_datetime (t : Time) : string :=      (* "2006-01-02 15:04:05" *)
  appendInt (year t) 4 ++ "-" ++ p2 (month t) ++ "-" ++ p2 (day t)
  ++ " " ++ Format_time t.
Definition Format_RFC3339 (t : Time) : string :=       (* time.RFC3339, UTC *)
  appendInt (year t) 4 ++ "-" ++ p2 (month t) ++ "-" ++ p2 (day t)
  ++ "T" ++ Format_time t ++ "Z".

End GoTime.
Import GoTime.

(** ** pkg/nmea *)

Module Nmea.

Definition ParseNMEATime (timeStr dateStr : string) : result Time :=
  if (len timeStr <? 6)%nat || negb (len dateStr =? 6)%nat then
    Err ErrInvalidNMEAData
  else
    let hour := slice timeStr 0 2 in
    let min := slice timeStr 2 4 in
    let sec := slice timeStr 4 6 in
    let day := slice dateStr 0 2 in
    let month := slice dateStr 2 4 in
    let year := "20" ++ slice dateStr 4 6 in
    let timeStr :=
      year ++ "-" ++ month ++ "-" ++ day ++ " " ++ hour ++ ":" ++ min ++ ":" ++ sec in
    GoTime.Parse timeStr.

End Nmea.
Import Nmea.

(** ** The environment and the trace of effects *)

Inductive LogMsg : Type :=
| LogParseWarning (e : error)      (* "Warning: Failed to parse NMEA time: %v" *)
| LogSynced (rfc3339 : string)     (* "Time synchronized successfully: %s" *)
| LogDetected (line : string).     (* "IsGPSDevice: Detected valid NMEA prefix in line: %s" *)

Inductive Effect : Type :=
| EOpenFile (path : string)        (* os.OpenFile(path, os.O_RDWR, 0600) *)
| EClose (path : string)           (* the deferred file.Close() *)
| EExec (argv : list string)       (* exec.Command(argv...).Run() *)
| ESetSystemTime (t : Time)        (* a call of system.SetSystemTime(t) *)
| ELog (m : LogMsg).               (* log.Printf *)

(** effects in the order they happen *)
Definition World : Type := list Effect.

Definition emit (w : World) (e : Effect) : World := (w ++ [e])%list.

(** What the operating system answers: [None] is success, [Some msg] the
    error of the call. *)
Record Env : Type := mkEnv {
  GOOS : string;
  openFile : string -> option string;
  runCmd : list string -> option string
}.

Definition isUnix (goos : string) : bool :=
  (goos =? "linux") || (goos =? "darwin") || (goos =? "freebsd")
  || (goos =? "openbsd") || (goos =? "netbsd").

Definition isSetSystemTime (e : Effect) : bool :=
  match e with ESetSystemTime _ => true | _ => false end.

(** number of clock-set calls recorded in a trace *)
Definition clockSets (w : World) : nat := List.length (filter isSetSystemTime w).

Definition touchesDevice (e : Effect) : bool :=
  match e with EOpenFile _ | EExec _ => true | _ => false end.

(** ** pkg/system *)

Module System.

Definition SetSystemTime (env : Env) (t : Time) (w : World) : option error * World :=
  let w := emit w (ESetSystemTime t) in
  if GOOS env =? "windows" then
    let timeStr := Format_time t in
    let w := emit w (EExec ["time"; timeStr]) in
    match runCmd env ["time"; timeStr] with
    | Some err => (Some (ErrSystemTimeUpdate err), w)
    | None =>
        let dateStr := Format_usdate t in
        let w := emit w (EExec ["date"; dateStr]) in
        match runCmd env ["date"; dateStr] with
        | Some err => (Some (ErrSystemTimeUpdate err), w)
        | None => (None, w)
        end
    end
  else if isUnix (GOOS env) then
    let timeStr := Format_datetime t in
    let w := emit w (EExec ["date"; "-s"; timeStr]) in
    match runCmd env ["date"; "-s"; timeStr] with
    | Some err => (Some (ErrSystemTimeUpdate err), w)
    | None => (None, w)
    end
  else (Some (ErrUnsupportedOS (GOOS env)), w).

Definition ConfigureSerialPort (env : Env) (device : string) (baudRate : Z) (w : World)
  : option error * World :=
  if GOOS env =? "windows" then (None, w)
  else if isUnix (GOOS env) then
    let argv := ["stty"; "-F"; device; Itoa baudRate; "raw"; "-echo"] in
    let w := emit w (EExec argv) in
    match runCmd env argv with
    | Some err => (Some (ErrConfigure err), w)
    | None => (None, w)
    end
  else (Some (ErrUnsupportedOS (GOOS env)), w).

End System.
Import System.

(** ** pkg/gps *)

Module Gps.

Record GPSTimeSync : Type := mkGPSTimeSync {
  DevicePath : string;
  BaudRate : Z;
  Debug : bool
}.

(** One turn of the [for { select { ... } }] loops: which case of the
    [select] runs.  [EvScan tok err] is the [default] case: [tok] is the line
    when [scanner.Scan()] is true, and [err] is what [scanner.Err()] answers
    afterwards. *)
Inductive Event : Type :=
| EvTimeout                                          (* <-timeout *)
| EvDone (cause : string)                            (* <-g.Ctx.Done() *)
| EvScan (tok : option string) (err : option string).

Inductive Outcome (A : Type) : Type :=
| Returned (a : A)      (* the function returned [a] *)
| Panicked              (* a run-time panic (index out of range) *)
| Pending.              (* still in the loop after the given events *)
Arguments Returned {A} a.
Arguments Panicked {A}.
Arguments Pending {A}.

(** the deferred [file.Close()] runs when the function returns or panics *)
Definition closeOn {A} (o : Outcome A) (path : string) (w : World) : World :=
  match o with
  | Pending => w
  | _ => emit w (EClose path)
  end.

Definition hasTalker (line : string) : bool :=
  HasPrefix line "$GP" || HasPrefix line "$GN"
  || HasPrefix line "$GL" || HasPrefix line "$GA".

(** the loop of IsGPSDevice *)
Fixpoint probeLoop (evs : list Event) (w : World)
  : Outcome (bool * option error) * World * list Event :=
  match evs with
  | [] => (Pending, w, [])
  | EvTimeout :: rest => (Returned (false, Some ErrNoValidData), w, rest)
  | EvDone c :: rest => (Returned (false, Some (ErrContext c)), w, rest)
  | EvScan tok err :: rest =>
      let onErr :=
        match err with
        | Some e => (Returned (false, Some (ErrReadingDevice e)), w, rest)
        | None => probeLoop rest w
        end in
      match tok with
      | Some line =>
          if hasTalker line
          then (Returned (true, None), emit w (ELog (LogDetected line)), rest)
          else onErr
      | None => onErr
      end
  end.


(** the device path passes the check at the head of IsGPSDevice *)
Definition validDevicePath (env : Env) (device : string) : bool :=
  if GOOS env =? "windows" then HasPrefix device "COM"
  else HasPrefix device "/dev/".

Definition IsGPSDevice (g : GPSTimeSync) (env : Env) (device : string)
    (evs : list Event) (w : World)
  : Outcome (bool * option error) * World * list Event :=
  if (if GOOS env =? "windows" then negb (HasPrefix device "COM")
      else negb (HasPrefix device "/dev/"))
  then (Returned (false, Some (ErrInvalidDevicePath device)), w, evs)
  else
    let w := emit w (EOpenFile device) in
    match openFile env device with
    | Some err => (Returned (false, Some (ErrDeviceAccess err)), w, evs)
    | None =>
        match ConfigureSerialPort env device (BaudRate g) w with
        | (Some err, w) => (Returned (false, Some err), emit w (EClose device), evs)
        | (None, w) =>
            let '(o, w, rest) := probeLoop evs w in
            (o, closeOn o device w, rest)
        end
    end.

(** How the body of [if scanner.Scan() { ... }] of SyncTime leaves. *)
Inductive Step : Type :=
| Continue                      (* [continue]: next turn of the loop *)
| FallThrough                   (* on to the [scanner.Err()] test *)
| Return (e : option error)     (* [return e] *)
| IndexPanic.                   (* an index out of range *)

(** The per-line handler of SyncTime: the body of [if scanner.Scan()]. *)
Definition syncLine (g : GPSTimeSync) (env : Env) (line : string) (w : World)
  : Step * World :=
  if HasPrefix line "$GPRMC" then
    let fields := Split line "," in
    if (List.length fields <? 10)%nat then (Continue, w)
    else
      match nth_error fields 2 with
      | None => (IndexPanic, w)
      | Some status =>
          if negb (status =? "A") then (Continue, w)
          else
            match nth_error fields 1, nth_error fields 9 with
            | Some f1, Some f9 =>
                match ParseNMEATime f1 f9 with
                | Err err =>
                    (Continue,
                     if Debug g then emit w (ELog (LogParseWarning err)) else w)
                | Ok gpsTime =>
                    match SetSystemTime env gpsTime w with
                    | (Some err, w) => (Return (Some err), w)
                    | (None, w) =>
                        (Return None,
                         emit w (ELog (LogSynced (Format_RFC3339 gpsTime))))
                    end
                end
            | _, _ => (IndexPanic, w)
            end
      end
  else (FallThrough, w).

(** the loop of SyncTime *)
Fixpoint syncLoop (g : GPSTimeSync) (env : Env) (evs : list Event) (w : World)
  : Outcome (option error) * World * list Event :=
  match evs with
  | [] => (Pending, w, [])
  | EvTimeout :: rest => (Returned (Some ErrNoValidData), w, rest)
  | EvDone c :: rest => (Returned (Some (ErrContext c)), w, rest)
  | EvScan tok err :: rest =>
      let '(st, w) :=
        match tok with
        | Some line => syncLine g env line w
        | None => (FallThrough, w)
        end in
      match st with
      | Continue => syncLoop g env rest w
      | Return e => (Returned e, w, rest)
      | IndexPanic => (Panicked, w, rest)
      | FallThrough =>
          match err with
          | Some e => (Returned (Some (ErrReadingDevice e)), w, rest)
          | None => syncLoop g env rest w
          end
      end
  end.

Definition SyncTime (g : GPSTimeSync) (env : Env) (evs : list Event) (w : World)
  : Outcome (option error) * World * list Event :=
  let w := emit w (EOpenFile (DevicePath g)) in
  match openFile env (DevicePath g) with
  | Some err => (Returned (Some (ErrDeviceAccess err)), w, evs)
  | None =>
      match ConfigureSerialPort env (DevicePath g) (BaudRate g) w with
      | (Some err, w) => (Returned (Some err), emit w (EClose (DevicePath g)), evs)
      | (None, w) =>
          let '(o, w, rest) := syncLoop g env evs w in
          (o, closeOn o (DevicePath g) w, rest)
      end
  end.

End Gps.
Import Gps.

(** ** gps-simulator *)

Module Simulator.

Definition CRLF : string := String "013" (String "010" EmptyString).

(** [for _, char := range []byte(sentenceBody) { checksum ^= int(char) }] *)
Fixpoint xorLoop (bytes : string) (checksum : N) : N :=
  match bytes with
  | EmptyString => checksum
  | String char rest => xorLoop rest (N.lxor checksum (byte char))
  end.

Definition hexDigitUpper (d : N) : ascii :=
  if (d <? 10)%N then ascii_of_N (48 + d) else ascii_of_N (55 + d).

(** the digits of [%X], most significant first; a Go [int] has at most 16 *)
Fixpoint hexDigits (fuel : nat) (n : N) (acc : string) : string :=
  match fuel with
  | O => acc
  | S k =>
      let acc := String (hexDigitUpper (n mod 16)) acc in
      if (n / 16 =? 0)%N then acc else hexDigits k (n / 16) acc
  end.

(** [fmt.Sprintf("%02X", n)] for [n >= 0] *)
Definition fmt02X (n : N) : string :=
  let ds := hexDigits 16 n EmptyString in
  zeros (2 - String.length ds) ++ ds.

Definition addChecksumAndCRLF (sentenceBody : string) : string :=
  let checksum := xorLoop sentenceBody 0%N in
  "$" ++ sentenceBody ++ "*" ++ fmt02X checksum ++ CRLF.

End Simulator.
Import Simulator.

(** ** The sentence codec as the specification words it *)

Module SpecCodec.

(** ComputeChecksum: XOR of every character's byte value in the body. *)
Definition ComputeChecksum (body : string) : N :=
  fold_right N.lxor 0%N (map byte (list_ascii_of_string body)).

(** the uppercase hexadecimal digit of value [d]: the character at position
    [d] of the sixteen digits *)
Definition upperHexDigit (d : N) : ascii :=
  match String.get (N.to_nat d) "0123456789ABCDEF" with
  | Some a => a
  | None => "?"%char
  end.

(** the two uppercase hexadecimal digits of a byte, high digit first *)
Definition uppercaseHex (c : N) : string :=
  String (upperHexDigit (c / 16)) (String (upperHexDigit (c mod 16)) EmptyString).

(** Encode: "$" + body + "*" + uppercaseHex(checksum(body)) + "\r\n"; the
    last two characters are carriage return (13) and line feed (10). *)
Definition Encode (body : string) : string :=
  "$" ++ body ++ "*" ++ uppercaseHex (ComputeChecksum body)
  ++ String "013" (String "010" EmptyString).

(** Modelled from the spec: the Sentence of section 3 (the repository has
    no such type). *)
Record Sentence : Type := mkSentence {
  talkerID : string;
  sentenceType : string;
  fields : list string;
  checksum : N;
  checksumValid : bool
}.

(** Modelled from the spec: [Sentence | ParseError], the result of Decode. *)
Inductive DecodeResult : Type :=
| Decoded (s : Sentence)
| ErrMalformedSentence.

Definition isCRLF (c : ascii) : bool := Ascii.eqb c "013" || Ascii.eqb c "010".

(** Modelled from the spec: "strips trailing CR/LF" of Decode. *)
Fixpoint stripCRLF (s : string) : string :=
  match s with
  | EmptyString => EmptyString
  | String c rest =>
      match stripCRLF rest with
      | EmptyString => if isCRLF c then EmptyString else String c EmptyString
      | r => String c r
      end
  end.

(** Modelled from the spec: the body before [*] and the checksum text after
    it, for Decode. *)
Fixpoint cutStar (s : string) : option (string * string) :=
  match s with
  | EmptyString => None
  | String c rest =>
      if Ascii.eqb c "*" then Some (EmptyString, rest)
      else match cutStar rest with
           | Some (b, cs) => Some (String c b, cs)
           | None => None
           end
  end.

(** Modelled from the spec: the value of a hex digit of the checksum. *)
Definition hexVal (c : ascii) : option N :=
  let n := byte c in
  if (48 <=? n)%N && (n <=? 57)%N then Some (n - 48)%N
  else if (65 <=? n)%N && (n <=? 70)%N then Some (n - 55)%N
  else if (97 <=? n)%N && (n <=? 102)%N then Some (n - 87)%N
  else None.

(** Modelled from the spec: the repository has no sentence decoder that
    checks a checksum (SyncTime and MonitorGPS split the line on commas and
    never look at the text after [*]).  Decode follows section 4.1: strip
    trailing CR/LF, require a leading [$] and a [*] followed by exactly two
    hex digits, split the text before [*] on [,] into talker and type (the
    first field's first two and next three characters) and the other
    fields, recompute the checksum over the body and set [checksumValid]. *)
Definition Decode (line : string) : DecodeResult :=
  match stripCRLF line with
  | String c rest =>
      if Ascii.eqb c "$" then
        match cutStar rest with
        | Some (body, String h (String l EmptyString)) =>
            match hexVal h, hexVal l with
            | Some a, Some b =>
                let cs := (16 * a + b)%N in
                let fs := Split body "," in
                let first := hd EmptyString fs in
                Decoded (mkSentence (substring 0 2 first) (substring 2 3 first)
                           (tl fs) cs (N.eqb (ComputeChecksum body) cs))
            | _, _ => ErrMalformedSentence
            end
        | _ => ErrMalformedSentence
        end
      else ErrMalformedSentence
  | EmptyString => ErrMalformedSentence
  end.

(** Modelled from the spec: the valid sentence bodies of section 8, taken
    as the bodies that do not contain the checksum delimiter [*]. *)
Definition validBody (body : string) : bool :=
  forallb (fun c => negb (Ascii.eqb c "*")) (list_ascii_of_string body).

End SpecCodec.

(** ** Concrete inputs used by the examples below *)

Module Examples.

Definition linuxOk : Env := mkEnv "linux" (fun _ => None) (fun _ => None).

(** [date -s] fails, as it does without root privileges *)
Definition linuxNoRoot : Env :=
  mkEnv "linux" (fun _ => None)
    (fun argv => match argv with
                 | cmd :: _ => if cmd =? "date" then Some "exit status 1" else None
                 | [] => None
                 end).

Definition windowsOk : Env := mkEnv "windows" (fun _ => None) (fun _ => None).

Definition g0 : GPSTimeSync := mkGPSTimeSync "/dev/ttyUSB0" 9600 true.

Definition rmc : string :=
  "$GPRMC,123519,A,4807.038,N,01131.000,E,022.4,084.4,230394,003.1,W*6A".

Definition rmcVoid : string :=
  "$GPRMC,123519,V,4807.038,N,01131.000,E,022.4,084.4,230394,003.1,W*7D".

Definition rmcBody : string :=
  "GPRMC,123519,A,4807.038,N,01131.000,E,022.4,084.4,230394,003.1,W".

End Examples.
Import Examples.

(** ** More of Go's [strings] and [time] packages *)

Module GoMore.

(** [strings.HasSuffix(s, suffix)] *)
Definition HasSuffix (s suffix : string) : bool :=
  (len suffix <=? len s)%nat
  && (substring (len s - len suffix) (len suffix) s =? suffix).

(** [strings.Contains(s, substr)] *)
Fixpoint Contains (s substr : string) : bool :=
  prefix substr s
  || match s with
     | EmptyString => false
     | String _ rest => Contains rest substr
     end.

(** [fmt.Sprintf("%0<width>d", x)]: the sign counts in the width *)
Definition fmt0d (width : nat) (x : Z) : string :=
  if (x <? 0)%Z then "-" ++ appendInt (- x) (width - 1) else appendInt x width.

(** [t.Format("150405.00")]: hour, minute, second, then the first two of the
    nine digits of the nanoseconds (truncated, not rounded) *)
Definition Format_hhmmss_ff (t : Time) : string :=
  p2 (hour t) ++ p2 (minute t) ++ p2 (second t)
  ++ "." ++ substring 0 2 (appendInt (nsec t) 9).

(** [t.Format("020106")]: day, month, two-digit year *)
Definition Format_ddmmyy (t : Time) : string :=
  p2 (day t) ++ p2 (month t) ++ p2 (Z.abs (year t) mod 100).

(** the civil fields of a [time.Time] are in their calendar ranges *)
Definition validTime (t : Time) : bool :=
  ((1 <=? month t) && (month t <=? 12)
   && (1 <=? day t) && (day t <=? daysIn (month t) (year t))
   && (0 <=? hour t) && (hour t <? 24)
   && (0 <=? minute t) && (minute t <? 60)
   && (0 <=? second t) && (second t <? 60)
   && (0 <=? nsec t) && (nsec t <? 1000000000))%Z.

End GoMore.
Import GoMore.

(** ** pkg/gps: MonitorGPS *)

Module GpsMonitor.

Definition LF : string := String "010" EmptyString.

(** One turn of the loop of MonitorGPS; its [select] has no timeout case. *)
Inductive MonEvent : Type :=
| MonDone (cause : string)                            (* <-g.Ctx.Done() *)
| MonScan (tok : option string) (err : option string).

Inductive MonStep : Type :=
| MonContinue          (* [continue] *)
| MonNext              (* on to the [scanner.Err()] test *)
| MonIndexPanic.       (* an index out of range *)

(** a write to standard output *)
Definition printf (out : list string) (s : string) : list string := (out ++ [s])%list.

(** The body of [if scanner.Scan() { ... }] of MonitorGPS; [out] is what
    has been written to standard output, one entry per [fmt.Printf]. *)
Definition monitorLine (line : string) (out : list string) : MonStep * list string :=
  if HasPrefix line "$" then
    let fields := Split line "," in
    if (List.length fields =? 0)%nat then (MonContinue, out)
    else
      match nth_error fields 0 with
      | None => (MonIndexPanic, out)
      | Some sentenceType =>
          if HasSuffix sentenceType "RMC" then
            if (10 <=? List.length fields)%nat then
              match nth_error fields 2 with
              | None => (MonIndexPanic, out)
              | Some status =>
                  if status =? "A" then
                    match nth_error fields 1, nth_error fields 9 with
                    | Some f1, Some f9 =>
                        (MonNext,
                         printf out ("Time: " ++ f1 ++ ", Date: " ++ f9 ++ LF))
                    | _, _ => (MonIndexPanic, out)
                    end
                  else (MonNext, out)
              end
            else (MonNext, out)
          else if HasSuffix sentenceType "GGA" then
            if (8 <=? List.length fields)%nat then
              match nth_error fields 2, nth_error fields 3, nth_error fields 4,
                    nth_error fields 5, nth_error fields 7 with
              | Some f2, Some f3, Some f4, Some f5, Some f7 =>
                  (MonNext,
                   printf out ("Latitude: " ++ f2 ++ f3 ++ ", Longitude: " ++ f4 ++ f5
                               ++ ", Satellites: " ++ f7 ++ LF))
              | _, _, _, _, _ => (MonIndexPanic, out)
              end
            else (MonNext, out)
          else if HasSuffix sentenceType "GSV" then
            if (4 <=? List.length fields)%nat then
              (MonNext, printf out ("Satellites in view data: " ++ line ++ LF))
            else (MonNext, out)
          else (MonNext, out)
      end
  else (MonNext, out).

(** the loop of MonitorGPS *)
Fixpoint monitorLoop (evs : list MonEvent) (out : list string)
  : Outcome (option error) * list string * list MonEvent :=
  match evs with
  | [] => (Pending, out, [])
  | MonDone c :: rest => (Returned (Some (ErrContext c)), out, rest)
  | MonScan tok err :: rest =>
      let '(st, out) :=
        match tok with
        | Some line => monitorLine line out
        | None => (MonNext, out)
        end in
      match st with
      | MonContinue => monitorLoop rest out
      | MonIndexPanic => (Panicked, out, rest)
      | MonNext =>
          match err with
          | Some e => (Returned (Some (ErrReadingDevice e)), out, rest)
          | None => monitorLoop rest out
          end
      end
  end.

Definition MonitorGPS (g : GPSTimeSync) (env : Env) (evs : list MonEvent)
    (w : World) (out : list string)
  : Outcome (option error) * World * list string * list MonEvent :=
  let w := emit w (EOpenFile (DevicePath g)) in
  match openFile env (DevicePath g) with
  | Some err => (Returned (Some (ErrDeviceAccess err)), w, out, evs)
  | None =>
      match ConfigureSerialPort env (DevicePath g) (BaudRate g) w with
      | (Some err, w) =>
          (Returned (Some err), emit w (EClose (DevicePath g)), out, evs)
      | (None, w) =>
          let out := printf out ("Monitoring GPS data... (Press Ctrl+C to stop)" ++ LF) in
          let '(o, out, rest) := monitorLoop evs out in
          (o, closeOn o (DevicePath g) w, out, rest)
      end
  end.

End GpsMonitor.
Import GpsMonitor.

(** ** Counting effects in a trace *)

Definition isOpen (e : Effect) : bool :=
  match e with EOpenFile _ => true | _ => false end.
Definition isClose (e : Effect) : bool :=
  match e with EClose _ => true | _ => false end.
Definition isExec (e : Effect) : bool :=
  match e with EExec _ => true | _ => false end.

Definition count (p : Effect -> bool) (w : World) : nat := List.length (filter p w).

(** the commands executed, in order *)
Definition commands (w : World) : list (list string) :=
  flat_map (fun e => match e with EExec argv => [argv] | _ => [] end) w.

(** a line on which SyncTime sets the clock *)
Definition actionable (line : string) : bool :=
  HasPrefix line "$GPRMC"
  && match nth_error (Split line ",") 1, nth_error (Split line ",") 2,
           nth_error (Split line ",") 9 with
     | Some f1, Some f2, Some f9 =>
         (f2 =? "A") && match ParseNMEATime f1 f9 with Ok _ => true | Err _ => false end
     | _, _, _ => false
     end.

(** the lines scanned in a list of events *)
Definition scanned (evs : list Event) : list string :=
  flat_map (fun ev => match ev with EvScan (Some line) _ => [line] | _ => [] end) evs.

(** a turn of the loop of SyncTime that decides nothing: the scan gives no
    line or a line that is not actionable, and no read error *)
Definition idle (ev : Event) : bool :=
  match ev with
  | EvScan (Some line) None => negb (actionable line)
  | EvScan None None => true
  | _ => false
  end.

(** a turn of the loop of MonitorGPS without cancellation and read error *)
Definition noReadError (ev : MonEvent) : bool :=
  match ev with MonScan _ None => true | _ => false end.

(** neither "windows" nor one of the Unix-like systems the program names *)
Definition unsupportedOS (env : Env) : bool :=
  negb (GOOS env =? "windows") && negb (isUnix (GOOS env)).

(** no comma among the bytes of [s] *)
Definition noComma (s : string) : bool :=
  forallb (fun c => negb (Ascii.eqb c ",")) (list_ascii_of_string s).

(** only decimal digits among the bytes of [s] *)
Definition allDigits (s : string) : bool :=
  forallb isDigitChar (list_ascii_of_string s).

(** the strings of a list, one after the other *)
Definition joinAll (l : list string) : string := fold_right append EmptyString l.

(** ** gps-simulator: the sentences of writeNMEASentences *)

Module SimSentences.

(** [fmt.Sprintf("%sRMC,%s,A,%s,%s,%s,%s,0.1,0.0,%s,,,A", ...)] *)
Definition gprmcBody (talkerID timeStrNMEA latNMEA ns lonNMEA ew dateStrNMEA : string)
  : string :=
  talkerID ++ "RMC," ++ timeStrNMEA ++ ",A," ++ latNMEA ++ "," ++ ns ++ ","
  ++ lonNMEA ++ "," ++ ew ++ ",0.1,0.0," ++ dateStrNMEA ++ ",,,A".

(** The RMC sentence written for the instant [timeUTC]; [latNMEA], [ns],
    [lonNMEA] and [ew] are the results of toNMEALat and toNMEALon, which
    format floating-point numbers. *)
Definition rmcSentence (talkerID : string) (timeUTC : Time)
    (latNMEA ns lonNMEA ew : string) : string :=
  let timeStrNMEA := Format_hhmmss_ff timeUTC in
  let dateStrNMEA := Format_ddmmyy timeUTC in
  addChecksumAndCRLF (gprmcBody talkerID timeStrNMEA latNMEA ns lonNMEA ew dateStrNMEA).

(** [numSVInView := numSatellites + rand.Intn(5)], then the two clamps;
    [r] is the random number *)
Definition numSVInView (numSatellites r : Z) : Z :=
  let n := (numSatellites + r)%Z in
  let n := if (n <? numSatellites)%Z then numSatellites else n in
  if (20 <? n)%Z then 20%Z else n.

(** the adjustment of [numSatellites] in [main] *)
Definition clampSatellites (numSatellites : Z) : Z :=
  if ((numSatellites <? 0) || (12 <? numSatellites))%Z then
    let n := if (numSatellites <? 0)%Z then 0%Z else numSatellites in
    if (12 <? n)%Z then 12%Z else n
  else numSatellites.

(** one satellite of a GSV message *)
Record SV : Type := mkSV { prn : Z; elevation : Z; azimuth : Z; snr : Z }.

(** [fmt.Sprintf(",%02d,%02d,%03d,%02d", prn, elevation, azimuth, snr)] *)
Definition svFields (s : SV) : string :=
  "," ++ fmt0d 2 (prn s) ++ "," ++ fmt0d 2 (elevation s)
  ++ "," ++ fmt0d 3 (azimuth s) ++ "," ++ fmt0d 2 (snr s).

(** [for sv := 0; sv < 4; sv++ { ... }] of message [i], with [n] turns left;
    [sat svIndex] is the satellite listed at [svIndex]. *)
Fixpoint svLoop (n sv i : nat) (numSV : nat) (sat : nat -> SV) (gsvBody : string)
  : string :=
  match n with
  | O => gsvBody
  | S n' =>
      let svIndex := i * 4 + sv in
      if (svIndex <? numSV)%nat
      then svLoop n' (S sv) i numSV sat (gsvBody ++ svFields (sat svIndex))
      else gsvBody
  end.

(** the body of GSV message [i] (counted from 0) *)
Definition gsvBody (talkerID : string) (numGSVMsgs i numSV : nat) (sat : nat -> SV)
  : string :=
  let msgNum := i + 1 in
  svLoop 4 0 i numSV sat
    (talkerID ++ "GSV," ++ Itoa (Z.of_nat numGSVMsgs) ++ "," ++ Itoa (Z.of_nat msgNum)
     ++ "," ++ fmt0d 2 (Z.of_nat numSV)).

(** the GSV sentences of one second *)
Definition gsvSentences (talkerID : string) (numSV : nat) (sat : nat -> SV)
  : list string :=
  let numGSVMsgs := (numSV + 3) / 4 in
  map (fun i => addChecksumAndCRLF (gsvBody talkerID numGSVMsgs i numSV sat))
      (seq 0 numGSVMsgs).

(** the talker IDs that [main] accepts (after [strings.ToUpper]) *)
Definition validTalker (talkerID : string) : bool :=
  (talkerID =? "GP") || (talkerID =? "GN") || (talkerID =? "GL") || (talkerID =? "GA").

End SimSentences.
Import SimSentences.

(** ** pkg/device *)

Module Device.

(** what [os.Stat] answers *)
Inductive StatResult : Type :=
| StatOk
| StatNotExist          (* an error for which os.IsNotExist holds *)
| StatOtherError.

(** The file system and the commands as the device package sees them.
    [glob] and [cmdOutput] answer [None] for an error. *)
Record DevEnv : Type := mkDevEnv {
  osEnv : Env;
  stat : string -> StatResult;
  glob : string -> option (list string);
  cmdOutput : list string -> option string
}.

Definition statOk (de : DevEnv) (device : string) : bool :=
  match stat de device with StatOk => true | _ => false end.

Definition IsPotentialGPSDevice (de : DevEnv) (device : string) (w : World)
  : bool * World :=
  if negb (statOk de device) then (false, w)
  else if GOOS (osEnv de) =? "windows" then (true, w)
  else if isUnix (GOOS (osEnv de)) then
    let argv := ["udevadm"; "info"; "--query=property"; device] in
    let w := emit w (EExec argv) in
    match cmdOutput de argv with
    | None => (false, w)
    | Some properties =>
        (Contains properties "ID_MODEL=gps" || Contains properties "ID_MODEL=GPS"
         || Contains properties "ID_VENDOR=gps" || Contains properties "ID_VENDOR=GPS",
         w)
    end
  else (false, w).

Inductive FindResult : Type :=
| Found (devices : list string)
| ErrNoGPSDevices                       (* device.ErrNoGPSDevices *)
| FindUnsupportedOS (goos : string).    (* wraps system.ErrUnsupportedOS *)

Definition push (devices : list string) (device : string) : list string :=
  (devices ++ [device])%list.

(** [for _, device := range serialDevices { if IsPotentialGPSDevice ... }] *)
Fixpoint serialLoop (de : DevEnv) (serialDevices devices : list string) (w : World)
  : list string * World :=
  match serialDevices with
  | [] => (devices, w)
  | device :: rest =>
      let '(ok, w) := IsPotentialGPSDevice de device w in
      serialLoop de rest (if ok then push devices device else devices) w
  end.

Definition globOrEmpty (de : DevEnv) (pattern : string) : list string :=
  match glob de pattern with Some l => l | None => [] end.

Definition FindGPSDevices (de : DevEnv) (w : World) : FindResult * World :=
  let finish (devices : list string) (w : World) :=
    if (List.length devices =? 0)%nat then (ErrNoGPSDevices, w) else (Found devices, w) in
  if GOOS (osEnv de) =? "windows" then
    let candidates := map (fun i => "COM" ++ Itoa (Z.of_nat i)) (seq 1 16) in
    finish (filter (statOk de) candidates) w
  else if isUnix (GOOS (osEnv de)) then
    let devices := globOrEmpty de "/dev/ttyUSB*" in
    let devices := (devices ++ globOrEmpty de "/dev/ttyACM*")%list in
    if (List.length devices =? 0)%nat then
      match glob de "/dev/ttyS*" with
      | Some serialDevices =>
          let '(devices, w) := serialLoop de serialDevices devices w in
          finish devices w
      | None => finish devices w
      end
    else finish devices w
  else (FindUnsupportedOS (GOOS (osEnv de)), w).

(** what MonitorDevices prints *)
Inductive DevOut : Type :=
| OutBanner (interval : Z)      (* "Monitoring for new GPS devices (polling every %d seconds)..." *)
| OutPressCtrlC                 (* "Press Ctrl+C to stop" *)
| OutNewDevice (device : string)              (* "New GPS device detected: %s" *)
| OutTestError (device : string) (e : error)  (* "Error testing device %s: %v" *)
| OutConfirmed (device : string)              (* "Confirmed %s is a GPS device" *)
| OutNotGPS (device : string)                 (* "%s does not appear to be a GPS device" *)
| OutRemoved (device : string).               (* "Device removed: %s" *)

(** [seenDevices]: the keys of the map (every stored value is [true]) *)
Definition Seen : Type := list string.

Definition seenHas (seen : Seen) (device : string) : bool :=
  existsb (String.eqb device) seen.

Record MonState : Type := mkMonState {
  seen : Seen;
  world : World;
  outs : list DevOut
}.

Definition say (o : list DevOut) (x : DevOut) : list DevOut := (o ++ [x])%list.

(** [for _, device := range devices { if !seenDevices[device] { ... } }];
    [probeEvs device] is what the loop of the probe of [device] meets.
    The state is the one reached, also when a probe has not returned. *)
Fixpoint newLoop (de : DevEnv) (debug : bool) (probeEvs : string -> list Event)
    (devices : list string) (st : MonState) : Outcome unit * MonState :=
  match devices with
  | [] => (Returned tt, st)
  | device :: rest =>
      if negb (seenHas (seen st) device) then
        let outs1 := say (outs st) (OutNewDevice device) in
        let seen1 := push (seen st) device in
        let gpsInstance := mkGPSTimeSync device 9600 debug in
        match IsGPSDevice gpsInstance (osEnv de) device (probeEvs device) (world st) with
        | (Returned (isGPS, err), w1, _) =>
            match err with
            | Some e =>
                newLoop de debug probeEvs rest
                  (mkMonState seen1 w1
                     (if debug then say outs1 (OutTestError device e) else outs1))
            | None =>
                newLoop de debug probeEvs rest
                  (mkMonState seen1 w1
                     (say outs1 (if isGPS then OutConfirmed device else OutNotGPS device)))
            end
        | (Panicked, w1, _) => (Panicked, mkMonState seen1 w1 outs1)
        | (Pending, w1, _) => (Pending, mkMonState seen1 w1 outs1)
        end
      else newLoop de debug probeEvs rest st
  end.

(** [for device := range seenDevices { if os.IsNotExist(err) { delete } }];
    Go leaves the order of the range unspecified, the keys are visited here
    in the order they were added. *)
Fixpoint removeLoop (de : DevEnv) (keys : list string) (st : MonState) : MonState :=
  match keys with
  | [] => st
  | device :: rest =>
      match stat de device with
      | StatNotExist =>
          removeLoop de rest
            (mkMonState (filter (fun d => negb (String.eqb device d)) (seen st))
               (world st) (say (outs st) (OutRemoved device)))
      | _ => removeLoop de rest st
      end
  end.

(** One turn of the loop of MonitorDevices, after the timer has fired:
    [Returned None] goes on with the next turn, [Returned (Some r)] is the
    [return] of the error [r] of FindGPSDevices. *)
Definition monitorTick (de : DevEnv) (debug : bool) (probeEvs : string -> list Event)
    (st : MonState) : Outcome (option FindResult) * MonState :=
  let '(r, w) := FindGPSDevices de (world st) in
  let st := mkMonState (seen st) w (outs st) in
  let go (devices : list string) :=
    match newLoop de debug probeEvs devices st with
    | (Returned _, st1) => (Returned None, removeLoop de (seen st1) st1)
    | (Panicked, st1) => (Panicked, st1)
    | (Pending, st1) => (Pending, st1)
    end in
  match r with
  | Found devices => go devices
  | ErrNoGPSDevices => go []
  | FindUnsupportedOS goos => (Returned (Some r), st)
  end.

(** the loop of MonitorDevices over the polls in [polls]: each poll comes
    with the state of the system at that moment; [Pending] when the polls
    are used up *)
Fixpoint monitorDevicesLoop (debug : bool)
    (polls : list (DevEnv * (string -> list Event))) (st : MonState)
  : Outcome FindResult * MonState :=
  match polls with
  | [] => (Pending, st)
  | (de, probeEvs) :: rest =>
      match monitorTick de debug probeEvs st with
      | (Returned None, st1) => monitorDevicesLoop debug rest st1
      | (Returned (Some e), st1) => (Returned e, st1)
      | (Panicked, st1) => (Panicked, st1)
      | (Pending, st1) => (Pending, st1)
      end
  end.

Definition MonitorDevices (interval : Z) (debug : bool)
    (polls : list (DevEnv * (string -> list Event))) (w : World)
  : Outcome FindResult * MonState :=
  monitorDevicesLoop debug polls (mkMonState [] w [OutBanner interval; OutPressCtrlC]).

(** the announcement of [device] as a new device *)
Definition isNew (device : string) (o : DevOut) : bool :=
  match o with OutNewDevice d => String.eqb device d | _ => false end.

Definition isNotGPS (o : DevOut) : bool :=
  match o with OutNotGPS _ => true | _ => false end.

(** What the turns of MonitorDevices may print when [seen0] was seen
    before: never "does not appear to be a GPS device", and the announcement
    of a device at most once, and not at all when it was seen before. *)
Definition tidy (seen0 : Seen) (more : list DevOut) : Prop :=
  forallb (fun o => negb (isNotGPS o)) more = true
  /\ forall d, List.length (filter (isNew d) more) <= (if seenHas seen0 d then 0 else 1).

(** the opening of [device], the first effect of a probe of it *)
Definition isOpenOf (device : string) (e : Effect) : bool :=
  match e with EOpenFile path => String.eqb device path | _ => false end.

(** the number of announcements of [device] among what was printed *)
Definition announced (device : string) (o : list DevOut) : nat :=
  List.length (filter (isNew device) o).

(** whether a device is potential does not depend on the trace *)
Definition potential (de : DevEnv) (device : string) : bool :=
  fst (IsPotentialGPSDevice de device []).

End Device.
Import Device.

(** ** The select loops of IsGPSDevice and SyncTime in time *)

Module Timed.

(** One call of [scanner.Scan()] that returns.  [ready] is the instant, in
    milliseconds after the timer of the loop was started, at which the call
    has returned and the loop is back at its [select]; [tok] and [err] are
    as in [EvScan].  The call blocks while the device has nothing to read,
    so [ready] is not before the arrival of the line. *)
Record Read : Type := mkRead {
  ready : N;
  tok : option string;
  err : option string
}.

(** What a loop meets once its timer is started.  [reads] are the calls of
    Scan that return, in order; after the last of them the device stays
    silent and the next call of Scan never returns (a device at end of input
    is a list of reads without line that goes on past the deadline).
    [cancelled] is the instant at which the context is cancelled, with the
    cause.  [pickTimeout] is the choice of [select] when both channels are
    ready, which Go makes at random. *)
Record Run : Type := mkRun {
  reads : list Read;
  cancelled : option (N * string);
  pickTimeout : bool
}.

(** The case that [select] runs at the instant [now]: a channel that is
    ready, or [None] for the [default] case. *)
Definition selectCase (deadline : N) (run : Run) (now : N) : option Event :=
  let timedOut := (deadline <=? now)%N in
  match cancelled run with
  | Some (c, cause) =>
      if (c <=? now)%N then
        Some (if timedOut && pickTimeout run then EvTimeout else EvDone cause)
      else if timedOut then Some EvTimeout else None
  | None => if timedOut then Some EvTimeout else None
  end.

(** The turns of [for { select { ...; default: if scanner.Scan() ... } }]
    from the instant [now] on.  The channels are looked at only between two
    calls of Scan: the [default] case calls Scan, and the loop is back at the
    [select] when that call has returned.  When no call returns any more the
    list ends: the loop is blocked in Scan. *)
Fixpoint turns (deadline : N) (run : Run) (now : N) (rs : list Read) : list Event :=
  match selectCase deadline run now with
  | Some ev => [ev]
  | None =>
      match rs with
      | [] => []
      | r :: rest =>
          EvScan (tok r) (err r) :: turns deadline run (N.max now (ready r)) rest
      end
  end.

(** [time.After(2 * time.Second)] of IsGPSDevice and
    [time.After(30 * time.Second)] of SyncTime, in milliseconds *)
Definition probeWindow : N := 2000.
Definition syncWindow : N := 30000.

(** IsGPSDevice and SyncTime on a run in time.  The outcome [Pending] says
    here that the function never returns: it is blocked in Scan. *)
Definition IsGPSDevice (g : GPSTimeSync) (env : Env) (device : string)
    (run : Run) (w : World) : Outcome (bool * option error) * World :=
  fst (Gps.IsGPSDevice g env device (turns probeWindow run 0 (reads run)) w).

Definition SyncTime (g : GPSTimeSync) (env : Env) (run : Run) (w : World)
  : Outcome (option error) * World :=
  fst (Gps.SyncTime g env (turns syncWindow run 0 (reads run)) w).

(** the turn of the loop that a read makes *)
Definition turnOf (r : Read) : Event := EvScan (tok r) (err r).

(** the call of Scan has returned before the deadline *)
Definition before (deadline : N) (r : Read) : bool := (ready r <? deadline)%N.

End Timed.

(** ** More concrete inputs for the examples *)

Module Examples2.

(** a Linux system with one USB serial device *)
Definition deUSB : DevEnv :=
  mkDevEnv linuxOk (fun _ => StatOk)
    (fun p => if p =? "/dev/ttyUSB*" then Some ["/dev/ttyUSB0"] else Some [])
    (fun _ => None).

(** a Linux system with a USB and an ACM serial device *)
Definition deTwo : DevEnv :=
  mkDevEnv linuxOk (fun _ => StatOk)
    (fun p => if p =? "/dev/ttyUSB*" then Some ["/dev/ttyUSB0"]
              else if p =? "/dev/ttyACM*" then Some ["/dev/ttyACM0"]
              else Some [])
    (fun _ => None).

(** the same system after the device has been unplugged *)
Definition deNone : DevEnv :=
  mkDevEnv linuxOk (fun _ => StatNotExist) (fun _ => Some []) (fun _ => None).

(** a probe that meets a GGA sentence, and one that meets only the timeout *)
Definition gpsStream (d : string) : list Event := [EvScan (Some "$GPGGA,1") None].
Definition silent (d : string) : list Event := [EvTimeout].

Definition leapSecondEve : Time := mkTime 2024 2 29 23 59 58 999999999.

End Examples2.
Import Examples2.

(** * Properties *)

(** ** Slices and lengths *)

Lemma substring_app_l (s x : string) (n m : nat) :
  n + m <= String.length s -> substring n m (s ++ x) = substring n m s.
Proof.
  revert n m; induction s as [|c s IH]; intros n m H; simpl in H.
  - assert (n = 0) by lia; assert (m = 0) by lia; subst.
    destruct x; reflexivity.
  - destruct n as [|n]; simpl.
    + destruct m as [|m]; [reflexivity|].
      f_equal. apply (IH 0 m). lia.
    + apply IH. lia.
Qed.

Lemma slice_app_l (s x : string) (i j : nat) :
  j <= len s -> slice (s ++ x) i j = slice s i j.
Proof.
  intros H. unfold slice. destruct (Nat.le_gt_cases i j).
  - apply substring_app_l. unfold len in H. lia.
  - replace (j - i) with 0 by lia.
    clear. revert i; induction s as [|c s IH]; intros i; simpl.
    + destruct i; destruct x; simpl; try reflexivity.
      revert i; induction x; intros [|i]; simpl; auto.
    + destruct i; [reflexivity | apply IH].
Qed.

Lemma len_app (s x : string) : len (s ++ x) = len s + len x.
Proof. unfold len. induction s; simpl; auto. Qed.

(** ** ParseNMEATime *)

Lemma ParseNMEATime_short (t d : string) :
  len t < 6 \/ len d <> 6 -> ParseNMEATime t d = Err ErrInvalidNMEAData.
Proof.
  intros H. unfold ParseNMEATime.
  destruct (Nat.ltb_spec (len t) 6) as [Ht|Ht]; [reflexivity|].
  destruct (Nat.eqb_spec (len d) 6) as [Hd|Hd]; [lia | reflexivity].
Qed.

Lemma ParseNMEATime_prefix (t x d : string) :
  len t = 6 -> ParseNMEATime (t ++ x) d = ParseNMEATime t d.
Proof.
  intros H. unfold ParseNMEATime.
  rewrite len_app, H.
  replace (6 + len x <? 6)%nat with false by (symmetry; apply Nat.ltb_ge; lia).
  change (6 <? 6)%nat with false.
  rewrite !slice_app_l by lia. reflexivity.
Qed.

(** C4: ParseNMEATime("123456", "010124") is 2024-01-01T12:34:56Z; a time
    field shorter than 6 characters or a date field that is not exactly 6
    characters gives ErrInvalidNMEAData (so do ("12345", "010124") and
    ("123456", "99999")); what follows the sixth character of the time field
    does not change the result. *)
Theorem ParseNMEATime_contract :
  ParseNMEATime "123456" "010124" = Ok (Date 2024 1 1 12 34 56)
  /\ ParseNMEATime "12345" "010124" = Err ErrInvalidNMEAData
  /\ ParseNMEATime "123456" "99999" = Err ErrInvalidNMEAData
  /\ (forall t d, len t < 6 \/ len d <> 6 ->
        ParseNMEATime t d = Err ErrInvalidNMEAData)
  /\ (forall t x d, len t = 6 -> ParseNMEATime (t ++ x) d = ParseNMEATime t d).
Proof.
  repeat split.
  - exact ParseNMEATime_short.
  - exact ParseNMEATime_prefix.
Qed.

Lemma ParseNMEATime_contract_witness :
  ParseNMEATime "1234" "010124" = Err ErrInvalidNMEAData
  /\ ParseNMEATime "123456" "0101245" = Err ErrInvalidNMEAData
  /\ ParseNMEATime ("123456" ++ ".75") "010124" = ParseNMEATime "123456" "010124".
Proof.
  destruct ParseNMEATime_contract as (_ & _ & _ & Hshort & Hpre).
  split; [|split].
  - apply Hshort. left. simpl. lia.
  - apply Hshort. right. simpl. lia.
  - apply Hpre. reflexivity.
Defined.

(** ** The per-line handler of SyncTime *)

(** C1 (as the code behaves): the fields 1 and 9 of the sentence are "123519"
    and "230394", ParseNMEATime maps them to 2094-03-23T12:35:19Z (the year
    is "20" followed by the two digits of the date field), and that is the
    time SyncTime hands to SetSystemTime and logs. *)
Theorem rmc_pipeline_timestamp :
  nth_error (Split rmc ",") 1 = Some "123519"
  /\ nth_error (Split rmc ",") 9 = Some "230394"
  /\ ParseNMEATime "123519" "230394" = Ok (Date 2094 3 23 12 35 19)
  /\ Format_RFC3339 (Date 2094 3 23 12 35 19) = "2094-03-23T12:35:19Z"
  /\ (forall g env w,
        syncLine g env rmc w =
        match SetSystemTime env (Date 2094 3 23 12 35 19) w with
        | (Some err, w') => (Return (Some err), w')
        | (None, w') => (Return None, emit w' (ELog (LogSynced "2094-03-23T12:35:19Z")))
        end)
  /\ SyncTime g0 linuxOk [EvScan (Some rmc) None] [] =
       (Returned None,
        [EOpenFile "/dev/ttyUSB0";
         EExec ["stty"; "-F"; "/dev/ttyUSB0"; "9600"; "raw"; "-echo"];
         ESetSystemTime (Date 2094 3 23 12 35 19);
         EExec ["date"; "-s"; "2094-03-23 12:35:19"];
         ELog (LogSynced "2094-03-23T12:35:19Z");
         EClose "/dev/ttyUSB0"],
        []).
Proof.
  repeat split; reflexivity.
Qed.

(** C1 as stated fails: the parse of the sentence's time and date fields is
    not 1994-03-23T12:35:19Z. *)
Lemma rmc_pipeline_not_1994 :
  nth_error (Split rmc ",") 1 = Some "123519"
  /\ nth_error (Split rmc ",") 9 = Some "230394"
  /\ ParseNMEATime "123519" "230394" <> Ok (Date 1994 3 23 12 35 19).
Proof.
  repeat split. vm_compute. discriminate.
Qed.

Lemma clockSets_emit (w : World) (e : Effect) :
  clockSets (emit w e) = clockSets w + (if isSetSystemTime e then 1 else 0).
Proof.
  unfold clockSets, emit. rewrite filter_app, length_app. simpl.
  destruct (isSetSystemTime e); reflexivity.
Qed.

(** SetSystemTime records exactly one clock-set call, whatever the platform
    and whatever its commands answer. *)
Lemma SetSystemTime_clockSets (env : Env) (t : Time) (w : World) :
  clockSets (snd (SetSystemTime env t w)) = S (clockSets w).
Proof.
  unfold SetSystemTime.
  repeat match goal with
         | |- context [if ?b then _ else _] => destruct b
         | |- context [match runCmd ?e ?a with _ => _ end] => destruct (runCmd e a)
         end; simpl; rewrite ?clockSets_emit; simpl; lia.
Qed.

(** C8: a line that does not begin with "$GPRMC" leaves the handler without
    any effect, so without a clock-set call; the loop goes on to the next
    event (or returns the read error), the trace unchanged.  RMC sentences of
    the talkers GN, GL and GA are such lines. *)
Theorem syncLine_other_prefix :
  (forall g env line w,
     HasPrefix line "$GPRMC" = false ->
     syncLine g env line w = (FallThrough, w)
     /\ clockSets (snd (syncLine g env line w)) = clockSets w
     /\ (forall rest,
          syncLoop g env (EvScan (Some line) None :: rest) w = syncLoop g env rest w)
     /\ (forall rest e,
          syncLoop g env (EvScan (Some line) (Some e) :: rest) w =
          (Returned (Some (ErrReadingDevice e)), w, rest)))
  /\ HasPrefix "$GNRMC,123519,A,4807.038,N,01131.000,E,022.4,084.4,230394,003.1,W*74" "$GPRMC" = false
  /\ HasPrefix "$GLRMC,123519,A,4807.038,N,01131.000,E,022.4,084.4,230394,003.1,W*76" "$GPRMC" = false
  /\ HasPrefix "$GARMC,123519,A,4807.038,N,01131.000,E,022.4,084.4,230394,003.1,W*7B" "$GPRMC" = false.
Proof.
  split; [|repeat split].
  intros g env line w H.
  assert (E : syncLine g env line w = (FallThrough, w))
    by (unfold syncLine; rewrite H; reflexivity).
  repeat split.
  - exact E.
  - rewrite E. reflexivity.
  - intros rest. simpl. rewrite E. reflexivity.
  - intros rest e. simpl. rewrite E. reflexivity.
Qed.

Lemma syncLine_other_prefix_witness :
  syncLine g0 linuxOk "$GNRMC,123519,A,,,,,,,230394" [] = (FallThrough, []).
Proof.
  apply (proj1 syncLine_other_prefix g0 linuxOk). reflexivity.
Defined.

Lemma nth_error_in_range {A} (l : list A) (n : nat) :
  n < List.length l -> exists x, nth_error l n = Some x.
Proof.
  intros H. destruct (nth_error l n) eqn:E; [eauto|].
  apply nth_error_None in E. lia.
Qed.

(** the handler never indexes [fields] out of range *)
Lemma syncLine_no_panic (g : GPSTimeSync) (env : Env) (line : string) (w : World) :
  fst (syncLine g env line w) <> IndexPanic.
Proof.
  unfold syncLine.
  destruct (HasPrefix line "$GPRMC"); [|discriminate].
  destruct (Nat.ltb_spec (List.length (Split line ",")) 10) as [Hlt|Hge];
    [discriminate|].
  destruct (nth_error_in_range (Split line ",") 2) as [f2 E2]; [lia|].
  destruct (nth_error_in_range (Split line ",") 1) as [f1 E1]; [lia|].
  destruct (nth_error_in_range (Split line ",") 9) as [f9 E9]; [lia|].
  rewrite E2, E1, E9.
  destruct (negb (f2 =? "A")); [discriminate|].
  destruct (ParseNMEATime f1 f9); [|discriminate].
  destruct (SetSystemTime env a w) as [[err|] w']; discriminate.
Qed.

Lemma syncLoop_no_panic (g : GPSTimeSync) (env : Env) (evs : list Event) (w : World) :
  fst (fst (syncLoop g env evs w)) <> Panicked.
Proof.
  revert w; induction evs as [|ev evs IH]; intros w; simpl; [discriminate|].
  destruct ev as [|c|tok err]; try discriminate.
  destruct tok as [line|].
  - pose proof (syncLine_no_panic g env line w) as Hnp.
    destruct (syncLine g env line w) as [st w1]. simpl in Hnp.
    destruct st; try discriminate; try apply IH; try congruence.
    destruct err; [discriminate | apply IH].
  - destruct err; [discriminate | apply IH].
Qed.

(** C9: a "$GPRMC" line that splits into fewer than 10 fields is skipped by
    [continue] with no effect, before [fields[2]], [fields[1]] or [fields[9]]
    is evaluated; on no line and in no run does the handler index out of
    range. *)
Theorem syncLine_short_skipped :
  (forall g env line w,
     HasPrefix line "$GPRMC" = true ->
     List.length (Split line ",") < 10 ->
     syncLine g env line w = (Continue, w)
     /\ forall err rest,
          syncLoop g env (EvScan (Some line) err :: rest) w = syncLoop g env rest w)
  /\ (forall g env line w, fst (syncLine g env line w) <> IndexPanic)
  /\ (forall g env evs w, fst (fst (syncLoop g env evs w)) <> Panicked).
Proof.
  split; [|split].
  - intros g env line w Hp Hlen.
    assert (E : syncLine g env line w = (Continue, w)).
    { unfold syncLine. rewrite Hp.
      destruct (Nat.ltb_spec (List.length (Split line ",")) 10); [reflexivity | lia]. }
    split; [exact E|]. intros err rest. simpl. rewrite E. reflexivity.
  - exact syncLine_no_panic.
  - exact syncLoop_no_panic.
Qed.

Lemma syncLine_short_skipped_witness :
  syncLine g0 linuxOk "$GPRMC,123519,A" [] = (Continue, []).
Proof.
  apply (proj1 syncLine_short_skipped g0 linuxOk); [reflexivity | simpl; lia].
Defined.

(** C10: a device path that does not start with "/dev/" (or, on Windows,
    with "COM") makes IsGPSDevice return false and an error at once: no
    event is consumed and the trace is unchanged, so the device is neither
    opened nor configured. *)
Theorem IsGPSDevice_invalid_path (g : GPSTimeSync) (env : Env) (device : string)
    (evs : list Event) (w : World) :
  (if GOOS env =? "windows" then HasPrefix device "COM"
   else HasPrefix device "/dev/") = false ->
  IsGPSDevice g env device evs w =
    (Returned (false, Some (ErrInvalidDevicePath device)), w, evs)
  /\ filter touchesDevice (snd (fst (IsGPSDevice g env device evs w)))
     = filter touchesDevice w.
Proof.
  intros H.
  assert (E : IsGPSDevice g env device evs w =
              (Returned (false, Some (ErrInvalidDevicePath device)), w, evs)).
  { unfold IsGPSDevice. destruct (GOOS env =? "windows"); rewrite H; reflexivity. }
  rewrite E. split; reflexivity.
Qed.

Lemma IsGPSDevice_invalid_path_witness :
  IsGPSDevice g0 linuxOk "ttyUSB0" [EvScan (Some "$GPGGA,1") None] [] =
    (Returned (false, Some (ErrInvalidDevicePath "ttyUSB0")), [],
     [EvScan (Some "$GPGGA,1") None])
  /\ fst (fst (IsGPSDevice g0 windowsOk "/dev/ttyUSB0" [] [])) =
     Returned (false, Some (ErrInvalidDevicePath "/dev/ttyUSB0")).
Proof.
  split.
  - apply (IsGPSDevice_invalid_path g0 linuxOk "ttyUSB0"). reflexivity.
  - rewrite (proj1 (IsGPSDevice_invalid_path g0 windowsOk "/dev/ttyUSB0" [] []
                      eq_refl)).
    reflexivity.
Defined.

(** ** Status "A" and status "V" *)

Lemma nth_error_length_ge {A} (l : list A) (n : nat) (x : A) :
  nth_error l n = Some x -> (List.length l <? S n)%nat = false.
Proof.
  intros H. apply Nat.ltb_ge.
  assert (n < List.length l) by (apply nth_error_Some; congruence). lia.
Qed.

(** the handler on a "$GPRMC" line with status "A" and fields 1 and 9 *)
Lemma syncLine_active (g : GPSTimeSync) (env : Env) (line f1 f9 : string) (w : World) :
  HasPrefix line "$GPRMC" = true ->
  nth_error (Split line ",") 2 = Some "A" ->
  nth_error (Split line ",") 1 = Some f1 ->
  nth_error (Split line ",") 9 = Some f9 ->
  syncLine g env line w =
    match ParseNMEATime f1 f9 with
    | Err err => (Continue, if Debug g then emit w (ELog (LogParseWarning err)) else w)
    | Ok gpsTime =>
        match SetSystemTime env gpsTime w with
        | (Some err, w') => (Return (Some err), w')
        | (None, w') => (Return None, emit w' (ELog (LogSynced (Format_RFC3339 gpsTime))))
        end
    end.
Proof.
  intros Hp H2 H1 H9. unfold syncLine.
  rewrite Hp, (nth_error_length_ge _ _ _ H9), H2, H1, H9. reflexivity.
Qed.

(** what the handler and the loop return does not depend on the trace *)
Lemma SetSystemTime_result_indep (env : Env) (t : Time) (w1 w2 : World) :
  fst (SetSystemTime env t w1) = fst (SetSystemTime env t w2).
Proof.
  unfold SetSystemTime.
  repeat match goal with
         | |- context [if ?b then _ else _] => destruct b
         | |- context [match runCmd ?e ?a with _ => _ end] => destruct (runCmd e a)
         end; reflexivity.
Qed.

Lemma syncLine_step_indep (g : GPSTimeSync) (env : Env) (line : string)
    (w1 w2 : World) :
  fst (syncLine g env line w1) = fst (syncLine g env line w2).
Proof.
  unfold syncLine.
  destruct (HasPrefix line "$GPRMC"); [|reflexivity].
  destruct (List.length (Split line ",") <? 10)%nat; [reflexivity|].
  destruct (nth_error (Split line ",") 2) as [f2|]; [|reflexivity].
  destruct (negb (f2 =? "A")); [reflexivity|].
  destruct (nth_error (Split line ",") 1) as [f1|]; [|reflexivity].
  destruct (nth_error (Split line ",") 9) as [f9|]; [|reflexivity].
  destruct (ParseNMEATime f1 f9) as [t|e]; [|reflexivity].
  pose proof (SetSystemTime_result_indep env t w1 w2) as H.
  destruct (SetSystemTime env t w1) as [[e1|] v1];
    destruct (SetSystemTime env t w2) as [[e2|] v2]; simpl in *; congruence.
Qed.

Lemma syncLoop_result_indep (g : GPSTimeSync) (env : Env) (evs : list Event)
    (w1 w2 : World) :
  fst (fst (syncLoop g env evs w1)) = fst (fst (syncLoop g env evs w2))
  /\ snd (syncLoop g env evs w1) = snd (syncLoop g env evs w2).
Proof.
  revert w1 w2; induction evs as [|ev evs IH]; intros w1 w2; simpl; [auto|].
  destruct ev as [|c|tok err]; simpl; auto.
  destruct tok as [line|].
  - pose proof (syncLine_step_indep g env line w1 w2) as H.
    destruct (syncLine g env line w1) as [s1 v1];
      destruct (syncLine g env line w2) as [s2 v2]; simpl in H; subst s2.
    destruct s1; simpl; auto. destruct err; simpl; auto.
  - destruct err; simpl; auto.
Qed.

(** C5: a "$GPRMC" line with status "A" whose time and date do not parse is
    skipped: the handler leaves by [continue], its only effect is the warning
    that is logged when Debug is on, no clock-set call is made, and the loop
    goes on with the following events exactly as if the line had not been
    read (even the [scanner.Err()] test of that turn is skipped).  So SyncTime
    returns on the stream with the line what it returns on the stream
    without it: the line alone never makes it return. *)
Theorem syncLine_parse_failure_skipped (g : GPSTimeSync) (env : Env)
    (line f1 f9 : string) (e : error) (w : World) :
  HasPrefix line "$GPRMC" = true ->
  nth_error (Split line ",") 2 = Some "A" ->
  nth_error (Split line ",") 1 = Some f1 ->
  nth_error (Split line ",") 9 = Some f9 ->
  ParseNMEATime f1 f9 = Err e ->
  let w' := if Debug g then emit w (ELog (LogParseWarning e)) else w in
  syncLine g env line w = (Continue, w')
  /\ clockSets w' = clockSets w
  /\ (forall err rest,
       syncLoop g env (EvScan (Some line) err :: rest) w = syncLoop g env rest w')
  /\ (forall err rest,
       fst (fst (SyncTime g env (EvScan (Some line) err :: rest) w))
       = fst (fst (SyncTime g env rest w))).
Proof.
  intros Hp H2 H1 H9 He w'.
  assert (E : forall w0, syncLine g env line w0 =
                (Continue, if Debug g then emit w0 (ELog (LogParseWarning e)) else w0)).
  { intros w0. rewrite (syncLine_active g env line f1 f9 w0 Hp H2 H1 H9), He.
    reflexivity. }
  split; [apply E|]. split; [|split].
  - subst w'. destruct (Debug g); [|reflexivity].
    rewrite clockSets_emit. simpl. lia.
  - intros err rest. simpl. rewrite E. reflexivity.
  - intros err rest. unfold SyncTime.
    destruct (openFile env (DevicePath g)); [reflexivity|].
    destruct (ConfigureSerialPort env (DevicePath g) (BaudRate g)
                (emit w (EOpenFile (DevicePath g)))) as [[ce|] w1]; [reflexivity|].
    simpl syncLoop. rewrite E.
    match goal with
    | |- context [syncLoop g env rest ?v] =>
        destruct (syncLoop_result_indep g env rest v w1) as [Ho _];
        destruct (syncLoop g env rest v) as [[o1 v1] r1];
        destruct (syncLoop g env rest w1) as [[o2 v2] r2]
    end.
    simpl in *. exact Ho.
Qed.

Lemma syncLine_parse_failure_skipped_witness :
  syncLine g0 linuxOk "$GPRMC,123519,A,,,,,,,310294" [] =
    (Continue, [ELog (LogParseWarning (ErrTimeParse "2094-02-31 12:35:19"))])
  /\ SyncTime g0 linuxOk
       [EvScan (Some "$GPRMC,123519,A,,,,,,,310294") None; EvTimeout] [] =
     (Returned (Some ErrNoValidData),
      [EOpenFile "/dev/ttyUSB0";
       EExec ["stty"; "-F"; "/dev/ttyUSB0"; "9600"; "raw"; "-echo"];
       ELog (LogParseWarning (ErrTimeParse "2094-02-31 12:35:19"));
       EClose "/dev/ttyUSB0"], []).
Proof.
  split.
  - apply (syncLine_parse_failure_skipped g0 linuxOk
             "$GPRMC,123519,A,,,,,,,310294" "123519" "310294"
             (ErrTimeParse "2094-02-31 12:35:19") []); reflexivity.
  - reflexivity.
Defined.

(** C3 (as the code behaves): a "$GPRMC" line with status "V" is skipped
    without any effect.  A "$GPRMC" line with status "A" whose time and date
    parse to [t] makes exactly one SetSystemTime call, with [t], and SyncTime's
    loop returns at once, the following events unread: it returns nil when
    that call succeeds, and the call's error when it fails. *)
Theorem syncLine_status :
  (forall g env line w,
     HasPrefix line "$GPRMC" = true ->
     nth_error (Split line ",") 2 = Some "V" ->
     syncLine g env line w = (Continue, w)
     /\ forall err rest,
          syncLoop g env (EvScan (Some line) err :: rest) w = syncLoop g env rest w)
  /\ (forall g env line f1 f9 t w,
       HasPrefix line "$GPRMC" = true ->
       nth_error (Split line ",") 2 = Some "A" ->
       nth_error (Split line ",") 1 = Some f1 ->
       nth_error (Split line ",") 9 = Some f9 ->
       ParseNMEATime f1 f9 = Ok t ->
       forall err rest,
       exists w',
         syncLoop g env (EvScan (Some line) err :: rest) w =
           (Returned (fst (SetSystemTime env t w)), w', rest)
         /\ clockSets w' = S (clockSets w)
         /\ In (ESetSystemTime t) w').
Proof.
  split.
  - intros g env line w Hp H2.
    assert (E : syncLine g env line w = (Continue, w)).
    { unfold syncLine. rewrite Hp.
      destruct (List.length (Split line ",") <? 10)%nat; [reflexivity|].
      rewrite H2. reflexivity. }
    split; [exact E|]. intros err rest. simpl. rewrite E. reflexivity.
  - intros g env line f1 f9 t w Hp H2 H1 H9 Ht err rest.
    pose proof (syncLine_active g env line f1 f9 w Hp H2 H1 H9) as E.
    rewrite Ht in E.
    pose proof (SetSystemTime_clockSets env t w) as Hc.
    assert (Hin : In (ESetSystemTime t) (snd (SetSystemTime env t w))).
    { unfold SetSystemTime, emit.
      repeat match goal with
             | |- context [if ?b then _ else _] => destruct b
             | |- context [match runCmd ?e ?a with _ => _ end] => destruct (runCmd e a)
             end; simpl; rewrite ?in_app_iff; simpl; tauto. }
    simpl. rewrite E.
    destruct (SetSystemTime env t w) as [[e|] w1]; simpl in *.
    + exists w1. auto.
    + exists (emit w1 (ELog (LogSynced (Format_RFC3339 t)))).
      split; [reflexivity|]. split.
      * rewrite clockSets_emit. simpl. lia.
      * unfold emit. rewrite in_app_iff. auto.
Qed.

Lemma syncLine_status_witness :
  syncLine g0 linuxOk rmcVoid [] = (Continue, [])
  /\ exists w',
       syncLoop g0 linuxNoRoot [EvScan (Some rmc) None; EvTimeout] [] =
         (Returned (fst (SetSystemTime linuxNoRoot (Date 2094 3 23 12 35 19) [])),
          w', [EvTimeout])
       /\ clockSets w' = 1
       /\ In (ESetSystemTime (Date 2094 3 23 12 35 19)) w'.
Proof.
  split.
  - apply (proj1 syncLine_status g0 linuxOk rmcVoid []); reflexivity.
  - apply (proj2 syncLine_status g0 linuxNoRoot rmc "123519" "230394"
             (Date 2094 3 23 12 35 19) []); reflexivity.
Defined.

(** C3 as stated fails: the line has status "A" and its time and date parse,
    SetSystemTime is called once, but [date -s] fails and SyncTime returns
    that error, not success. *)
Lemma syncTime_clock_failure :
  HasPrefix rmc "$GPRMC" = true
  /\ nth_error (Split rmc ",") 2 = Some "A"
  /\ ParseNMEATime "123519" "230394" = Ok (Date 2094 3 23 12 35 19)
  /\ SyncTime g0 linuxNoRoot [EvScan (Some rmc) None; EvTimeout] [] =
       (Returned (Some (ErrSystemTimeUpdate "exit status 1")),
        [EOpenFile "/dev/ttyUSB0";
         EExec ["stty"; "-F"; "/dev/ttyUSB0"; "9600"; "raw"; "-echo"];
         ESetSystemTime (Date 2094 3 23 12 35 19);
         EExec ["date"; "-s"; "2094-03-23 12:35:19"];
         EClose "/dev/ttyUSB0"],
        [EvTimeout])
  /\ fst (fst (SyncTime g0 linuxNoRoot [EvScan (Some rmc) None; EvTimeout] []))
       <> Returned None.
Proof.
  repeat split. vm_compute. discriminate.
Qed.

(** ** The device probe *)



(** ** The probe in time *)

(** the reads that return before the deadline are all scanned *)
Lemma turns_before (deadline : N) (run : Timed.Run) (pre rs : list Timed.Read) (now : N) :
  Timed.cancelled run = None ->
  (now < deadline)%N ->
  forallb (Timed.before deadline) pre = true ->
  exists now', (now' < deadline)%N
    /\ Timed.turns deadline run now (pre ++ rs) =
       (map Timed.turnOf pre ++ Timed.turns deadline run now' rs)%list.
Proof.
  intros Hc. revert now; induction pre as [|r pre IH]; intros now Hn Hb.
  - exists now. split; [exact Hn | reflexivity].
  - simpl in Hb. apply andb_true_iff in Hb as [Hr Hb].
    unfold Timed.before in Hr. apply N.ltb_lt in Hr.
    destruct (IH (N.max now (Timed.ready r))) as (now' & Hn' & E); [lia | exact Hb |].
    exists now'. split; [exact Hn'|].
    cbn [app map Timed.turns]. unfold Timed.selectCase at 1. rewrite Hc.
    destruct (N.leb_spec deadline now) as [H|H]; [lia|].
    rewrite E. reflexivity.
Qed.

(** before the deadline a silent device ends the turns; a read that returns
    at or after the deadline is scanned and the timeout case runs next *)
Lemma turns_silent (deadline : N) (run : Timed.Run) (now : N) :
  Timed.cancelled run = None -> (now < deadline)%N ->
  Timed.turns deadline run now [] = [].
Proof.
  intros Hc Hn. cbn [Timed.turns]. unfold Timed.selectCase. rewrite Hc.
  destruct (N.leb_spec deadline now); [lia | reflexivity].
Qed.

Lemma turns_read (deadline : N) (run : Timed.Run) (now : N) (r : Timed.Read)
    (post : list Timed.Read) :
  Timed.cancelled run = None -> (now < deadline)%N ->
  exists evs, Timed.turns deadline run now (r :: post) = Timed.turnOf r :: evs
    /\ ((deadline <= Timed.ready r)%N -> evs = [EvTimeout]).
Proof.
  intros Hc Hn. cbn [Timed.turns]. unfold Timed.selectCase at 1. rewrite Hc.
  destruct (N.leb_spec deadline now); [lia|].
  eexists. split; [reflexivity|]. intros Hr.
  destruct post; cbn [Timed.turns]; unfold Timed.selectCase; rewrite Hc;
    destruct (N.leb_spec deadline (N.max now (Timed.ready r))); (lia || reflexivity).
Qed.

Lemma forallb_and {A} (p q : A -> bool) (l : list A) :
  forallb (fun x => p x && q x) l = true ->
  forallb p l = true /\ forallb q l = true.
Proof.
  induction l as [|x l IH]; simpl; [auto|]. intros H.
  apply andb_true_iff in H as [Hx Hl]. apply andb_true_iff in Hx as [Hp Hq].
  destruct (IH Hl) as [H1 H2]. rewrite Hp, Hq, H1, H2. auto.
Qed.

Lemma forallb_turnOf (p : Event -> bool) (l : list Timed.Read) :
  forallb (fun r => p (Timed.turnOf r)) l = forallb p (map Timed.turnOf l).
Proof. induction l as [|x l IH]; simpl; [reflexivity | now rewrite IH]. Qed.




(** ** The sentence encoder *)

Section Checksum.

Import SpecCodec.

Lemma byte_bound (c : ascii) : (byte c < 256)%N.
Proof. unfold byte. apply N_ascii_bounded. Qed.

Lemma lxor_below_256 (a b : N) : (a < 256 -> b < 256 -> N.lxor a b < 256)%N.
Proof.
  intros Ha Hb.
  destruct (N.eq_dec (N.lxor a b) 0) as [E|E]; [rewrite E; reflexivity|].
  change 256%N with (2 ^ 8)%N in *.
  apply N.log2_lt_pow2; [lia|].
  pose proof (N.log2_lxor a b) as Hl.
  assert (La : (N.log2 a < 8)%N).
  { destruct (N.eq_dec a 0) as [->|Na]; [reflexivity|].
    apply N.log2_lt_pow2; [lia | exact Ha]. }
  assert (Lb : (N.log2 b < 8)%N).
  { destruct (N.eq_dec b 0) as [->|Nb]; [reflexivity|].
    apply N.log2_lt_pow2; [lia | exact Hb]. }
  lia.
Qed.

Lemma ComputeChecksum_bound (body : string) : (ComputeChecksum body < 256)%N.
Proof.
  unfold ComputeChecksum. induction body as [|c body IH]; simpl.
  - reflexivity.
  - apply lxor_below_256; [apply byte_bound | exact IH].
Qed.

(** the loop of addChecksumAndCRLF computes the XOR of all the bytes *)
Lemma xorLoop_fold (body : string) (acc : N) :
  xorLoop body acc = N.lxor acc (ComputeChecksum body).
Proof.
  revert acc; induction body as [|c body IH]; intros acc; simpl.
  - unfold ComputeChecksum. simpl. now rewrite N.lxor_0_r.
  - rewrite IH. unfold ComputeChecksum. simpl. now rewrite N.lxor_assoc.
Qed.

Lemma nibble_cases (d : N) :
  (d < 16)%N ->
  In d [0; 1; 2; 3; 4; 5; 6; 7; 8; 9; 10; 11; 12; 13; 14; 15]%N.
Proof.
  intros H. simpl.
  destruct d as [|p]; [auto|].
  do 4 (destruct p as [p|p|]; try lia; auto 20).
Qed.

(** the digit that [%X] prints for a nibble is the character at that
    position of "0123456789ABCDEF" *)
Lemma hexDigitUpper_get (d : N) :
  (d < 16)%N ->
  String.get (N.to_nat d) "0123456789ABCDEF" = Some (hexDigitUpper d)
  /\ hexDigitUpper d = upperHexDigit d.
Proof.
  intros H. apply nibble_cases in H. simpl in H.
  repeat (destruct H as [<-|H]; [split; reflexivity|]). contradiction.
Qed.

(** below 256, [%02X] prints the high and the low nibble *)
Lemma fmt02X_nibbles (n : N) :
  (n < 256)%N ->
  fmt02X n = String (hexDigitUpper (n / 16)) (String (hexDigitUpper (n mod 16)) EmptyString).
Proof.
  intros H. unfold fmt02X.
  assert (Hq : (n / 16 < 16)%N) by (apply N.Div0.div_lt_upper_bound; lia).
  cbn [hexDigits].
  destruct (N.eqb_spec (n / 16) 0) as [E|E].
  - rewrite E. reflexivity.
  - rewrite (N.div_small (n / 16) 16 Hq), (N.mod_small (n / 16) 16 Hq).
    reflexivity.
Qed.

Lemma fmt02X_byte (n : N) : (n < 256)%N -> fmt02X n = uppercaseHex n.
Proof.
  intros H. rewrite (fmt02X_nibbles n H). unfold uppercaseHex.
  assert (Hq : (n / 16 < 16)%N) by (apply N.Div0.div_lt_upper_bound; lia).
  assert (Hr : (n mod 16 < 16)%N) by (apply N.mod_lt; lia).
  rewrite (proj2 (hexDigitUpper_get _ Hq)), (proj2 (hexDigitUpper_get _ Hr)).
  reflexivity.
Qed.

Lemma addChecksumAndCRLF_Encode (b : string) :
  addChecksumAndCRLF b = Encode b.
Proof.
  unfold addChecksumAndCRLF, Encode.
  rewrite xorLoop_fold, N.lxor_0_l.
  rewrite (fmt02X_byte _ (ComputeChecksum_bound b)). reflexivity.
Qed.

End Checksum.

(** C6: for every body, addChecksumAndCRLF returns "$", the body, "*", two
    characters and "\r\n" (carriage return, line feed).  The two characters
    are the uppercase hexadecimal digits of the XOR of all the bytes of the
    body, a value below 256: the characters of "0123456789ABCDEF" at the
    positions of its high and of its low nibble.  This is the Encode of the
    specification, and the encoder is a function of the body alone.  The
    last lines give the digits for bodies whose checksums are 0x0A, 0x4B,
    0x64 and 0xEF. *)
Theorem addChecksumAndCRLF_spec (b : string) :
  let c := SpecCodec.ComputeChecksum b in
  (exists hi lo : ascii,
      addChecksumAndCRLF b =
        "$" ++ b ++ "*" ++ String hi (String lo (String "013" (String "010" "")))
      /\ String.get (N.to_nat (c / 16)) "0123456789ABCDEF" = Some hi
      /\ String.get (N.to_nat (c mod 16)) "0123456789ABCDEF" = Some lo)
  /\ addChecksumAndCRLF b = SpecCodec.Encode b
  /\ (c < 256)%N
  /\ String.length (addChecksumAndCRLF b) = String.length b + 6
  /\ addChecksumAndCRLF (String "010" "") =
       String "$" (String "010" (String "*" (String "0" (String "A"
         (String "013" (String "010" ""))))))
  /\ addChecksumAndCRLF "K" = "$K*4B" ++ String "013" (String "010" "")
  /\ addChecksumAndCRLF "GPGLL,,,,,,V,N" =
       "$GPGLL,,,,,,V,N*64" ++ String "013" (String "010" "")
  /\ addChecksumAndCRLF (String "239" "") =
       String "$" (String "239" (String "*" (String "E" (String "F"
         (String "013" (String "010" "")))))).
Proof.
  intros c. pose proof (addChecksumAndCRLF_Encode b) as E.
  pose proof (ComputeChecksum_bound b) as Hlt. fold c in Hlt.
  assert (Hq : (c / 16 < 16)%N) by (apply N.Div0.div_lt_upper_bound; lia).
  assert (Hr : (c mod 16 < 16)%N) by (apply N.mod_lt; lia).
  split; [|split; [exact E|split; [exact Hlt|split]]].
  - exists (hexDigitUpper (c / 16)), (hexDigitUpper (c mod 16)).
    split; [|split; [exact (proj1 (hexDigitUpper_get _ Hq))
                    | exact (proj1 (hexDigitUpper_get _ Hr))]].
    unfold addChecksumAndCRLF. rewrite xorLoop_fold, N.lxor_0_l.
    fold c. rewrite (fmt02X_nibbles c Hlt). reflexivity.
  - unfold addChecksumAndCRLF.
    rewrite xorLoop_fold, N.lxor_0_l. fold c. rewrite (fmt02X_nibbles c Hlt).
    change (S (len (b ++ String "*" (String (hexDigitUpper (c / 16))
                 (String (hexDigitUpper (c mod 16)) CRLF)))) = len b + 6).
    rewrite len_app. simpl. lia.
  - repeat split; vm_compute; reflexivity.
Qed.

(** ** Round trip through the decoder of the specification *)

Section RoundTrip.

Import SpecCodec.

Lemma append_assoc (a b c : string) : (a ++ b) ++ c = a ++ (b ++ c).
Proof. induction a; simpl; congruence. Qed.

Lemma stripCRLF_app_CRLF (s : string) : stripCRLF (s ++ CRLF) = stripCRLF s.
Proof.
  induction s as [|c s IH]; [reflexivity|].
  simpl. rewrite IH. reflexivity.
Qed.

Lemma stripCRLF_last (s : string) (c : ascii) :
  isCRLF c = false ->
  stripCRLF (s ++ String c EmptyString) = s ++ String c EmptyString.
Proof.
  intros Hc. induction s as [|a s IH]; simpl.
  - rewrite Hc. reflexivity.
  - rewrite IH. destruct s; reflexivity.
Qed.

Lemma cutStar_body (b cs : string) :
  validBody b = true -> cutStar (b ++ String "*" cs) = Some (b, cs).
Proof.
  unfold validBody. induction b as [|c b IH]; simpl; intros H.
  - reflexivity.
  - apply andb_true_iff in H as [Hc Hb].
    apply negb_true_iff in Hc. rewrite Hc, (IH Hb). reflexivity.
Qed.

Lemma hexVal_hexDigitUpper (d : N) :
  (d < 16)%N -> hexVal (hexDigitUpper d) = Some d /\ isCRLF (hexDigitUpper d) = false.
Proof.
  intros H. apply nibble_cases in H. simpl in H.
  repeat (destruct H as [<-|H]; [split; reflexivity|]). contradiction.
Qed.

(** the decoder on a framed line: "$", body, "*", two hex digits, CR LF *)
Lemma Decode_framed (b : string) (h l : ascii) (x y : N) :
  validBody b = true ->
  hexVal h = Some x -> hexVal l = Some y -> isCRLF l = false ->
  Decode (String "$" (b ++ String "*" (String h (String l CRLF)))) =
    Decoded (mkSentence (substring 0 2 (hd EmptyString (Split b ",")))
                        (substring 2 3 (hd EmptyString (Split b ",")))
                        (tl (Split b ",")) (16 * x + y)
                        (ComputeChecksum b =? 16 * x + y)%N).
Proof.
  intros Hb Vh Vl Cl.
  assert (Es : stripCRLF (String "$" (b ++ String "*" (String h (String l CRLF))))
               = String "$" (b ++ String "*" (String h (String l EmptyString)))).
  { replace (String "$" (b ++ String "*" (String h (String l CRLF))))
      with ((String "$" (b ++ String "*" (String h EmptyString))
             ++ String l EmptyString) ++ CRLF)
      by (simpl; rewrite !append_assoc; reflexivity).
    rewrite stripCRLF_app_CRLF, (stripCRLF_last _ _ Cl).
    simpl. rewrite append_assoc. reflexivity. }
  unfold Decode. rewrite Es. cbv beta iota.
  rewrite Ascii.eqb_refl, (cutStar_body b _ Hb). cbv beta iota.
  rewrite Vh, Vl. reflexivity.
Qed.

Lemma Decode_Encode (b : string) :
  validBody b = true ->
  Decode (Encode b) =
    Decoded (mkSentence (substring 0 2 (hd EmptyString (Split b ",")))
                        (substring 2 3 (hd EmptyString (Split b ",")))
                        (tl (Split b ",")) (ComputeChecksum b) true).
Proof.
  intros Hb.
  pose proof (ComputeChecksum_bound b) as Hlt.
  assert (Hhi : (ComputeChecksum b / 16 < 16)%N)
    by (apply N.Div0.div_lt_upper_bound; lia).
  assert (Hlo : (ComputeChecksum b mod 16 < 16)%N) by (apply N.mod_lt; lia).
  destruct (hexVal_hexDigitUpper _ Hhi) as [Vh _].
  destruct (hexVal_hexDigitUpper _ Hlo) as [Vl Cl].
  rewrite <- (addChecksumAndCRLF_Encode b). unfold addChecksumAndCRLF.
  rewrite xorLoop_fold, N.lxor_0_l, (fmt02X_nibbles _ Hlt).
  match goal with
  | |- Decode _ = ?r =>
      change (Decode (String "$" (b ++ String "*"
                (String (hexDigitUpper (ComputeChecksum b / 16))
                   (String (hexDigitUpper (ComputeChecksum b mod 16)) CRLF)))) = r)
  end.
  rewrite (Decode_framed b _ _ _ _ Hb Vh Vl Cl).
  rewrite <- (N.div_mod (ComputeChecksum b) 16) by lia.
  rewrite N.eqb_refl. reflexivity.
Qed.

End RoundTrip.

(** C7: for every valid body (one without the delimiter [*]), the decoder of
    the specification accepts what addChecksumAndCRLF produces and finds the
    checksum valid: the two digits the encoder appends are the checksum the
    decoder recomputes over the body. *)
Theorem decode_encode_checksumValid (b : string) :
  SpecCodec.validBody b = true ->
  exists s, SpecCodec.Decode (addChecksumAndCRLF b) = SpecCodec.Decoded s
            /\ SpecCodec.checksumValid s = true
            /\ SpecCodec.checksum s = xorLoop b 0.
Proof.
  intros Hb. eexists.
  rewrite addChecksumAndCRLF_Encode, (Decode_Encode b Hb).
  rewrite xorLoop_fold, N.lxor_0_l. repeat split.
Qed.

Lemma decode_encode_checksumValid_witness :
  exists s, SpecCodec.Decode (addChecksumAndCRLF rmcBody) = SpecCodec.Decoded s
            /\ SpecCodec.checksumValid s = true
            /\ SpecCodec.checksum s = xorLoop rmcBody 0.
Proof.
  apply (decode_encode_checksumValid rmcBody). reflexivity.
Defined.
(** ** ParseNMEATime: what it accepts and what it returns *)

Lemma isDigitChar_val (c : ascii) :
  isDigitChar c = true -> (0 <= digitVal c <= 9)%Z.
Proof.
  unfold isDigitChar, digitVal. intros H.
  apply andb_true_iff in H as [H1 H2].
  apply N.leb_le in H1, H2. lia.
Qed.

Lemma isDigitChar_not_space (c : ascii) :
  isDigitChar c = true -> Ascii.eqb c " " = false.
Proof.
  intros H. destruct (Ascii.eqb_spec c " ") as [->|]; [discriminate H | reflexivity].
Qed.

Lemma skip1_same (c : ascii) (rest : string) :
  Ascii.eqb c " " = false -> skip1 (String c rest) c = Some rest.
Proof. intros H. unfold skip1. rewrite H, Ascii.eqb_refl. reflexivity. Qed.

Lemma skip1_space_digit (a : ascii) (rest : string) :
  isDigitChar a = true ->
  skip1 (String " " (String a rest)) " " = Some (String a rest).
Proof.
  intros H. unfold skip1. cbn. rewrite (isDigitChar_not_space a H). reflexivity.
Qed.

Lemma getnum_two (a b : ascii) (rest : string) (fixed : bool) :
  isDigitChar a = true -> isDigitChar b = true ->
  getnum (String a (String b rest)) fixed = Some ((digitVal a * 10 + digitVal b)%Z, rest).
Proof. intros Ha Hb. unfold getnum. rewrite Ha, Hb. reflexivity. Qed.

Ltac guard_ok :=
  match goal with
  | |- context [guard ?b] =>
      let E := fresh "E" in
      assert (E : b = true)
        by (repeat match goal with
                   | |- context [(?x <=? ?y)%Z] => destruct (Z.leb_spec x y)
                   | |- context [(?x <? ?y)%Z] => destruct (Z.ltb_spec x y)
                   end; simpl; (reflexivity || lia));
      rewrite E; cbn [guard bind]
  end.

(** the parse of a value whose twelve free characters are digits *)
Lemma parseFields_digits (y1 y2 m1 m2 d1 d2 h1 h2 n1 n2 s1 s2 : ascii) :
  isDigitChar y1 = true -> isDigitChar y2 = true ->
  isDigitChar m1 = true -> isDigitChar m2 = true ->
  isDigitChar d1 = true -> isDigitChar d2 = true ->
  isDigitChar h1 = true -> isDigitChar h2 = true ->
  isDigitChar n1 = true -> isDigitChar n2 = true ->
  isDigitChar s1 = true -> isDigitChar s2 = true ->
  let y := (2000 + (digitVal y1 * 10 + digitVal y2))%Z in
  let mo := (digitVal m1 * 10 + digitVal m2)%Z in
  let d := (digitVal d1 * 10 + digitVal d2)%Z in
  let h := (digitVal h1 * 10 + digitVal h2)%Z in
  let mi := (digitVal n1 * 10 + digitVal n2)%Z in
  let s := (digitVal s1 * 10 + digitVal s2)%Z in
  (1 <= mo <= 12)%Z -> (1 <= d <= daysIn mo y)%Z ->
  (h < 24)%Z -> (mi < 60)%Z -> (s < 60)%Z ->
  parseFields
    (String "2" (String "0" (String y1 (String y2 (String "-"
      (String m1 (String m2 (String "-" (String d1 (String d2 (String " "
        (String h1 (String h2 (String ":" (String n1 (String n2 (String ":"
          (String s1 (String s2 EmptyString)))))))))))))))))))
  = Some (Date y mo d h mi s).
Proof.
  intros Hy1 Hy2 Hm1 Hm2 Hd1 Hd2 Hh1 Hh2 Hn1 Hn2 Hs1 Hs2 y mo d h mi s Rmo Rd Rh Rmi Rs.
  pose proof (isDigitChar_val _ Hh1). pose proof (isDigitChar_val _ Hh2).
  pose proof (isDigitChar_val _ Hn1). pose proof (isDigitChar_val _ Hn2).
  pose proof (isDigitChar_val _ Hs1). pose proof (isDigitChar_val _ Hs2).
  unfold parseFields, longYear.
  change (isDigitChar "2") with true. change (isDigitChar "0") with true.
  rewrite Hy1, Hy2. cbn [andb bind].
  replace (digitVal "2" * 1000 + digitVal "0" * 100 + digitVal y1 * 10 + digitVal y2)%Z
    with y by (subst y; change (digitVal "2") with 2%Z;
               change (digitVal "0") with 0%Z; lia).
  rewrite skip1_same by reflexivity. cbn [bind].
  rewrite (getnum_two m1 m2) by assumption. cbn [bind]. fold mo. guard_ok.
  rewrite skip1_same by reflexivity. cbn [bind].
  rewrite (getnum_two d1 d2) by assumption. cbn [bind]. fold d.
  rewrite skip1_space_digit by assumption. cbn [bind].
  rewrite (getnum_two h1 h2) by assumption. cbn [bind]. fold h. guard_ok.
  rewrite skip1_same by reflexivity. cbn [bind].
  rewrite (getnum_two n1 n2) by assumption. cbn [bind]. fold mi. guard_ok.
  rewrite skip1_same by reflexivity. cbn [bind].
  rewrite (getnum_two s1 s2) by assumption. cbn [bind]. fold s. guard_ok.
  cbn [fracSecond String.length Nat.eqb guard bind]. guard_ok.
  reflexivity.
Qed.

Lemma substring_two (s : string) (n : nat) :
  n + 2 <= String.length s ->
  exists a b, substring n 2 s = String a (String b EmptyString).
Proof.
  revert n; induction s as [|c s IH]; intros n H; simpl in H; [lia|].
  destruct n as [|n].
  - destruct s as [|c' s]; simpl in H; [lia|]. exists c, c'. simpl.
    destruct s; reflexivity.
  - simpl. apply IH. lia.
Qed.

Lemma slice_two (s : string) (i : nat) :
  i + 2 <= len s -> exists a b, slice s i (i + 2) = String a (String b EmptyString).
Proof.
  intros H. unfold slice. replace (i + 2 - i) with 2 by lia.
  apply substring_two. exact H.
Qed.

Ltac split_guards :=
  repeat match goal with
         | H : negb _ = true |- _ => apply negb_true_iff in H
         | H : (_ || _) = false |- _ => apply orb_false_iff in H as [? ?]
         | H : (_ && _) = true |- _ => apply andb_true_iff in H as [? ?]
         | H : (_ <=? _)%Z = false |- _ => apply Z.leb_gt in H
         | H : (_ <? _)%Z = false |- _ => apply Z.ltb_ge in H
         | H : (_ <=? _)%Z = true |- _ => apply Z.leb_le in H
         | H : (_ <? _)%Z = true |- _ => apply Z.ltb_lt in H
         end.

Lemma parseFields_19 (y1 y2 m1 m2 d1 d2 h1 h2 n1 n2 s1 s2 : ascii) (r : Time) :
  parseFields
    (String "2" (String "0" (String y1 (String y2 (String "-"
      (String m1 (String m2 (String "-" (String d1 (String d2 (String " "
        (String h1 (String h2 (String ":" (String n1 (String n2 (String ":"
          (String s1 (String s2 EmptyString)))))))))))))))))))
  = Some r ->
  validTime r = true /\ (2000 <= year r <= 2099)%Z /\ nsec r = 0%Z.
Proof.
  intros H.
  unfold parseFields, longYear, getnum, skip1, fracSecond, guard, bind in H.
  Opaque digitVal isDigitChar daysIn.
  cbn in H.
  repeat match type of H with
         | context [if ?b then _ else _] => destruct b eqn:?; cbn in H; try discriminate H
         end.
  all: repeat match goal with
             | Hq : (if ?b then _ else _) = Some _ |- _ =>
                 destruct b eqn:?; [clear Hq | discriminate Hq]
             end.
  all: injection H as <-.
  Transparent digitVal isDigitChar daysIn.
  all: change (digitVal "2") with 2%Z in *; change (digitVal "0") with 0%Z in *.
  all: split_guards.
  all: repeat match goal with
              | Hd : isDigitChar ?c = true |- _ =>
                  apply isDigitChar_val in Hd
              end.
  all: unfold validTime; cbn [year month day hour minute second nsec].
  all: split; [|split; [lia | reflexivity]].
  all: repeat (apply andb_true_iff; split);
       first [apply Z.leb_le | apply Z.ltb_lt]; try lia.
Qed.

Lemma ParseNMEATime_Ok_inv (timeStr dateStr : string) (r : Time) :
  ParseNMEATime timeStr dateStr = Ok r ->
  6 <= len timeStr /\ len dateStr = 6
  /\ validTime r = true /\ (2000 <= year r <= 2099)%Z /\ nsec r = 0%Z.
Proof.
  unfold ParseNMEATime. intros H.
  destruct (Nat.ltb_spec (len timeStr) 6) as [Ht|Ht]; [discriminate H|].
  destruct (Nat.eqb_spec (len dateStr) 6) as [Hd|Hd]; [|discriminate H].
  cbn [negb orb] in H. split; [exact Ht|]. split; [exact Hd|].
  destruct (slice_two timeStr 0) as (h1 & h2 & Eh); [lia|].
  destruct (slice_two timeStr 2) as (n1 & n2 & En); [lia|].
  destruct (slice_two timeStr 4) as (s1 & s2 & Es); [lia|].
  destruct (slice_two dateStr 0) as (d1 & d2 & Ed); [lia|].
  destruct (slice_two dateStr 2) as (m1 & m2 & Em); [lia|].
  destruct (slice_two dateStr 4) as (y1 & y2 & Ey); [lia|].
  cbn [Nat.add] in *. rewrite Eh, En, Es, Ed, Em, Ey in H.
  unfold Parse in H. cbn [append] in H.
  match type of H with
  | match parseFields ?v with _ => _ end = _ =>
      destruct (parseFields v) as [t|] eqn:E; [|discriminate H]
  end.
  injection H as ->. exact (parseFields_19 _ _ _ _ _ _ _ _ _ _ _ _ _ E).
Qed.

(** two-digit rendering of the numbers below 100 *)
Lemma p2_digits (x : Z) :
  (0 <= x < 100)%Z ->
  exists a b, p2 x = String a (String b EmptyString)
              /\ isDigitChar a = true /\ isDigitChar b = true
              /\ (digitVal a * 10 + digitVal b)%Z = x.
Proof.
  intros H.
  assert (E : exists n, n < 100 /\ x = Z.of_nat n)
    by (exists (Z.to_nat x); lia).
  destruct E as (n & Hn & ->). clear H.
  do 100 (destruct n as [|n];
          [do 2 eexists; repeat split; vm_compute; reflexivity|]).
  lia.
Qed.

Lemma isLeap_century (y : Z) :
  isLeap y = true -> isLeap (2000 + Z.abs y mod 100) = true.
Proof.
  unfold isLeap. intros H.
  apply andb_true_iff in H as [H4 _]. apply Z.eqb_eq in H4.
  assert (Ha : (Z.abs y mod 4 = 0)%Z).
  { destruct (Z.abs_spec y) as [[_ ->]|[_ ->]]; [exact H4|].
    apply Z.mod_opp_l_z; [lia | exact H4]. }
  pose proof (Z.mod_pos_bound (Z.abs y) 100 ltac:(lia)) as Hr.
  pose proof (Z.div_mod (Z.abs y) 100 ltac:(lia)) as Hq.
  set (r := (Z.abs y mod 100)%Z) in *.
  set (q := (Z.abs y / 100)%Z) in *.
  assert (Hr4 : (r mod 4 = 0)%Z).
  { replace r with (Z.abs y + (- (25 * q)) * 4)%Z by lia.
    rewrite Z.mod_add by lia. exact Ha. }
  apply andb_true_iff. split.
  - apply Z.eqb_eq.
    replace (2000 + r)%Z with (r + 500 * 4)%Z by lia.
    rewrite Z.mod_add by lia. exact Hr4.
  - destruct (Z.eqb_spec ((2000 + r) mod 100) 0) as [E|E]; simpl; [|reflexivity].
    apply Z.eqb_eq.
    replace (2000 + r)%Z with (r + 20 * 100)%Z in E by lia.
    rewrite Z.mod_add, Z.mod_small in E by lia.
    rewrite E. reflexivity.
Qed.

Lemma daysIn_century (m y : Z) :
  (daysIn m y <= daysIn m (2000 + Z.abs y mod 100))%Z.
Proof.
  unfold daysIn. destruct (m =? 2)%Z; [|apply Z.le_refl].
  destruct (isLeap y) eqn:E.
  - rewrite (isLeap_century y E). lia.
  - destruct (isLeap (2000 + Z.abs y mod 100)); lia.
Qed.

Lemma ParseNMEATime_Format_all (t : Time) :
  validTime t = true ->
  ParseNMEATime (Format_hhmmss_ff t) (Format_ddmmyy t) =
    Ok (Date (2000 + Z.abs (year t) mod 100) (month t) (day t)
             (hour t) (minute t) (second t)).
Proof.
  intros V. unfold validTime in V. split_guards.
  assert (Dmax : (daysIn (month t) (year t) <= 31)%Z)
    by (unfold daysIn; destruct (month t =? 2)%Z; [destruct (isLeap (year t)); lia|]; destruct (_ || _); lia).
  pose proof (daysIn_century (month t) (year t)) as Dc.
  destruct (p2_digits (hour t)) as (h1 & h2 & Eh & Hh1 & Hh2 & Vh); [lia|].
  destruct (p2_digits (minute t)) as (n1 & n2 & En & Hn1 & Hn2 & Vn); [lia|].
  destruct (p2_digits (second t)) as (s1 & s2 & Es & Hs1 & Hs2 & Vs); [lia|].
  destruct (p2_digits (day t)) as (d1 & d2 & Ed & Hd1 & Hd2 & Vd); [lia|].
  destruct (p2_digits (month t)) as (m1 & m2 & Em & Hm1 & Hm2 & Vm); [lia|].
  destruct (p2_digits (Z.abs (year t) mod 100)) as (y1 & y2 & Ey & Hy1 & Hy2 & Vy);
    [apply Z.mod_pos_bound; lia|].
  unfold Format_hhmmss_ff, Format_ddmmyy, ParseNMEATime.
  rewrite Eh, En, Es, Ed, Em, Ey. cbn [append len String.length Nat.ltb Nat.leb Nat.eqb negb orb slice Nat.sub substring].
  unfold Parse.
  pose proof (parseFields_digits y1 y2 m1 m2 d1 d2 h1 h2 n1 n2 s1 s2
                Hy1 Hy2 Hm1 Hm2 Hd1 Hd2 Hh1 Hh2 Hn1 Hn2 Hs1 Hs2) as P.
  cbv zeta in P. rewrite Vy, Vm, Vd, Vh, Vn, Vs in P.
  rewrite P by lia. reflexivity.
Qed.

(** X1: whatever ParseNMEATime returns without error is a real calendar
    time of the years 2000 to 2099, with no fraction of a second: month
    1..12, a day that exists in that month of that year, hour below 24,
    minute and second below 60.  It accepts only a time field of at least
    six characters and a date field of exactly six. *)
Theorem ParseNMEATime_sound (timeStr dateStr : string) (r : Time) :
  ParseNMEATime timeStr dateStr = Ok r ->
  6 <= len timeStr /\ len dateStr = 6
  /\ validTime r = true /\ (2000 <= year r <= 2099)%Z /\ nsec r = 0%Z.
Proof. exact (ParseNMEATime_Ok_inv timeStr dateStr r). Qed.

Lemma ParseNMEATime_sound_witness :
  6 <= len "123519.00" /\ len "290224" = 6
  /\ validTime (Date 2024 2 29 12 35 19) = true
  /\ (2000 <= year (Date 2024 2 29 12 35 19) <= 2099)%Z
  /\ nsec (Date 2024 2 29 12 35 19) = 0%Z.
Proof.
  apply (ParseNMEATime_sound "123519.00" "290224" (Date 2024 2 29 12 35 19)).
  reflexivity.
Defined.

(** X2: formatting and parsing.  For every valid instant [t], the time
    field in the layout "150405.00" and the date field in the layout
    "020106" (what the simulator writes) are parsed by ParseNMEATime to the
    day, month, hour, minute and second of [t], in the year
    [2000 + |year t| mod 100]; the fraction of the second and the century are
    lost.  The round trip is exact, to the second, for the years 2000 to
    2099. *)
Theorem ParseNMEATime_Format_roundtrip (t : Time) :
  validTime t = true ->
  ParseNMEATime (Format_hhmmss_ff t) (Format_ddmmyy t) =
    Ok (Date (2000 + Z.abs (year t) mod 100) (month t) (day t)
             (hour t) (minute t) (second t))
  /\ ((2000 <= year t <= 2099)%Z ->
      ParseNMEATime (Format_hhmmss_ff t) (Format_ddmmyy t) =
        Ok (Date (year t) (month t) (day t) (hour t) (minute t) (second t))).
Proof.
  intros V. split; [exact (ParseNMEATime_Format_all t V)|].
  intros Hy. rewrite (ParseNMEATime_Format_all t V). do 2 f_equal.
  rewrite Z.abs_eq by lia.
  replace (year t) with ((year t - 2000) + 20 * 100)%Z at 1 by lia.
  rewrite Z.mod_add, Z.mod_small by lia. lia.
Qed.

Lemma ParseNMEATime_Format_roundtrip_witness :
  ParseNMEATime (Format_hhmmss_ff (mkTime 1996 2 29 23 59 58 999999999))
                (Format_ddmmyy (mkTime 1996 2 29 23 59 58 999999999)) =
    Ok (Date (2000 + Z.abs 1996 mod 100) 2 29 23 59 58).
Proof.
  apply (proj1 (ParseNMEATime_Format_roundtrip (mkTime 1996 2 29 23 59 58 999999999)
                  eq_refl)).
Defined.

(** ** SyncTime: clock-set calls in a run *)

Lemma ConfigureSerialPort_clockSets (env : Env) (device : string) (baud : Z) (w : World) :
  clockSets (snd (ConfigureSerialPort env device baud w)) = clockSets w.
Proof.
  unfold ConfigureSerialPort.
  destruct (GOOS env =? "windows"); [reflexivity|].
  destruct (isUnix (GOOS env)); [|reflexivity].
  destruct (runCmd env _); simpl; rewrite clockSets_emit; simpl; lia.
Qed.

Lemma closeOn_clockSets {A} (o : Outcome A) (path : string) (w : World) :
  clockSets (closeOn o path w) = clockSets w.
Proof. destruct o; simpl; rewrite ?clockSets_emit; simpl; lia. Qed.

(** the handler sets the clock exactly when it leaves by [return] *)
Lemma syncLine_clockSets (g : GPSTimeSync) (env : Env) (line : string) (w : World) :
  match fst (syncLine g env line w) with
  | Return _ => clockSets (snd (syncLine g env line w)) = S (clockSets w)
  | _ => clockSets (snd (syncLine g env line w)) = clockSets w
  end.
Proof.
  unfold syncLine.
  destruct (HasPrefix line "$GPRMC"); [|reflexivity].
  destruct (List.length (Split line ",") <? 10)%nat; [reflexivity|].
  destruct (nth_error (Split line ",") 2) as [f2|]; [|reflexivity].
  destruct (negb (f2 =? "A")); [reflexivity|].
  destruct (nth_error (Split line ",") 1) as [f1|]; [|reflexivity].
  destruct (nth_error (Split line ",") 9) as [f9|]; [|reflexivity].
  destruct (ParseNMEATime f1 f9) as [t|e]; simpl.
  - pose proof (SetSystemTime_clockSets env t w) as H.
    destruct (SetSystemTime env t w) as [[e|] w']; simpl in *; [exact H|].
    rewrite clockSets_emit. simpl. lia.
  - destruct (Debug g); [|reflexivity]. rewrite clockSets_emit. simpl. lia.
Qed.

Lemma syncLoop_clockSets (g : GPSTimeSync) (env : Env) (evs : list Event) (w : World) :
  let '(o, w', _) := syncLoop g env evs w in
  match o with
  | Returned None => clockSets w' = S (clockSets w)
  | Returned (Some _) => clockSets w' = clockSets w \/ clockSets w' = S (clockSets w)
  | _ => clockSets w' = clockSets w
  end.
Proof.
  revert w; induction evs as [|ev evs IH]; intros w; simpl; [reflexivity|].
  destruct ev as [|c|tok err]; simpl; auto.
  destruct tok as [line|].
  - pose proof (syncLine_clockSets g env line w) as H.
    destruct (syncLine g env line w) as [st w1]. simpl in H.
    destruct st.
    + specialize (IH w1). destruct (syncLoop g env evs w1) as [[o w'] r].
      rewrite <- H. exact IH.
    + destruct err; simpl; [auto|].
      specialize (IH w1). destruct (syncLoop g env evs w1) as [[o w'] r].
      rewrite <- H. exact IH.
    + destruct e; auto.
    + exact H.
  - destruct err; simpl; [auto|]. apply IH.
Qed.

(** X3: in every run of SyncTime the clock is set at most once; a run that
    returns nil has set it exactly once, and a run that is still reading has
    not set it. *)
Theorem SyncTime_sets_clock_once (g : GPSTimeSync) (env : Env) (evs : list Event)
    (w : World) :
  let '(o, w', _) := SyncTime g env evs w in
  clockSets w <= clockSets w' <= S (clockSets w)
  /\ (o = Returned None -> clockSets w' = S (clockSets w))
  /\ (o = Pending -> clockSets w' = clockSets w).
Proof.
  unfold SyncTime.
  destruct (openFile env (DevicePath g)).
  - rewrite clockSets_emit. simpl. repeat split; (lia || discriminate).
  - pose proof (ConfigureSerialPort_clockSets env (DevicePath g) (BaudRate g)
                  (emit w (EOpenFile (DevicePath g)))) as Hc.
    rewrite clockSets_emit in Hc. simpl in Hc.
    destruct (ConfigureSerialPort env (DevicePath g) (BaudRate g)
                (emit w (EOpenFile (DevicePath g)))) as [[e|] w1]; simpl in Hc.
    + rewrite clockSets_emit. simpl. repeat split; (lia || discriminate).
    + pose proof (syncLoop_clockSets g env evs w1) as Hl.
      destruct (syncLoop g env evs w1) as [[o w'] r].
      rewrite closeOn_clockSets.
      destruct o as [[e|]| |]; repeat split; try lia; try discriminate.
Qed.

(** the handler returns exactly on the actionable lines *)
Lemma syncLine_actionable (g : GPSTimeSync) (env : Env) (line : string) (w : World) :
  actionable line = false ->
  (fst (syncLine g env line w) = Continue \/ fst (syncLine g env line w) = FallThrough)
  /\ clockSets (snd (syncLine g env line w)) = clockSets w
  /\ commands (snd (syncLine g env line w)) = commands w.
Proof.
  unfold actionable, syncLine. intros H.
  destruct (HasPrefix line "$GPRMC"); [|simpl; auto].
  cbn [andb] in H.
  destruct (Nat.ltb_spec (List.length (Split line ",")) 10) as [Hl|Hl]; [simpl; auto|].
  destruct (nth_error_in_range (Split line ",") 2) as [f2 E2]; [lia|].
  destruct (nth_error_in_range (Split line ",") 1) as [f1 E1]; [lia|].
  destruct (nth_error_in_range (Split line ",") 9) as [f9 E9]; [lia|].
  rewrite E1, E2, E9 in *.
  destruct (f2 =? "A"); cbn [andb negb] in *; [|cbn [fst snd]; auto].
  destruct (ParseNMEATime f1 f9) as [t|e]; [discriminate H|].
  destruct (Debug g); cbn [fst snd]; [|auto].
  rewrite clockSets_emit. simpl. split; [auto|]. split; [lia|].
  unfold commands, emit. rewrite flat_map_app. simpl. apply app_nil_r.
Qed.

Lemma syncLoop_no_actionable (g : GPSTimeSync) (env : Env) (evs : list Event) (w : World) :
  forallb (fun l => negb (actionable l)) (scanned evs) = true ->
  let '(o, w', _) := syncLoop g env evs w in
  o <> Returned None /\ o <> Panicked
  /\ clockSets w' = clockSets w /\ commands w' = commands w.
Proof.
  revert w; induction evs as [|ev evs IH]; intros w H; simpl.
  - repeat split; discriminate.
  - destruct ev as [|c|tok err]; simpl in *;
      try (repeat split; discriminate).
    destruct tok as [line|]; simpl in H.
    + apply andb_true_iff in H as [Hl H]. apply negb_true_iff in Hl.
      destruct (syncLine_actionable g env line w Hl) as (Hs & Hc & Hx).
      destruct (syncLine g env line w) as [st w1]. simpl in *.
      destruct Hs as [-> | ->].
      * specialize (IH w1 H). destruct (syncLoop g env evs w1) as [[o w'] r].
        rewrite <- Hc, <- Hx. exact IH.
      * destruct err; [repeat split; (discriminate || assumption)|].
        specialize (IH w1 H). destruct (syncLoop g env evs w1) as [[o w'] r].
        rewrite <- Hc, <- Hx. exact IH.
    + destruct err; [repeat split; discriminate|]. apply IH. exact H.
Qed.

(** X4: when no scanned line is actionable (a "$GPRMC" line with at least
    ten fields, status "A" and a time and date that parse), SyncTime never
    sets the clock and never returns nil, however long the stream. *)
Theorem SyncTime_needs_actionable (g : GPSTimeSync) (env : Env) (evs : list Event)
    (w : World) :
  forallb (fun l => negb (actionable l)) (scanned evs) = true ->
  let '(o, w', _) := SyncTime g env evs w in
  o <> Returned None /\ o <> Panicked /\ clockSets w' = clockSets w.
Proof.
  intros H. unfold SyncTime.
  destruct (openFile env (DevicePath g)).
  - rewrite clockSets_emit. simpl. repeat split; (discriminate || lia).
  - pose proof (ConfigureSerialPort_clockSets env (DevicePath g) (BaudRate g)
                  (emit w (EOpenFile (DevicePath g)))) as Hc.
    rewrite clockSets_emit in Hc. simpl in Hc.
    destruct (ConfigureSerialPort env (DevicePath g) (BaudRate g)
                (emit w (EOpenFile (DevicePath g)))) as [[e|] w1]; simpl in Hc.
    + rewrite clockSets_emit. simpl. repeat split; (discriminate || lia).
    + pose proof (syncLoop_no_actionable g env evs w1 H) as Hl.
      destruct (syncLoop g env evs w1) as [[o w'] r].
      rewrite closeOn_clockSets. destruct Hl as (H1 & H2 & H3 & _).
      repeat split; (assumption || lia).
Qed.

Lemma SyncTime_needs_actionable_witness :
  let '(o, w', _) :=
    SyncTime g0 linuxOk
      [EvScan (Some "$GNRMC,123519,A,,,,,,,230394") None; EvScan (Some rmcVoid) None;
       EvScan (Some "$GPRMC,123519,A,,,,,,,310294") None; EvTimeout] [] in
  o <> Returned None /\ o <> Panicked /\ clockSets w' = clockSets [].
Proof.
  apply (SyncTime_needs_actionable g0 linuxOk
           [EvScan (Some "$GNRMC,123519,A,,,,,,,230394") None; EvScan (Some rmcVoid) None;
            EvScan (Some "$GPRMC,123519,A,,,,,,,310294") None; EvTimeout] []).
  reflexivity.
Defined.

Lemma syncLoop_idle (g : GPSTimeSync) (env : Env) (pre evs : list Event) (w : World) :
  forallb idle pre = true ->
  exists w1, syncLoop g env (pre ++ evs) w = syncLoop g env evs w1
             /\ clockSets w1 = clockSets w /\ commands w1 = commands w.
Proof.
  revert w; induction pre as [|ev pre IH]; intros w H.
  - exists w. auto.
  - simpl in H. apply andb_true_iff in H as [Hi H].
    destruct ev as [|c|[line|] [e|]]; try discriminate Hi; simpl.
    + simpl in Hi. apply negb_true_iff in Hi.
      destruct (syncLine_actionable g env line w Hi) as (Hs & Hc & Hx).
      destruct (syncLine g env line w) as [st w1]. simpl in *.
      destruct (IH w1 H) as (w2 & E & Hc2 & Hx2).
      exists w2. destruct Hs as [-> | ->]; (split; [exact E | split; congruence]).
    + apply IH. exact H.
Qed.

(** ** What SyncTime reads of a line *)

Lemma Split_nonempty (s : string) (sep : ascii) : Split s sep <> [].
Proof.
  destruct s as [|c s]; simpl; [discriminate|].
  destruct (Ascii.eqb c sep); [discriminate|].
  destruct (Split s sep); discriminate.
Qed.

Lemma Split_app_sep (h x : string) (sep : ascii) :
  Split (h ++ String sep x) sep = (Split h sep ++ Split x sep)%list.
Proof.
  induction h as [|c h IH]; simpl.
  - rewrite Ascii.eqb_refl. reflexivity.
  - destruct (Ascii.eqb c sep); [rewrite IH; reflexivity|].
    rewrite IH. pose proof (Split_nonempty h sep) as Hn.
    destruct (Split h sep); [contradiction | reflexivity].
Qed.

Lemma Split_length_le (s : string) (sep : ascii) :
  List.length (Split s sep) <= S (len s).
Proof.
  unfold len. induction s as [|c s IH]; simpl; [lia|].
  destruct (Ascii.eqb c sep); simpl; [lia|].
  destruct (Split s sep); simpl in *; lia.
Qed.

Lemma prefix_app_l (p h x : string) :
  len p <= len h -> prefix p (h ++ x) = prefix p h.
Proof.
  unfold len. revert h; induction p as [|a p IH]; intros h H; simpl.
  - destruct h; simpl; [destruct x|]; reflexivity.
  - destruct h as [|b h]; simpl in *; [lia|].
    destruct (ascii_dec a b); [apply IH; lia | reflexivity].
Qed.

(** X6: SyncTime looks at the first ten comma-separated fields of a line
    and at nothing else: two lines that agree up to and including their
    tenth field are handled alike, whatever follows -- the mode field, the
    [*] and the checksum are never read, so a wrong checksum does not keep
    SyncTime from setting the clock. *)
Theorem syncLine_ignores_tail (g : GPSTimeSync) (env : Env) (h x y : string)
    (w : World) :
  10 <= List.length (Split h ",") ->
  syncLine g env (h ++ "," ++ x) w = syncLine g env (h ++ "," ++ y) w.
Proof.
  intros H.
  assert (Hlen : 9 <= len h) by (pose proof (Split_length_le h ","); lia).
  assert (E : forall z, syncLine g env (h ++ "," ++ z) w = syncLine g env h w).
  { intros z. unfold syncLine, HasPrefix.
    change ("," ++ z) with (String "," z).
    rewrite prefix_app_l by (simpl; lia).
    rewrite Split_app_sep, length_app.
    replace (List.length (Split h ",") + List.length (Split z ",") <? 10)%nat
      with false by (symmetry; apply Nat.ltb_ge; lia).
    replace (List.length (Split h ",") <? 10)%nat
      with false by (symmetry; apply Nat.ltb_ge; lia).
    rewrite !nth_error_app1 by lia. reflexivity. }
  rewrite (E x), (E y). reflexivity.
Qed.

Lemma syncLine_ignores_tail_witness :
  syncLine g0 linuxOk
    ("$GPRMC,123519,A,4807.038,N,01131.000,E,022.4,084.4,230394" ++ "," ++ "003.1,W*6A") []
  = syncLine g0 linuxOk
    ("$GPRMC,123519,A,4807.038,N,01131.000,E,022.4,084.4,230394" ++ "," ++ "003.1,W*00") [].
Proof.
  apply (syncLine_ignores_tail g0 linuxOk
           "$GPRMC,123519,A,4807.038,N,01131.000,E,022.4,084.4,230394").
  simpl. lia.
Defined.

(** ** The device handle *)

Section Counting.

Variable p : Effect -> bool.
Hypothesis p_clock : forall t, p (ESetSystemTime t) = false.
Hypothesis p_exec : forall argv, p (EExec argv) = false.
Hypothesis p_log : forall m, p (ELog m) = false.

Lemma count_emit (w : World) (e : Effect) :
  count p (emit w e) = count p w + (if p e then 1 else 0).
Proof.
  unfold count, emit. rewrite filter_app, length_app. simpl.
  destruct (p e); reflexivity.
Qed.

Lemma count_SetSystemTime (env : Env) (t : Time) (w : World) :
  count p (snd (SetSystemTime env t w)) = count p w.
Proof.
  unfold SetSystemTime.
  repeat match goal with
         | |- context [if ?b then _ else _] => destruct b
         | |- context [match runCmd ?e ?a with _ => _ end] => destruct (runCmd e a)
         end; simpl; rewrite ?count_emit, ?p_clock, ?p_exec; lia.
Qed.

Lemma count_ConfigureSerialPort (env : Env) (device : string) (baud : Z) (w : World) :
  count p (snd (ConfigureSerialPort env device baud w)) = count p w.
Proof.
  unfold ConfigureSerialPort.
  destruct (GOOS env =? "windows"); [reflexivity|].
  destruct (isUnix (GOOS env)); [|reflexivity].
  destruct (runCmd env _); simpl; rewrite count_emit, p_exec; lia.
Qed.

Lemma count_syncLine (g : GPSTimeSync) (env : Env) (line : string) (w : World) :
  count p (snd (syncLine g env line w)) = count p w.
Proof.
  unfold syncLine.
  destruct (HasPrefix line "$GPRMC"); [|reflexivity].
  destruct (List.length (Split line ",") <? 10)%nat; [reflexivity|].
  destruct (nth_error (Split line ",") 2) as [f2|]; [|reflexivity].
  destruct (negb (f2 =? "A")); [reflexivity|].
  destruct (nth_error (Split line ",") 1) as [f1|]; [|reflexivity].
  destruct (nth_error (Split line ",") 9) as [f9|]; [|reflexivity].
  destruct (ParseNMEATime f1 f9) as [t|e]; simpl.
  - pose proof (count_SetSystemTime env t w) as H.
    destruct (SetSystemTime env t w) as [[e|] w']; simpl in *; [exact H|].
    rewrite count_emit, p_log. lia.
  - destruct (Debug g); [|reflexivity]. rewrite count_emit, p_log. lia.
Qed.

Lemma count_syncLoop (g : GPSTimeSync) (env : Env) (evs : list Event) (w : World) :
  count p (snd (fst (syncLoop g env evs w))) = count p w.
Proof.
  revert w; induction evs as [|ev evs IH]; intros w; simpl; [reflexivity|].
  destruct ev as [|c|tok err]; simpl; auto.
  destruct tok as [line|].
  - pose proof (count_syncLine g env line w) as H.
    destruct (syncLine g env line w) as [st w1]. simpl in H.
    destruct st; simpl; try (rewrite IH); auto.
    destruct err; simpl; [auto | rewrite IH; auto].
  - destruct err; simpl; auto.
Qed.

Lemma count_probeLoop (evs : list Event) (w : World) :
  count p (snd (fst (probeLoop evs w))) = count p w.
Proof.
  revert w; induction evs as [|ev evs IH]; intros w; simpl; [reflexivity|].
  destruct ev as [|c|tok err]; simpl; auto.
  destruct tok as [line|].
  - destruct (hasTalker line); simpl.
    + rewrite count_emit, p_log. lia.
    + destruct err; simpl; auto.
  - destruct err; simpl; auto.
Qed.

End Counting.

Lemma closeOn_count_close {A} (o : Outcome A) (path : string) (w : World) :
  count isClose (closeOn o path w) =
  count isClose w + (match o with Pending => 0 | _ => 1 end).
Proof. destruct o; simpl; rewrite ?count_emit; simpl; lia. Qed.

Lemma closeOn_count_open {A} (o : Outcome A) (path : string) (w : World) :
  count isOpen (closeOn o path w) = count isOpen w.
Proof. destruct o; simpl; rewrite ?count_emit; simpl; lia. Qed.

Lemma closeOn_last {A} (o : Outcome A) (path : string) (w : World) :
  o <> Pending -> closeOn o path w = emit w (EClose path).
Proof. destruct o; simpl; congruence. Qed.

Ltac count_tac :=
  rewrite ?closeOn_count_close, ?closeOn_count_open, ?count_emit,
    ?count_ConfigureSerialPort, ?count_syncLoop, ?count_probeLoop
    by reflexivity; simpl.

(** X7: SyncTime opens the device once per run.  When the open succeeded
    and the run has returned, for whatever reason, the device has been
    closed exactly once and the close is the last effect of the run; when the
    open failed, or while the loop is still reading, nothing is closed. *)
Theorem SyncTime_releases_device (g : GPSTimeSync) (env : Env) (evs : list Event)
    (w : World) :
  let '(o, w', _) := SyncTime g env evs w in
  count isOpen w' = S (count isOpen w)
  /\ count isClose w' =
     count isClose w
     + (match openFile env (DevicePath g), o with
        | None, Returned _ => 1
        | None, Panicked => 1
        | _, _ => 0
        end)
  /\ (openFile env (DevicePath g) = None -> o <> Pending ->
      exists w0, w' = emit w0 (EClose (DevicePath g))).
Proof.
  unfold SyncTime.
  destruct (openFile env (DevicePath g)) as [e|].
  - count_tac. repeat split; try lia. discriminate.
  - pose proof (count_ConfigureSerialPort isOpen (fun _ => eq_refl) env
                  (DevicePath g) (BaudRate g) (emit w (EOpenFile (DevicePath g)))) as Ho.
    pose proof (count_ConfigureSerialPort isClose (fun _ => eq_refl) env
                  (DevicePath g) (BaudRate g) (emit w (EOpenFile (DevicePath g)))) as Hc.
    rewrite count_emit in Ho, Hc. simpl in Ho, Hc.
    destruct (ConfigureSerialPort env (DevicePath g) (BaudRate g)
                (emit w (EOpenFile (DevicePath g)))) as [[e|] w1]; simpl in Ho, Hc.
    + count_tac. repeat split; try lia. eauto.
    + pose proof (count_syncLoop isOpen (fun _ => eq_refl) (fun _ => eq_refl)
                    (fun _ => eq_refl) g env evs w1) as Lo.
      pose proof (count_syncLoop isClose (fun _ => eq_refl) (fun _ => eq_refl)
                    (fun _ => eq_refl) g env evs w1) as Lc.
      destruct (syncLoop g env evs w1) as [[o w'] r]. simpl in Lo, Lc.
      count_tac. repeat split.
      * lia.
      * destruct o; lia.
      * intros _ Hp. rewrite (closeOn_last o _ _ Hp). eauto.
Qed.

(** ** SyncTime and its deadline *)

(** the handler on an actionable line sets the clock and returns *)
Lemma syncLine_on_actionable (g : GPSTimeSync) (env : Env) (line : string) (w : World) :
  actionable line = true ->
  exists e w', syncLine g env line w = (Return e, w')
               /\ clockSets w' = S (clockSets w).
Proof.
  unfold actionable. intros H. apply andb_true_iff in H as [Hp H].
  destruct (nth_error (Split line ",") 1) as [f1|] eqn:E1; [|discriminate H].
  destruct (nth_error (Split line ",") 2) as [f2|] eqn:E2; [|discriminate H].
  destruct (nth_error (Split line ",") 9) as [f9|] eqn:E9; [|discriminate H].
  apply andb_true_iff in H as [Ha Hparse]. apply String.eqb_eq in Ha. subst f2.
  rewrite (syncLine_active g env line f1 f9 w Hp E2 E1 E9).
  destruct (ParseNMEATime f1 f9) as [t|err]; [|discriminate Hparse].
  pose proof (SetSystemTime_clockSets env t w) as Hs.
  destruct (SetSystemTime env t w) as [[err|] w']; cbn [snd] in Hs.
  - exists (Some err), w'. auto.
  - exists None, (emit w' (ELog (LogSynced (Format_RFC3339 t)))).
    split; [reflexivity|]. rewrite clockSets_emit. simpl. lia.
Qed.

(** X5: the timeout of SyncTime is looked at only between two calls of
    Scan, and Scan blocks while the device is silent.  When the device is
    opened and configured, the context is not cancelled and every call of
    Scan that returns within the 30 s window gives no line or a line that is
    not actionable, and no read error:
    - if no further call of Scan returns, SyncTime never returns; the clock
      is not set and the device is not closed;
    - if the next call of Scan returns at or after the deadline, again with
      nothing actionable, SyncTime returns ErrNoValidData, has not set the
      clock, and closes the device as its last effect;
    - if the next call of Scan returns an actionable line, SyncTime sets the
      clock once and returns, also when the line arrived after the window had
      ended. *)
Theorem SyncTime_timeout (g : GPSTimeSync) (env : Env) (pre post : list Timed.Read)
    (pick : bool) (w : World) :
  openFile env (DevicePath g) = None ->
  fst (ConfigureSerialPort env (DevicePath g) (BaudRate g)
         (emit w (EOpenFile (DevicePath g)))) = None ->
  forallb (fun r => idle (Timed.turnOf r) && Timed.before Timed.syncWindow r) pre = true ->
  let sync rs := Timed.SyncTime g env (Timed.mkRun rs None pick) w in
  (exists w1, sync pre = (Pending, w1)
              /\ clockSets w1 = clockSets w /\ count isClose w1 = count isClose w)
  /\ (forall r, idle (Timed.turnOf r) = true ->
        (Timed.syncWindow <= Timed.ready r)%N ->
        exists w1, sync (pre ++ r :: post)%list =
                     (Returned (Some ErrNoValidData), emit w1 (EClose (DevicePath g)))
                   /\ clockSets w1 = clockSets w)
  /\ (forall r line, Timed.tok r = Some line -> actionable line = true ->
        exists e w1, sync (pre ++ r :: post)%list =
                       (Returned e, emit w1 (EClose (DevicePath g)))
                     /\ clockSets w1 = S (clockSets w)).
Proof.
  intros Ho Hc Hpre sync.
  apply forallb_and in Hpre as [Hi Hb].
  rewrite (forallb_turnOf idle) in Hi.
  pose proof (ConfigureSerialPort_clockSets env (DevicePath g) (BaudRate g)
                (emit w (EOpenFile (DevicePath g)))) as Hk.
  pose proof (count_ConfigureSerialPort isClose (fun _ => eq_refl) env (DevicePath g)
                (BaudRate g) (emit w (EOpenFile (DevicePath g)))) as Hx.
  rewrite clockSets_emit in Hk. rewrite count_emit in Hx. simpl in Hk, Hx.
  assert (Hrun : forall rs, exists now w0,
            (now < Timed.syncWindow)%N
            /\ clockSets w0 = clockSets w /\ count isClose w0 = count isClose w
            /\ sync (pre ++ rs)%list =
               let '(o, w2, _) :=
                 syncLoop g env
                   (map Timed.turnOf pre ++
                    Timed.turns Timed.syncWindow (Timed.mkRun (pre ++ rs)%list None pick)
                      now rs)%list w0 in
               (o, closeOn o (DevicePath g) w2)).
  { intros rs.
    destruct (turns_before Timed.syncWindow (Timed.mkRun (pre ++ rs)%list None pick) pre rs 0
                eq_refl eq_refl Hb) as (now & Hn & E).
    unfold sync, Timed.SyncTime, SyncTime. cbn [Timed.reads]. rewrite E, Ho.
    destruct (ConfigureSerialPort env (DevicePath g) (BaudRate g)
                (emit w (EOpenFile (DevicePath g)))) as [[e|] w0];
      simpl in Hc; [discriminate Hc|]. cbn [snd] in Hk, Hx.
    exists now, w0. split; [exact Hn|]. split; [lia|]. split; [lia|].
    destruct (syncLoop g env _ w0) as [[o w2] rest]. reflexivity. }
  split; [|split].
  - destruct (Hrun []) as (now & w0 & Hn & Hk0 & Hx0 & E).
    rewrite app_nil_r in E.
    rewrite (turns_silent _ (Timed.mkRun pre None pick) _ eq_refl Hn) in E.
    pose proof (count_syncLoop isClose (fun _ => eq_refl) (fun _ => eq_refl)
                  (fun _ => eq_refl) g env (map Timed.turnOf pre ++ [])%list w0) as Hcl.
    destruct (syncLoop_idle g env _ [] w0 Hi) as (w1 & El & Hc1 & _).
    rewrite El in E, Hcl. cbn [syncLoop closeOn fst snd] in E, Hcl.
    exists w1. split; [exact E|]. split; lia.
  - intros r Hr Hlate. destruct (Hrun (r :: post)) as (now & w0 & Hn & Hk0 & _ & E).
    destruct (turns_read Timed.syncWindow (Timed.mkRun (pre ++ r :: post)%list None pick)
                now r post eq_refl Hn) as (evs & Et & Hevs).
    rewrite Et, (Hevs Hlate) in E.
    assert (Hi' : forallb idle (map Timed.turnOf pre ++ [Timed.turnOf r]) = true)
      by (rewrite forallb_app, Hi; cbn [forallb andb]; rewrite Hr; reflexivity).
    destruct (syncLoop_idle g env _ [EvTimeout] w0 Hi') as (w1 & El & Hc1 & _).
    rewrite <- app_assoc in El. cbn [app] in El.
    rewrite El in E. cbn [syncLoop closeOn] in E.
    exists w1. split; [exact E | lia].
  - intros r line Hl Ha. destruct (Hrun (r :: post)) as (now & w0 & Hn & Hk0 & _ & E).
    destruct (turns_read Timed.syncWindow (Timed.mkRun (pre ++ r :: post)%list None pick)
                now r post eq_refl Hn) as (evs & Et & _).
    rewrite Et in E.
    destruct (syncLoop_idle g env _ (Timed.turnOf r :: evs) w0 Hi) as (w1 & El & Hc1 & _).
    rewrite El in E. unfold Timed.turnOf in E at 1. rewrite Hl in E.
    cbn [syncLoop] in E.
    destruct (syncLine_on_actionable g env line w1 Ha) as (e & w2 & Es & Hc2).
    rewrite Es in E. cbn [closeOn] in E.
    exists e, w2. split; [exact E | lia].
Qed.

Lemma SyncTime_timeout_witness :
  let sync rs := Timed.SyncTime g0 linuxOk (Timed.mkRun rs None true) [] in
  let void := Timed.mkRead 900 (Some rmcVoid) None in
  (exists w1, sync [void] = (Pending, w1) /\ clockSets w1 = 0)
  /\ (exists w1, sync [void; Timed.mkRead 31000 (Some rmcVoid) None] =
                   (Returned (Some ErrNoValidData), emit w1 (EClose "/dev/ttyUSB0"))
                 /\ clockSets w1 = 0)
  /\ (exists e w1, sync [void; Timed.mkRead 31000 (Some rmc) None] =
                     (Returned e, emit w1 (EClose "/dev/ttyUSB0"))
                   /\ clockSets w1 = 1).
Proof.
  intros sync void.
  pose proof (SyncTime_timeout g0 linuxOk [void] [] true [] eq_refl eq_refl eq_refl) as H.
  cbv zeta in H. destruct H as ((w1 & H1 & H1c & _) & H2 & H3).
  split; [exists w1; split; [exact H1 | exact H1c]|]. split.
  - apply (H2 (Timed.mkRead 31000 (Some rmcVoid) None)); [reflexivity|].
    vm_compute. discriminate.
  - exact (H3 (Timed.mkRead 31000 (Some rmc) None) rmc eq_refl eq_refl).
Defined.

(** ** What the probe answers *)

Lemma probeLoop_result (evs : list Event) (w : World) :
  let '(o, w', _) := probeLoop evs w in
  o <> Panicked
  /\ forall b e, o = Returned (b, e) ->
       (b = true <-> e = None)
       /\ (b = true ->
           exists line, In line (scanned evs) /\ hasTalker line = true
                        /\ In (ELog (LogDetected line)) w').
Proof.
  revert w; induction evs as [|ev evs IH]; intros w; simpl.
  - split; [discriminate|]. intros b e H. discriminate H.
  - assert (Hfalse : forall (x : error) (w0 : World) (b : bool) (e : option error),
              Returned (false, Some x) = Returned (b, e) ->
              (b = true <-> e = None)
              /\ (b = true ->
                  exists line, In line (scanned (ev :: evs)) /\ hasTalker line = true
                               /\ In (ELog (LogDetected line)) w0)).
    { intros x w0 b e H. injection H as <- <-.
      split; [split; discriminate | discriminate]. }
    assert (Hrec : forall tok err,
              ev = EvScan tok err ->
              let '(o, w', _) := probeLoop evs w in
              o <> Panicked
              /\ forall b e, o = Returned (b, e) ->
                   (b = true <-> e = None)
                   /\ (b = true ->
                       exists line, In line (scanned (ev :: evs))
                                    /\ hasTalker line = true
                                    /\ In (ELog (LogDetected line)) w')).
    { intros tok err ->. specialize (IH w).
      destruct (probeLoop evs w) as [[o w'] r]. destruct IH as [Hp Hr].
      split; [exact Hp|]. intros b e Ho. destruct (Hr b e Ho) as [Hi Hl].
      split; [exact Hi|]. intros Hb. destruct (Hl Hb) as (line & Hin & Ht & Hlog).
      exists line. split; [|auto]. simpl. apply in_or_app. right. exact Hin. }
    destruct ev as [|c|tok err]; simpl.
    + split; [discriminate | apply Hfalse].
    + split; [discriminate | apply Hfalse].
    + destruct tok as [line|].
      * destruct (hasTalker line) eqn:Ht.
        -- split; [discriminate|]. intros b e H. injection H as <- <-.
           split; [tauto|]. intros _. exists line. simpl.
           split; [left; reflexivity|]. split; [exact Ht|].
           unfold emit. apply in_or_app. right. left. reflexivity.
        -- destruct err as [x|].
           ++ split; [discriminate | apply Hfalse].
           ++ apply (Hrec (Some line) None eq_refl).
      * destruct err as [x|].
        -- split; [discriminate | apply Hfalse].
        -- apply (Hrec None None eq_refl).
Qed.

Lemma IsGPSDevice_result (g : GPSTimeSync) (env : Env) (device : string)
    (evs : list Event) (w : World) :
  let '(o, w', _) := IsGPSDevice g env device evs w in
  o <> Panicked
  /\ clockSets w' = clockSets w
  /\ forall b e, o = Returned (b, e) ->
       (b = true <-> e = None)
       /\ (b = true ->
           exists line, In line (scanned evs) /\ hasTalker line = true
                        /\ In (ELog (LogDetected line)) w').
Proof.
  assert (Hfalse : forall (x : error) (w0 : World) (b : bool) (e : option error),
            Returned (false, Some x) = Returned (b, e) ->
            (b = true <-> e = None)
            /\ (b = true ->
                exists line, In line (scanned evs) /\ hasTalker line = true
                             /\ In (ELog (LogDetected line)) w0)).
  { intros x w0 b e H. injection H as <- <-.
    split; [split; discriminate | discriminate]. }
  unfold IsGPSDevice.
  destruct (if GOOS env =? "windows" then negb (HasPrefix device "COM")
            else negb (HasPrefix device "/dev/")).
  { split; [discriminate|]. split; [reflexivity | apply Hfalse]. }
  destruct (openFile env device) as [x|].
  { split; [discriminate|]. rewrite clockSets_emit. simpl.
    split; [lia | apply Hfalse]. }
  pose proof (ConfigureSerialPort_clockSets env device (BaudRate g)
                (emit w (EOpenFile device))) as Hc.
  rewrite clockSets_emit in Hc. simpl in Hc.
  destruct (ConfigureSerialPort env device (BaudRate g) (emit w (EOpenFile device)))
    as [[x|] w1]; simpl in Hc.
  { split; [discriminate|]. rewrite clockSets_emit. simpl.
    split; [lia | apply Hfalse]. }
  pose proof (probeLoop_result evs w1) as Hr.
  pose proof (count_probeLoop isSetSystemTime (fun _ => eq_refl) evs w1)
    as Hk.
  destruct (probeLoop evs w1) as [[o w'] r]. simpl in Hk. destruct Hr as [Hp Hr].
  split; [exact Hp|]. split.
  { rewrite closeOn_clockSets. unfold clockSets, count in *. lia. }
  intros b e Ho. destruct (Hr b e Ho) as [Hi Hl]. split; [exact Hi|].
  intros Hb. destruct (Hl Hb) as (line & Hin & Ht & Hlog).
  exists line. split; [exact Hin|]. split; [exact Ht|].
  subst o. simpl. unfold emit. apply in_or_app. left. exact Hlog.
Qed.

(** X8: IsGPSDevice answers true only with a nil error, and only after it
    has scanned (and logged) a line with one of the prefixes "$GP", "$GN",
    "$GL", "$GA"; it answers false only together with an error, so a caller
    never sees (false, nil).  It never panics and never sets the clock. *)
Theorem IsGPSDevice_answers (g : GPSTimeSync) (env : Env) (device : string)
    (evs : list Event) (w : World) :
  let '(o, w', _) := IsGPSDevice g env device evs w in
  o <> Panicked
  /\ clockSets w' = clockSets w
  /\ forall b e, o = Returned (b, e) ->
       (b = true <-> e = None)
       /\ (b = true ->
           exists line, In line (scanned evs) /\ hasTalker line = true
                        /\ In (ELog (LogDetected line)) w').
Proof. exact (IsGPSDevice_result g env device evs w). Qed.

Lemma IsGPSDevice_answers_witness :
  let '(o, w', _) :=
    IsGPSDevice g0 linuxOk "/dev/ttyUSB0"
      [EvScan (Some "garbage") None; EvScan (Some "$GLGSV,1,1,00*65") None] [] in
  o <> Panicked
  /\ clockSets w' = clockSets []
  /\ forall b e, o = Returned (b, e) ->
       (b = true <-> e = None)
       /\ (b = true ->
           exists line,
             In line (scanned [EvScan (Some "garbage") None;
                               EvScan (Some "$GLGSV,1,1,00*65") None])
             /\ hasTalker line = true
             /\ In (ELog (LogDetected line)) w').
Proof.
  exact (IsGPSDevice_answers g0 linuxOk "/dev/ttyUSB0"
           [EvScan (Some "garbage") None; EvScan (Some "$GLGSV,1,1,00*65") None] []).
Defined.

(** ** MonitorGPS *)

(** The handler of MonitorGPS never indexes out of range and never leaves
    by [continue] ([strings.Split] gives at least one field); it prints at
    most one line, and none for a line that does not start with "$". *)
Lemma monitorLine_next (line : string) (out : list string) :
  fst (monitorLine line out) = MonNext
  /\ exists more, snd (monitorLine line out) = (out ++ more)%list
                  /\ List.length more <= 1
                  /\ (HasPrefix line "$" = false -> more = []).
Proof.
  assert (Hnone : fst (MonNext, out) = MonNext
                  /\ exists more, snd (MonNext, out) = (out ++ more)%list
                                  /\ List.length more <= 1
                                  /\ (HasPrefix line "$" = false -> more = [])).
  { split; [reflexivity|]. exists []. rewrite app_nil_r. simpl. auto. }
  unfold monitorLine.
  destruct (HasPrefix line "$") eqn:Hp; [|exact Hnone].
  assert (Hone : forall s, fst (MonNext, printf out s) = MonNext
                  /\ exists more, snd (MonNext, printf out s) = (out ++ more)%list
                                  /\ List.length more <= 1
                                  /\ (true = false -> more = [])).
  { intros s. split; [reflexivity|]. exists [s]. simpl.
    split; [reflexivity|]. split; [lia | discriminate]. }
  assert (Hnone' : fst (MonNext, out) = MonNext
                  /\ exists more, snd (MonNext, out) = (out ++ more)%list
                                  /\ List.length more <= 1
                                  /\ (true = false -> more = [])).
  { split; [reflexivity|]. exists []. rewrite app_nil_r. simpl. auto. }
  pose proof (Split_nonempty line ",") as Hne.
  destruct (Nat.eqb_spec (List.length (Split line ",")) 0) as [E|E];
    [destruct (Split line ","); [contradiction | discriminate E]|].
  destruct (nth_error_in_range (Split line ",") 0) as [f0 E0]; [lia|].
  rewrite E0.
  destruct (HasSuffix f0 "RMC").
  { destruct (Nat.leb_spec 10 (List.length (Split line ","))) as [Hl|Hl]; [|exact Hnone'].
    destruct (nth_error_in_range (Split line ",") 2) as [f2 E2]; [lia|].
    destruct (nth_error_in_range (Split line ",") 1) as [f1 E1]; [lia|].
    destruct (nth_error_in_range (Split line ",") 9) as [f9 E9]; [lia|].
    rewrite E2, E1, E9. destruct (f2 =? "A"); [apply Hone | exact Hnone']. }
  destruct (HasSuffix f0 "GGA").
  { destruct (Nat.leb_spec 8 (List.length (Split line ","))) as [Hl|Hl]; [|exact Hnone'].
    destruct (nth_error_in_range (Split line ",") 2) as [f2 E2]; [lia|].
    destruct (nth_error_in_range (Split line ",") 3) as [f3 E3]; [lia|].
    destruct (nth_error_in_range (Split line ",") 4) as [f4 E4]; [lia|].
    destruct (nth_error_in_range (Split line ",") 5) as [f5 E5]; [lia|].
    destruct (nth_error_in_range (Split line ",") 7) as [f7 E7]; [lia|].
    rewrite E2, E3, E4, E5, E7. apply Hone. }
  destruct (HasSuffix f0 "GSV"); [|exact Hnone'].
  destruct (4 <=? List.length (Split line ","))%nat; [apply Hone | exact Hnone'].
Qed.

Lemma monitorLoop_safe (evs : list MonEvent) (out : list string) :
  let '(o, out', _) := monitorLoop evs out in
  o <> Panicked /\ o <> Returned None
  /\ (exists more, out' = (out ++ more)%list)
  /\ (forallb noReadError evs = true -> o = Pending).
Proof.
  revert out; induction evs as [|ev evs IH]; intros out; simpl.
  - repeat split; try discriminate. exists []. now rewrite app_nil_r.
  - destruct ev as [c|tok err]; simpl.
    + repeat split; try discriminate. exists []. now rewrite app_nil_r.
    + assert (Hstep : exists st out1 more1,
                 match tok with
                 | Some line => monitorLine line out
                 | None => (MonNext, out)
                 end = (st, out1) /\ st = MonNext /\ out1 = (out ++ more1)%list).
      { destruct tok as [line|].
        - destruct (monitorLine_next line out) as (Hn & more & Hm & _).
          destruct (monitorLine line out) as [st out1]. simpl in *.
          exists st, out1, more. auto.
        - exists MonNext, out, []. rewrite app_nil_r. auto. }
      destruct Hstep as (st & out1 & more1 & -> & -> & ->).
      destruct err as [e|].
      * repeat split; try discriminate. eauto.
      * specialize (IH (out ++ more1)%list).
        destruct (monitorLoop evs (out ++ more1)%list) as [[o out'] r].
        destruct IH as (H1 & H2 & (more & ->) & H4).
        repeat split; try assumption.
        exists (more1 ++ more)%list. now rewrite app_assoc.
Qed.

(** X9: MonitorGPS never panics, never returns nil and never sets the
    clock; what it prints is only ever appended to the output.  It goes on
    as long as the scanner reports no error and the context is not
    cancelled: after turns without read error it is still running.  The
    device it opened is closed once it has returned. *)
Theorem MonitorGPS_safe (g : GPSTimeSync) (env : Env) (evs : list MonEvent)
    (w : World) (out : list string) :
  let '(o, w', out', _) := MonitorGPS g env evs w out in
  o <> Panicked /\ o <> Returned None
  /\ clockSets w' = clockSets w
  /\ (exists more, out' = (out ++ more)%list)
  /\ (openFile env (DevicePath g) = None ->
      fst (ConfigureSerialPort env (DevicePath g) (BaudRate g)
             (emit w (EOpenFile (DevicePath g)))) = None ->
      forallb noReadError evs = true -> o = Pending)
  /\ count isClose w' =
     count isClose w
     + (match openFile env (DevicePath g), o with
        | None, Returned _ => 1
        | _, _ => 0
        end).
Proof.
  unfold MonitorGPS.
  destruct (openFile env (DevicePath g)) as [e|].
  { rewrite clockSets_emit. count_tac. repeat split; try discriminate; try lia.
    exists []. now rewrite app_nil_r. }
  pose proof (ConfigureSerialPort_clockSets env (DevicePath g) (BaudRate g)
                (emit w (EOpenFile (DevicePath g)))) as Hk.
  pose proof (count_ConfigureSerialPort isClose (fun _ => eq_refl) env
                (DevicePath g) (BaudRate g) (emit w (EOpenFile (DevicePath g)))) as Hc.
  rewrite clockSets_emit in Hk. rewrite count_emit in Hc. simpl in Hk, Hc.
  destruct (ConfigureSerialPort env (DevicePath g) (BaudRate g)
              (emit w (EOpenFile (DevicePath g)))) as [[e|] w1]; simpl in Hk, Hc.
  { rewrite clockSets_emit. count_tac. repeat split; try discriminate; try lia.
    exists []. now rewrite app_nil_r. }
  pose proof (monitorLoop_safe evs
                (printf out ("Monitoring GPS data... (Press Ctrl+C to stop)" ++ LF))) as Hl.
  destruct (monitorLoop evs _) as [[o out'] r].
  destruct Hl as (H1 & H2 & (more & ->) & H4).
  rewrite closeOn_clockSets, closeOn_count_close.
  repeat split; try assumption; try lia.
  - unfold printf. rewrite <- app_assoc. eauto.
  - intros _ _. exact H4.
  - destruct o as [x| |]; try lia. contradiction.
Qed.

Lemma MonitorGPS_safe_witness :
  let '(o, w', out', _) :=
    MonitorGPS g0 linuxOk [MonScan (Some rmc) None; MonScan None None] [] [] in
  o <> Panicked /\ o <> Returned None
  /\ clockSets w' = clockSets []
  /\ (exists more, out' = ([] ++ more)%list)
  /\ (openFile linuxOk (DevicePath g0) = None ->
      fst (ConfigureSerialPort linuxOk (DevicePath g0) (BaudRate g0)
             (emit [] (EOpenFile (DevicePath g0)))) = None ->
      forallb noReadError [MonScan (Some rmc) None; MonScan None None] = true ->
      o = Pending)
  /\ count isClose w' =
     count isClose []
     + (match openFile linuxOk (DevicePath g0), o with
        | None, Returned _ => 1
        | _, _ => 0
        end).
Proof.
  exact (MonitorGPS_safe g0 linuxOk [MonScan (Some rmc) None; MonScan None None] [] []).
Defined.

(** ** An operating system the program does not know *)

Lemma unsupported_ConfigureSerialPort (env : Env) (device : string) (baud : Z)
    (w : World) :
  unsupportedOS env = true ->
  ConfigureSerialPort env device baud w = (Some (ErrUnsupportedOS (GOOS env)), w).
Proof.
  unfold unsupportedOS, ConfigureSerialPort. intros H.
  apply andb_true_iff in H as [H1 H2]. apply negb_true_iff in H1, H2.
  rewrite H1, H2. reflexivity.
Qed.

(** X10: on an operating system that is neither Windows nor one of the
    named Unix-like systems, SetSystemTime runs no command, and SyncTime,
    IsGPSDevice (for a path under /dev/) and MonitorGPS all fail in the same
    way: they open the device, return ErrUnsupportedOS from the port
    configuration, and close the device, without reading anything. *)
Theorem unsupported_os (g : GPSTimeSync) (env : Env) (w : World) :
  unsupportedOS env = true ->
  (forall t, SetSystemTime env t w =
             (Some (ErrUnsupportedOS (GOOS env)), emit w (ESetSystemTime t)))
  /\ (openFile env (DevicePath g) = None ->
      let w' := emit (emit w (EOpenFile (DevicePath g))) (EClose (DevicePath g)) in
      (forall evs, SyncTime g env evs w =
                   (Returned (Some (ErrUnsupportedOS (GOOS env))), w', evs))
      /\ (forall evs out, MonitorGPS g env evs w out =
                   (Returned (Some (ErrUnsupportedOS (GOOS env))), w', out, evs))
      /\ (HasPrefix (DevicePath g) "/dev/" = true ->
          forall evs, IsGPSDevice g env (DevicePath g) evs w =
                   (Returned (false, Some (ErrUnsupportedOS (GOOS env))), w', evs))).
Proof.
  intros H. pose proof H as H'. unfold unsupportedOS in H'.
  apply andb_true_iff in H' as [H1 H2]. apply negb_true_iff in H1, H2.
  split.
  - intros t. unfold SetSystemTime. rewrite H1, H2. reflexivity.
  - intros Ho w'. split; [|split].
    + intros evs. unfold SyncTime.
      rewrite Ho, (unsupported_ConfigureSerialPort env _ _ _ H). reflexivity.
    + intros evs out. unfold MonitorGPS.
      rewrite Ho, (unsupported_ConfigureSerialPort env _ _ _ H). reflexivity.
    + intros Hp evs. unfold IsGPSDevice.
      rewrite H1, Hp, Ho, (unsupported_ConfigureSerialPort env _ _ _ H). reflexivity.
Qed.

Lemma unsupported_os_witness :
  SyncTime g0 (mkEnv "plan9" (fun _ => None) (fun _ => None)) [EvScan (Some rmc) None] [] =
    (Returned (Some (ErrUnsupportedOS "plan9")),
     [EOpenFile "/dev/ttyUSB0"; EClose "/dev/ttyUSB0"], [EvScan (Some rmc) None]).
Proof.
  apply (proj2 (unsupported_os g0 (mkEnv "plan9" (fun _ => None) (fun _ => None)) []
                  eq_refl) eq_refl).
Defined.

(** ** The simulator's sentences and the programs that read them *)

Lemma list_ascii_app (a b : string) :
  list_ascii_of_string (a ++ b) = (list_ascii_of_string a ++ list_ascii_of_string b)%list.
Proof. induction a; simpl; congruence. Qed.

Lemma noComma_app (a b : string) : noComma (a ++ b) = noComma a && noComma b.
Proof. unfold noComma. rewrite list_ascii_app. apply forallb_app. Qed.

Lemma Split_noComma (s : string) : noComma s = true -> Split s "," = [s].
Proof.
  unfold noComma. induction s as [|c s IH]; simpl; intros H; [reflexivity|].
  apply andb_true_iff in H as [Hc Hs]. apply negb_true_iff in Hc.
  rewrite Hc, (IH Hs). reflexivity.
Qed.

Lemma Split_field (a rest : string) :
  noComma a = true -> Split (a ++ String "," rest) "," = a :: Split rest ",".
Proof. intros H. rewrite Split_app_sep, (Split_noComma a H). reflexivity. Qed.

Lemma uint_digits (d : Decimal.uint) : allDigits (NilEmpty.string_of_uint d) = true.
Proof. unfold allDigits. induction d; simpl; auto. Qed.

Lemma zeros_digits (n : nat) : allDigits (zeros n) = true.
Proof. unfold allDigits. induction n; simpl; auto. Qed.

Lemma allDigits_noComma (s : string) : allDigits s = true -> noComma s = true.
Proof.
  unfold allDigits, noComma. induction (list_ascii_of_string s) as [|c l IH];
    simpl; intros H; [reflexivity|].
  apply andb_true_iff in H as [Hc Hl]. rewrite (IH Hl), andb_true_r.
  destruct (Ascii.eqb_spec c ",") as [->|]; [discriminate Hc | reflexivity].
Qed.

(** [appendInt] writes a sign and digits, never a comma *)
Lemma noComma_appendInt (x : Z) (width : nat) : noComma (appendInt x width) = true.
Proof.
  unfold appendInt.
  set (ds := NilZero.string_of_uint (N.to_uint (Z.to_N (Z.abs x)))).
  assert (Hd : noComma ds = true).
  { apply allDigits_noComma. unfold ds, NilZero.string_of_uint.
    destruct (N.to_uint (Z.to_N (Z.abs x))) eqn:E; try reflexivity;
      rewrite <- E; apply uint_digits. }
  assert (Hp : noComma (zeros (width - String.length ds) ++ ds) = true)
    by (rewrite noComma_app, (allDigits_noComma _ (zeros_digits _)), Hd; reflexivity).
  cbv zeta. destruct (x <? 0)%Z; [|exact Hp].
  rewrite noComma_app, Hp. reflexivity.
Qed.

Lemma noComma_substring (s : string) (n m : nat) :
  noComma s = true -> noComma (substring n m s) = true.
Proof.
  unfold noComma. revert n m; induction s as [|c s IH]; intros n m H.
  - destruct n, m; reflexivity.
  - simpl in H. apply andb_true_iff in H as [Hc Hs].
    destruct n as [|n]; simpl.
    + destruct m as [|m]; simpl; [reflexivity|].
      rewrite Hc. apply (IH 0 m Hs).
    + apply IH. exact Hs.
Qed.

Lemma noComma_p2 (x : Z) : noComma (p2 x) = true.
Proof. apply noComma_appendInt. Qed.

Lemma noComma_Format_hhmmss_ff (t : Time) : noComma (Format_hhmmss_ff t) = true.
Proof.
  unfold Format_hhmmss_ff. rewrite !noComma_app, !noComma_p2.
  rewrite (noComma_substring _ 0 2 (noComma_appendInt (nsec t) 9)).
  reflexivity.
Qed.

Lemma noComma_Format_ddmmyy (t : Time) : noComma (Format_ddmmyy t) = true.
Proof. unfold Format_ddmmyy. rewrite !noComma_app, !noComma_p2. reflexivity. Qed.

Lemma append_inv_tail (a b x : string) : a ++ x = b ++ x -> a = b.
Proof.
  assert (L : forall s t : string, String.length (s ++ t) = String.length s + String.length t)
    by (intros s t; induction s; simpl; auto).
  revert b; induction a as [|c a IH]; intros b H.
  - destruct b as [|c' b]; [reflexivity|].
    apply (f_equal String.length) in H. simpl in H. rewrite L in H. lia.
  - destruct b as [|c' b].
    + apply (f_equal String.length) in H. simpl in H. rewrite L in H. lia.
    + simpl in H. injection H as -> H. f_equal. apply IH. exact H.
Qed.

(** the line the scanner gives for a sentence of the simulator *)
Lemma sentence_line (body l : string) :
  addChecksumAndCRLF body = l ++ CRLF ->
  l = "$" ++ body ++ "*" ++ fmt02X (xorLoop body 0).
Proof.
  unfold addChecksumAndCRLF. intros H.
  apply (append_inv_tail _ _ CRLF). rewrite <- H.
  simpl. rewrite !append_assoc. reflexivity.
Qed.

(** the first ten fields of an RMC sentence of the simulator *)
Lemma Split_gprmc (talkerID timeStr lat ns lon ew dateStr tail : string) :
  noComma talkerID = true -> noComma timeStr = true ->
  noComma lat = true -> noComma ns = true ->
  noComma lon = true -> noComma ew = true -> noComma dateStr = true ->
  exists more,
    Split ("$" ++ gprmcBody talkerID timeStr lat ns lon ew dateStr ++ tail) "," =
    ("$" ++ talkerID ++ "RMC") :: timeStr :: "A" :: lat :: ns :: lon :: ew
      :: "0.1" :: "0.0" :: dateStr :: more.
Proof.
  intros Ht Hti Hla Hns Hlo Hew Hd.
  unfold gprmcBody.
  replace ("$" ++ (talkerID ++ "RMC," ++ timeStr ++ ",A," ++ lat ++ "," ++ ns ++ ","
                   ++ lon ++ "," ++ ew ++ ",0.1,0.0," ++ dateStr ++ ",,,A") ++ tail)
    with (("$" ++ talkerID ++ "RMC") ++ String ","
          (timeStr ++ String ","
          ("A" ++ String ","
          (lat ++ String ","
          (ns ++ String ","
          (lon ++ String ","
          (ew ++ String ","
          ("0.1" ++ String ","
          ("0.0" ++ String ","
          (dateStr ++ String "," (",,A" ++ tail)))))))))))
    by (repeat first [rewrite append_assoc | progress cbn [append]]; reflexivity).
  rewrite !Split_field;
    try assumption; try reflexivity.
  - eexists. reflexivity.
  - rewrite !noComma_app, Ht. reflexivity.
Qed.

(** X11: SyncTime reads back the time the simulator writes.  For a valid
    instant [t], the RMC sentence that the simulator with talker "GP" writes
    for [t] makes SyncTime call SetSystemTime with the day, month, hour,
    minute and second of [t] (the fraction of the second is dropped) and the
    year [2000 + |year t| mod 100]: that is [t] itself, to the second, exactly
    when the year of [t] is in 2000..2099.  The position strings only have to
    be free of commas. *)
Theorem SyncTime_reads_simulator_rmc (g : GPSTimeSync) (env : Env) (w : World)
    (t : Time) (lat ns lon ew l : string) :
  validTime t = true ->
  noComma lat = true -> noComma ns = true ->
  noComma lon = true -> noComma ew = true ->
  rmcSentence "GP" t lat ns lon ew = l ++ CRLF ->
  let T := Date (2000 + Z.abs (year t) mod 100) (month t) (day t)
                (hour t) (minute t) (second t) in
  actionable l = true
  /\ syncLine g env l w =
     match SetSystemTime env T w with
     | (Some err, w') => (Return (Some err), w')
     | (None, w') => (Return None, emit w' (ELog (LogSynced (Format_RFC3339 T))))
     end
  /\ ((2000 <= year t <= 2099)%Z ->
      T = Date (year t) (month t) (day t) (hour t) (minute t) (second t)).
Proof.
  intros V Hla Hns Hlo Hew Hl T.
  apply sentence_line in Hl.
  set (body := gprmcBody "GP" (Format_hhmmss_ff t) lat ns lon ew (Format_ddmmyy t)) in *.
  assert (Hl' : l = "$" ++ body ++ ("*" ++ fmt02X (xorLoop body 0))) by exact Hl.
  destruct (Split_gprmc "GP" (Format_hhmmss_ff t) lat ns lon ew (Format_ddmmyy t)
              ("*" ++ fmt02X (xorLoop body 0)) eq_refl
              (noComma_Format_hhmmss_ff t) Hla Hns Hlo Hew (noComma_Format_ddmmyy t))
    as (more & Hs).
  fold body in Hs. rewrite <- Hl' in Hs.
  assert (Hp : HasPrefix l "$GPRMC" = true) by (rewrite Hl'; reflexivity).
  pose proof (ParseNMEATime_Format_all t V) as Hparse. fold T in Hparse.
  assert (H1 : nth_error (Split l ",") 1 = Some (Format_hhmmss_ff t))
    by (rewrite Hs; reflexivity).
  assert (H2 : nth_error (Split l ",") 2 = Some "A") by (rewrite Hs; reflexivity).
  assert (H9 : nth_error (Split l ",") 9 = Some (Format_ddmmyy t))
    by (rewrite Hs; reflexivity).
  split; [|split].
  - unfold actionable. rewrite Hp, H1, H2, H9, Hparse. reflexivity.
  - rewrite (syncLine_active g env l _ _ w Hp H2 H1 H9), Hparse. reflexivity.
  - intros Hy. subst T. f_equal.
    rewrite Z.abs_eq by lia.
    replace (year t) with ((year t - 2000) + 20 * 100)%Z at 1 by lia.
    rewrite Z.mod_add, Z.mod_small by lia. lia.
Qed.

Lemma SyncTime_reads_simulator_rmc_witness :
  exists l,
    rmcSentence "GP" (mkTime 2024 2 29 23 59 58 999999999)
                "5107.0380" "N" "00230.9960" "W" = l ++ CRLF
    /\ syncLine g0 linuxOk l [] =
       (Return None,
        [ESetSystemTime (Date 2024 2 29 23 59 58);
         EExec ["date"; "-s"; "2024-02-29 23:59:58"];
         ELog (LogSynced "2024-02-29T23:59:58Z")]).
Proof.
  exists "$GPRMC,235958.99,A,5107.0380,N,00230.9960,W,0.1,0.0,290224,,,A*4D".
  split; [reflexivity|].
  rewrite (proj1 (proj2 (SyncTime_reads_simulator_rmc g0 linuxOk []
             (mkTime 2024 2 29 23 59 58 999999999) "5107.0380" "N" "00230.9960" "W"
             "$GPRMC,235958.99,A,5107.0380,N,00230.9960,W,0.1,0.0,290224,,,A*4D"
             eq_refl eq_refl eq_refl eq_refl eq_refl eq_refl))).
  reflexivity.
Defined.

Lemma prefix_nil (s : string) : prefix EmptyString s = true.
Proof. destruct s; reflexivity. Qed.

Lemma validTalker_cases (talkerID : string) :
  validTalker talkerID = true ->
  talkerID = "GP" \/ talkerID = "GN" \/ talkerID = "GL" \/ talkerID = "GA".
Proof.
  unfold validTalker. intros H.
  destruct (String.eqb_spec talkerID "GP"); [auto|].
  destruct (String.eqb_spec talkerID "GN"); [auto|].
  destruct (String.eqb_spec talkerID "GL"); [auto|].
  destruct (String.eqb_spec talkerID "GA"); [auto|]. discriminate H.
Qed.

(** X12: MonitorGPS shows the RMC sentence of the simulator for each of the
    talker IDs the simulator accepts, with the time and date fields as they
    were written. *)
Theorem MonitorGPS_shows_simulator_rmc (talkerID : string) (t : Time)
    (lat ns lon ew l : string) (out : list string) :
  validTalker talkerID = true ->
  noComma lat = true -> noComma ns = true ->
  noComma lon = true -> noComma ew = true ->
  rmcSentence talkerID t lat ns lon ew = l ++ CRLF ->
  monitorLine l out =
    (MonNext,
     printf out ("Time: " ++ Format_hhmmss_ff t ++ ", Date: " ++ Format_ddmmyy t ++ LF)).
Proof.
  intros Vt Hla Hns Hlo Hew Hl.
  apply sentence_line in Hl.
  set (body := gprmcBody talkerID (Format_hhmmss_ff t) lat ns lon ew (Format_ddmmyy t)) in *.
  assert (Hl' : l = "$" ++ body ++ ("*" ++ fmt02X (xorLoop body 0))) by exact Hl.
  assert (Hnt : noComma talkerID = true)
    by (destruct (validTalker_cases _ Vt) as [->|[->|[->| ->]]]; reflexivity).
  destruct (Split_gprmc talkerID (Format_hhmmss_ff t) lat ns lon ew (Format_ddmmyy t)
              ("*" ++ fmt02X (xorLoop body 0)) Hnt
              (noComma_Format_hhmmss_ff t) Hla Hns Hlo Hew (noComma_Format_ddmmyy t))
    as (more & Hs).
  fold body in Hs. rewrite <- Hl' in Hs.
  assert (Hp : HasPrefix l "$" = true)
    by (rewrite Hl'; subst body;
        destruct (validTalker_cases _ Vt) as [->|[->|[->| ->]]]; reflexivity).
  assert (Hsuf : HasSuffix ("$" ++ talkerID ++ "RMC") "RMC" = true)
    by (destruct (validTalker_cases _ Vt) as [->|[->|[->| ->]]]; reflexivity).
  unfold monitorLine. rewrite Hp, Hs.
  cbn [List.length Nat.eqb nth_error Nat.leb]. rewrite Hsuf. reflexivity.
Qed.

Lemma MonitorGPS_shows_simulator_rmc_witness :
  monitorLine "$GNRMC,235958.99,A,5107.0380,N,00230.9960,W,0.1,0.0,290224,,,A*53" [] =
    (MonNext, ["Time: 235958.99, Date: 290224" ++ LF]).
Proof.
  apply (MonitorGPS_shows_simulator_rmc "GN" (mkTime 2024 2 29 23 59 58 999999999)
           "5107.0380" "N" "00230.9960" "W"); reflexivity.
Defined.

(** X13: every sentence of the simulator, whatever its body after the
    talker ID, is recognised by the probe: IsGPSDevice's loop returns true on
    it.  With a talker other than "GP" no sentence is actionable for
    SyncTime, so SyncTime never sets the clock from such a simulator. *)
Theorem simulator_talker (talkerID rest l : string) :
  validTalker talkerID = true ->
  addChecksumAndCRLF (talkerID ++ rest) = l ++ CRLF ->
  hasTalker l = true
  /\ (forall err evs w,
        probeLoop (EvScan (Some l) err :: evs) w =
          (Returned (true, None), emit w (ELog (LogDetected l)), evs))
  /\ (talkerID <> "GP" ->
      actionable l = false
      /\ forall g env w, syncLine g env l w = (FallThrough, w)).
Proof.
  intros Vt Hl. apply sentence_line in Hl.
  assert (Ht : hasTalker l = true)
    by (rewrite Hl; unfold hasTalker, HasPrefix;
        destruct (validTalker_cases _ Vt) as [->|[->|[->| ->]]];
        cbn; rewrite ?prefix_nil; reflexivity).
  split; [exact Ht|]. split.
  - intros err evs w. simpl. rewrite Ht. reflexivity.
  - intros Hgp.
    assert (Hp : HasPrefix l "$GPRMC" = false)
      by (rewrite Hl; unfold HasPrefix;
          destruct (validTalker_cases _ Vt) as [->|[->|[->| ->]]];
          [contradiction | reflexivity ..]).
    split.
    + unfold actionable. rewrite Hp. reflexivity.
    + intros g env w. unfold syncLine. rewrite Hp. reflexivity.
Qed.

Lemma simulator_talker_witness :
  hasTalker "$GLGSV,1,1,00*65" = true
  /\ actionable "$GNRMC,235958.99,A,5107.0380,N,00230.9960,W,0.1,0.0,290224,,,A*53" = false.
Proof.
  split.
  - apply (proj1 (simulator_talker "GL" "GSV,1,1,00" "$GLGSV,1,1,00*65"
                    eq_refl eq_refl)).
  - apply (proj2 (proj2 (simulator_talker "GN"
             "RMC,235958.99,A,5107.0380,N,00230.9960,W,0.1,0.0,290224,,,A"
             "$GNRMC,235958.99,A,5107.0380,N,00230.9960,W,0.1,0.0,290224,,,A*53"
             eq_refl eq_refl))).
    discriminate.
Defined.

(** ** The GSV sentences of the simulator *)

Lemma append_nil_r (s : string) : s ++ "" = s.
Proof. induction s; simpl; congruence. Qed.

Lemma svLoop_spec (k sv i numSV : nat) (sat : nat -> SV) (body : string) :
  svLoop k sv i numSV sat body =
  body ++ joinAll (map (fun j => svFields (sat j))
                       (seq (i * 4 + sv) (Nat.min k (numSV - (i * 4 + sv))))).
Proof.
  revert sv body; induction k as [|k IH]; intros sv body; simpl.
  - now rewrite append_nil_r.
  - destruct (Nat.ltb_spec (i * 4 + sv) numSV) as [Hlt|Hge].
    + rewrite IH.
      replace (numSV - (i * 4 + sv)) with (S (numSV - (i * 4 + S sv))) by lia.
      simpl. rewrite append_assoc.
      replace (i * 4 + S sv) with (S (i * 4 + sv)) by lia. reflexivity.
    + replace (numSV - (i * 4 + sv)) with 0 by lia. simpl.
      now rewrite append_nil_r.
Qed.

Lemma gsv_indices (n k : nat) :
  flat_map (fun i => seq (i * 4) (Nat.min 4 (n - i * 4))) (seq 0 k)
  = seq 0 (Nat.min n (4 * k)).
Proof.
  induction k as [|k IH].
  - simpl. now rewrite Nat.min_0_r.
  - rewrite seq_S, flat_map_app, IH. cbn [flat_map Nat.add]. rewrite app_nil_r.
    destruct (Nat.le_gt_cases (4 * k) n) as [Hle|Hgt].
    + rewrite (Nat.min_r n (4 * k)) by lia.
      replace (k * 4) with (0 + 4 * k) by lia.
      rewrite <- seq_app. f_equal. lia.
    + rewrite (Nat.min_l n (4 * k)) by lia.
      replace (n - k * 4) with 0 by lia. cbn [Nat.min seq]. rewrite app_nil_r.
      f_equal. lia.
Qed.

(** X14: the GSV sentences of one second.  For [numSV] satellites in view
    the simulator writes [(numSV + 3) / 4] messages; message [i] is its
    header followed by the fields of the satellites [4i .. 4i+3] that exist,
    at least one and at most four; over all messages every satellite
    [0 .. numSV-1] is listed exactly once, in order. *)
Theorem gsv_messages (talkerID : string) (numSV : nat) (sat : nat -> SV) :
  let numGSVMsgs := (numSV + 3) / 4 in
  let listed i := seq (i * 4) (Nat.min 4 (numSV - i * 4)) in
  List.length (gsvSentences talkerID numSV sat) = numGSVMsgs
  /\ (forall i, i < numGSVMsgs ->
        gsvBody talkerID numGSVMsgs i numSV sat =
          (talkerID ++ "GSV," ++ Itoa (Z.of_nat numGSVMsgs) ++ ","
           ++ Itoa (Z.of_nat (i + 1)) ++ "," ++ fmt0d 2 (Z.of_nat numSV))
          ++ joinAll (map (fun j => svFields (sat j)) (listed i))
        /\ 1 <= List.length (listed i) <= 4)
  /\ flat_map listed (seq 0 numGSVMsgs) = seq 0 numSV.
Proof.
  intros numGSVMsgs listed.
  assert (Hm : numSV <= 4 * numGSVMsgs /\ 4 * numGSVMsgs < numSV + 4).
  { subst numGSVMsgs.
    pose proof (Nat.div_mod (numSV + 3) 4 ltac:(lia)).
    pose proof (Nat.mod_upper_bound (numSV + 3) 4 ltac:(lia)). lia. }
  split; [|split].
  - unfold gsvSentences. rewrite length_map, length_seq. reflexivity.
  - intros i Hi. split.
    + unfold gsvBody. rewrite svLoop_spec.
      replace (i * 4 + 0) with (i * 4) by lia. reflexivity.
    + subst listed. cbv beta. rewrite length_seq. lia.
  - subst listed. rewrite gsv_indices. f_equal. lia.
Qed.

Lemma gsv_messages_witness :
  gsvBody "GP" 2 1 7 (fun j => mkSV (Z.of_nat j + 1) 45 120 33) =
    ("GP" ++ "GSV," ++ Itoa 2 ++ "," ++ Itoa 2 ++ "," ++ fmt0d 2 7)
    ++ joinAll (map (fun j => svFields (mkSV (Z.of_nat j + 1) 45 120 33)) (seq 4 3))
  /\ 1 <= List.length (seq 4 3) <= 4.
Proof.
  apply (proj1 (proj2 (gsv_messages "GP" 7 (fun j => mkSV (Z.of_nat j + 1) 45 120 33))) 1).
  simpl. lia.
Defined.

(** X15: [main] brings the number of satellites into 0..12, and then the
    two clamps on the number of satellites in view never act: with the
    random addend in 0..4 the number in view is the sum, at most 16, so at
    most four GSV messages are written per second. *)
Theorem satellites_in_view (numSatellites r : Z) :
  (0 <= r < 5)%Z ->
  let n := clampSatellites numSatellites in
  (0 <= n <= 12)%Z
  /\ ((0 <= numSatellites <= 12)%Z -> n = numSatellites)
  /\ numSVInView n r = (n + r)%Z
  /\ (numSVInView n r <= 16)%Z
  /\ (Z.to_nat (numSVInView n r) + 3) / 4 <= 4.
Proof.
  intros Hr n.
  assert (Hn : (0 <= n <= 12)%Z /\ ((0 <= numSatellites <= 12)%Z -> n = numSatellites)).
  { subst n. unfold clampSatellites.
    destruct (Z.ltb_spec numSatellites 0), (Z.ltb_spec 12 numSatellites);
      simpl; try destruct (Z.ltb_spec 12 0); lia. }
  destruct Hn as [Hn He].
  assert (Hv : numSVInView n r = (n + r)%Z).
  { unfold numSVInView.
    destruct (Z.ltb_spec (n + r) n); [lia|].
    destruct (Z.ltb_spec 20 (n + r)); [lia | reflexivity]. }
  repeat split; try lia; try assumption.
  rewrite Hv.
  assert ((Z.to_nat (n + r) + 3) / 4 < 5)
    by (apply Nat.Div0.div_lt_upper_bound; lia).
  lia.
Qed.

Lemma satellites_in_view_witness :
  numSVInView (clampSatellites 40) 4 = (clampSatellites 40 + 4)%Z
  /\ clampSatellites (-3) = 0%Z.
Proof.
  split.
  - apply (satellites_in_view 40 4). lia.
  - reflexivity.
Defined.

(** ** pkg/device: finding devices *)

Lemma potential_indep (de : DevEnv) (device : string) (w : World) :
  fst (IsPotentialGPSDevice de device w) = potential de device.
Proof.
  unfold potential, IsPotentialGPSDevice.
  destruct (negb (statOk de device)); [reflexivity|].
  destruct (GOOS (osEnv de) =? "windows"); [reflexivity|].
  destruct (isUnix (GOOS (osEnv de))); [|reflexivity].
  destruct (cmdOutput de _); reflexivity.
Qed.

Lemma potential_statOk (de : DevEnv) (device : string) :
  potential de device = true -> statOk de device = true.
Proof.
  unfold potential, IsPotentialGPSDevice.
  destruct (statOk de device); [reflexivity | discriminate].
Qed.

Lemma serialLoop_filter (de : DevEnv) (serial devices : list string) (w : World) :
  fst (serialLoop de serial devices w) = (devices ++ filter (potential de) serial)%list.
Proof.
  revert devices w; induction serial as [|d serial IH]; intros devices w; simpl.
  - now rewrite app_nil_r.
  - pose proof (potential_indep de d w) as Hp.
    destruct (IsPotentialGPSDevice de d w) as [ok w1]. simpl in Hp. subst ok.
    rewrite IH. destruct (potential de d); [|reflexivity].
    unfold push. now rewrite <- app_assoc.
Qed.

Lemma windows_candidates :
  Forall (fun d => HasPrefix d "COM" = true)
         (map (fun i => "COM" ++ Itoa (Z.of_nat i)) (seq 1 16))
  /\ NoDup (map (fun i => "COM" ++ Itoa (Z.of_nat i)) (seq 1 16)).
Proof.
  split.
  - repeat constructor.
  - repeat (constructor; [simpl; intuition discriminate|]). constructor.
Qed.

(** X16: FindGPSDevices never answers with an empty list (no device is
    the error ErrNoGPSDevices).  On Windows it runs no command and each of
    the at most 16 devices it returns exists and has a name that
    IsGPSDevice accepts; on an unknown system it fails at once. *)
Theorem FindGPSDevices_result (de : DevEnv) (w : World) :
  let '(r, w') := FindGPSDevices de w in
  r <> Found []
  /\ (GOOS (osEnv de) = "windows" ->
      w' = w
      /\ forall ds, r = Found ds ->
           Forall (fun d => statOk de d = true
                            /\ validDevicePath (osEnv de) d = true) ds
           /\ NoDup ds /\ List.length ds <= 16)
  /\ (unsupportedOS (osEnv de) = true ->
      r = FindUnsupportedOS (GOOS (osEnv de)) /\ w' = w).
Proof.
  unfold FindGPSDevices, unsupportedOS.
  destruct (String.eqb_spec (GOOS (osEnv de)) "windows") as [Ew|Ew].
  - set (cands := map (fun i => "COM" ++ Itoa (Z.of_nat i)) (seq 1 16)).
    destruct (filter (statOk de) cands) as [|d0 ds0] eqn:E; cbn [List.length Nat.eqb].
    + split; [discriminate|]. split; [|discriminate].
      intros _. split; [reflexivity|]. intros ds Hd. discriminate Hd.
    + split; [discriminate|]. split; [|discriminate].
      intros _. split; [reflexivity|]. intros ds Hd. injection Hd as <-.
      rewrite <- E.
      destruct windows_candidates as [Hpre Hnd]. fold cands in Hpre, Hnd.
      split; [|split].
      * apply Forall_forall. intros d Hin. apply filter_In in Hin as [Hin Hs].
        split; [exact Hs|]. unfold validDevicePath. rewrite Ew. simpl.
        rewrite Forall_forall in Hpre. exact (Hpre d Hin).
      * apply NoDup_filter. exact Hnd.
      * pose proof (filter_length_le (statOk de) cands) as Hl.
        subst cands. rewrite length_map, length_seq in Hl. exact Hl.
  - destruct (isUnix (GOOS (osEnv de))).
    + assert (Hgoal : forall p : FindResult * World,
                fst p <> Found [] ->
                let '(r, w') := p in
                r <> Found []
                /\ (GOOS (osEnv de) = "windows" ->
                    w' = w /\ forall ds, r = Found ds ->
                      Forall (fun d => statOk de d = true
                                       /\ validDevicePath (osEnv de) d = true) ds
                      /\ NoDup ds /\ List.length ds <= 16)
                /\ (negb false && negb true = true ->
                    r = FindUnsupportedOS (GOOS (osEnv de)) /\ w' = w)).
      { intros [r w'] Hp. split; [exact Hp|]. split; [contradiction | discriminate]. }
      apply Hgoal.
      destruct (globOrEmpty de "/dev/ttyUSB*" ++ globOrEmpty de "/dev/ttyACM*")%list
        as [|d0 ds0]; cbn [List.length Nat.eqb].
      * destruct (glob de "/dev/ttyS*") as [serial|]; [|discriminate].
        destruct (serialLoop de serial [] w) as [ds w1].
        destruct ds; discriminate.
      * discriminate.
    + split; [discriminate|]. split; [contradiction|]. auto.
Qed.

Lemma FindGPSDevices_result_witness :
  let de := mkDevEnv windowsOk
              (fun d => if (d =? "COM3") || (d =? "COM12") then StatOk else StatNotExist)
              (fun _ => None) (fun _ => None) in
  FindGPSDevices de [] = (Found ["COM3"; "COM12"], [])
  /\ Forall (fun d => statOk de d = true /\ validDevicePath (osEnv de) d = true)
            ["COM3"; "COM12"].
Proof.
  intros de. split; [reflexivity|].
  pose proof (FindGPSDevices_result de []) as H.
  change (FindGPSDevices de []) with (Found ["COM3"; "COM12"], @nil Effect) in H.
  destruct H as (_ & Hw & _). destruct (Hw eq_refl) as [_ Hd].
  exact (proj1 (Hd _ eq_refl)).
Defined.

(** X17: on the Unix-like systems USB and ACM devices come first: when a
    /dev/ttyUSB* or /dev/ttyACM* device exists, the result is exactly those
    devices, in that order, and no command is run; serial ports are looked at
    only when there is none, and then only the ports that
    IsPotentialGPSDevice accepts are returned. *)
Theorem FindGPSDevices_unix (de : DevEnv) (w : World) :
  isUnix (GOOS (osEnv de)) = true ->
  let usb := globOrEmpty de "/dev/ttyUSB*" in
  let acm := globOrEmpty de "/dev/ttyACM*" in
  ((usb ++ acm)%list <> [] ->
     FindGPSDevices de w = (Found (usb ++ acm)%list, w))
  /\ ((usb ++ acm)%list = [] ->
      (forall serial, glob de "/dev/ttyS*" = Some serial ->
         fst (FindGPSDevices de w) =
         match filter (potential de) serial with
         | [] => ErrNoGPSDevices
         | ds => Found ds
         end)
      /\ (glob de "/dev/ttyS*" = None -> FindGPSDevices de w = (ErrNoGPSDevices, w))).
Proof.
  intros Hu usb acm.
  assert (Ew : (GOOS (osEnv de) =? "windows") = false).
  { destruct (String.eqb_spec (GOOS (osEnv de)) "windows") as [E|]; [|reflexivity].
    rewrite E in Hu. discriminate Hu. }
  unfold FindGPSDevices. rewrite Ew, Hu. fold usb acm.
  split.
  - intros Hne. destruct (usb ++ acm)%list eqn:E; [contradiction|]. reflexivity.
  - intros Hnil. rewrite Hnil. simpl. split.
    + intros serial Hs. rewrite Hs.
      pose proof (serialLoop_filter de serial [] w) as Hf.
      destruct (serialLoop de serial [] w) as [ds w1]. simpl in Hf. subst ds.
      destruct (filter (potential de) serial); reflexivity.
    + intros Hs. rewrite Hs. reflexivity.
Qed.

Lemma FindGPSDevices_unix_witness :
  let de := mkDevEnv linuxOk (fun _ => StatOk)
              (fun p => if p =? "/dev/ttyACM*" then Some ["/dev/ttyACM0"]
                        else if p =? "/dev/ttyS*" then Some ["/dev/ttyS0"]
                        else Some [])
              (fun _ => Some "ID_MODEL=GPS") in
  FindGPSDevices de [] = (Found ["/dev/ttyACM0"], []).
Proof.
  intros de.
  apply (proj1 (FindGPSDevices_unix de [] eq_refl)). discriminate.
Defined.

(** ** pkg/device: MonitorDevices *)

Lemma seenHas_In (s : Seen) (d : string) : seenHas s d = true <-> In d s.
Proof.
  unfold seenHas. rewrite existsb_exists. split.
  - intros (x & Hin & He). apply String.eqb_eq in He. now subst.
  - intros H. exists d. split; [exact H | apply String.eqb_refl].
Qed.

Lemma seenHas_push (s : Seen) (x d : string) :
  seenHas (push s x) d = seenHas s d || String.eqb d x.
Proof. unfold seenHas, push. rewrite existsb_app. simpl. now rewrite orb_false_r. Qed.

Lemma tidy_nil (seen0 : Seen) : tidy seen0 [].
Proof. split; [reflexivity|]. intros d. simpl. destruct (seenHas seen0 d); lia. Qed.

(** the announcement of a new device, what the probe made print, and the
    rest of the turn *)
Lemma tidy_new (seen0 : Seen) (device : string) (extra more : list DevOut) :
  seenHas seen0 device = false ->
  forallb (fun o => negb (isNotGPS o)) extra = true ->
  (forall d, filter (isNew d) extra = []) ->
  tidy (push seen0 device) more ->
  tidy seen0 (OutNewDevice device :: extra ++ more).
Proof.
  intros Hs He Hn [Hm Hc]. split.
  - simpl. rewrite forallb_app, He, Hm. reflexivity.
  - intros d. specialize (Hc d). rewrite seenHas_push in Hc.
    simpl. rewrite filter_app, Hn. simpl.
    destruct (String.eqb d device) eqn:Ed.
    + apply String.eqb_eq in Ed. subst d.
      rewrite Hs. rewrite orb_true_r in Hc. simpl. lia.
    + rewrite orb_false_r in Hc. exact Hc.
Qed.

Lemma newLoop_inv (de : DevEnv) (debug : bool) (probeEvs : string -> list Event)
    (devices : list string) (st : MonState) :
  NoDup (seen st) ->
  let '(o, st') := newLoop de debug probeEvs devices st in
  o <> Panicked /\ NoDup (seen st')
  /\ (forall d, In d (seen st') -> In d (seen st) \/ In d devices)
  /\ exists more, outs st' = (outs st ++ more)%list /\ tidy (seen st) more.
Proof.
  revert st; induction devices as [|device rest IH]; intros st Hnd.
  - simpl. split; [discriminate|]. split; [exact Hnd|]. split; [auto|].
    exists []. rewrite app_nil_r. split; [reflexivity | apply tidy_nil].
  - cbn [newLoop].
    destruct (seenHas (seen st) device) eqn:Hs; cbn [negb].
    + specialize (IH st Hnd). destruct (newLoop de debug probeEvs rest st) as [o st'].
      destruct IH as (H1 & H2 & H3 & H4). repeat split; try assumption.
      intros d Hd. destruct (H3 d Hd); [left | right; right]; assumption.
    + assert (Hnd1 : NoDup (push (seen st) device)).
      { unfold push. apply NoDup_app; [exact Hnd | repeat constructor; intros [] |].
        intros x Hx [<-|[]]. apply seenHas_In in Hx. congruence. }
      assert (Hin1 : forall st1 d, seen st1 = push (seen st) device ->
                 In d (seen st1) -> In d (seen st) \/ In d (device :: rest)).
      { intros st1 d E Hd. rewrite E in Hd. unfold push in Hd.
        apply in_app_or in Hd as [Hd|[<-|[]]]; [left | right; left]; auto. }
      pose proof (IsGPSDevice_result (mkGPSTimeSync device 9600 debug) (osEnv de)
                    device (probeEvs device) (world st)) as Hr.
      destruct (IsGPSDevice (mkGPSTimeSync device 9600 debug) (osEnv de) device
                  (probeEvs device) (world st)) as [[o w1] r].
      destruct Hr as (Hp & _ & Hr).
      assert (Hcont : forall extra,
                forallb (fun o => negb (isNotGPS o)) extra = true ->
                (forall d, filter (isNew d) extra = []) ->
                let '(o', st') :=
                  newLoop de debug probeEvs rest
                    (mkMonState (push (seen st) device) w1
                       (say (outs st) (OutNewDevice device) ++ extra)%list) in
                o' <> Panicked /\ NoDup (seen st')
                /\ (forall d, In d (seen st') -> In d (seen st) \/ In d (device :: rest))
                /\ exists more, outs st' = (outs st ++ more)%list /\ tidy (seen st) more).
      { intros extra He Hn.
        specialize (IH (mkMonState (push (seen st) device) w1
                          (say (outs st) (OutNewDevice device) ++ extra)%list) Hnd1).
        destruct (newLoop de debug probeEvs rest _) as [o' st'].
        destruct IH as (H1 & H2 & H3 & more & H4 & H5). cbn [seen outs] in *.
        split; [exact H1|]. split; [exact H2|]. split.
        - intros d Hd. destruct (H3 d Hd) as [Hd'|Hd']; [|right; right; exact Hd'].
          unfold push in Hd'. apply in_app_or in Hd' as [Hd'|[<-|[]]];
            [left | right; left]; auto.
        - exists (OutNewDevice device :: extra ++ more)%list. split.
          + rewrite H4. unfold say. rewrite <- !app_assoc. reflexivity.
          + apply tidy_new; assumption. }
      destruct o as [[isGPS err]| |].
      * destruct err as [e|].
        -- destruct debug.
           ++ apply (Hcont [OutTestError device e]); [reflexivity | reflexivity].
           ++ pose proof (Hcont [] eq_refl (fun _ => eq_refl)) as Hc.
              rewrite app_nil_r in Hc. exact Hc.
        -- destruct (Hr isGPS None eq_refl) as [Hi _].
           assert (isGPS = true) by (apply Hi; reflexivity). subst isGPS.
           apply (Hcont [OutConfirmed device]); reflexivity.
      * contradiction.
      * split; [discriminate|]. split; [exact Hnd1|]. split.
        -- intros d Hd. cbn [seen] in Hd. unfold push in Hd.
           apply in_app_or in Hd as [Hd|[<-|[]]]; [left | right; left]; auto.
        -- exists [OutNewDevice device]. split; [reflexivity|].
           pose proof (tidy_new (seen st) device [] [] Hs eq_refl (fun _ => eq_refl)
                         (tidy_nil _)) as Ht.
           exact Ht.
Qed.

Lemma removeLoop_inv (de : DevEnv) (keys : list string) (st : MonState) :
  let st' := removeLoop de keys st in
  incl (seen st') (seen st)
  /\ (NoDup (seen st) -> NoDup (seen st'))
  /\ (forall k, In k keys -> stat de k = StatNotExist -> ~ In k (seen st'))
  /\ world st' = world st
  /\ exists more, outs st' = (outs st ++ more)%list
                  /\ forallb (fun o => negb (isNotGPS o)) more = true
                  /\ forall d, filter (isNew d) more = [].
Proof.
  revert st; induction keys as [|k keys IH]; intros st; cbn [removeLoop].
  - cbv zeta. split; [apply incl_refl|]. split; [auto|]. split; [intros k []|].
    split; [reflexivity|]. exists []. rewrite app_nil_r. auto.
  - assert (Hskip : stat de k <> StatNotExist ->
              let st' := removeLoop de keys st in
              incl (seen st') (seen st)
              /\ (NoDup (seen st) -> NoDup (seen st'))
              /\ (forall k0, In k0 (k :: keys) -> stat de k0 = StatNotExist ->
                  ~ In k0 (seen st'))
              /\ world st' = world st
              /\ exists more, outs st' = (outs st ++ more)%list
                              /\ forallb (fun o => negb (isNotGPS o)) more = true
                              /\ forall d, filter (isNew d) more = []).
    { intros Hk. specialize (IH st). cbv zeta in *.
      destruct IH as (H1 & H2 & H3 & H4 & H5).
      repeat split; try assumption.
      intros k0 [<-|Hin] Hs; [contradiction | exact (H3 k0 Hin Hs)]. }
    destruct (stat de k) eqn:Ek; try (apply Hskip; discriminate).
    set (st1 := mkMonState (filter (fun d => negb (String.eqb k d)) (seen st))
                  (world st) (say (outs st) (OutRemoved k))).
    specialize (IH st1). cbv zeta in *.
    destruct IH as (H1 & H2 & H3 & H4 & more & H5 & H6 & H7).
    assert (Hsub : incl (seen st1) (seen st))
      by (intros x Hx; apply filter_In in Hx; tauto).
    split; [intros x Hx; apply Hsub, H1, Hx|]. split.
    { intros Hnd. apply H2. apply NoDup_filter. exact Hnd. }
    split.
    { intros k0 [<-|Hin] Hs.
      - intros Hx. apply H1 in Hx. apply filter_In in Hx as [_ Hx].
        rewrite String.eqb_refl in Hx. discriminate Hx.
      - exact (H3 k0 Hin Hs). }
    split; [exact H4|].
    exists (OutRemoved k :: more). split.
    { rewrite H5. unfold st1, say. cbn [outs]. rewrite <- app_assoc. reflexivity. }
    split; [simpl; exact H6|]. intros d. simpl. apply H7.
Qed.

Lemma tidy_app_removed (seen0 : Seen) (more more' : list DevOut) :
  tidy seen0 more ->
  forallb (fun o => negb (isNotGPS o)) more' = true ->
  (forall d, filter (isNew d) more' = []) ->
  tidy seen0 (more ++ more').
Proof.
  intros [H1 H2] H3 H4. split.
  - rewrite forallb_app, H1, H3. reflexivity.
  - intros d. rewrite filter_app, H4, app_nil_r. apply H2.
Qed.

Lemma FindGPSDevices_unsupported_inv (de : DevEnv) (w w' : World) (goos : string) :
  FindGPSDevices de w = (FindUnsupportedOS goos, w') ->
  goos = GOOS (osEnv de) /\ unsupportedOS (osEnv de) = true /\ w' = w.
Proof.
  unfold FindGPSDevices, unsupportedOS.
  destruct (GOOS (osEnv de) =? "windows").
  - destruct (List.length _ =? 0)%nat; discriminate.
  - destruct (isUnix (GOOS (osEnv de))).
    + destruct (List.length _ =? 0)%nat; [|discriminate].
      destruct (glob de "/dev/ttyS*") as [serial|]; [|discriminate].
      destruct (serialLoop de serial _ w) as [ds w1].
      destruct (List.length ds =? 0)%nat; discriminate.
    + intros H. injection H as <- <-. auto.
Qed.

Lemma monitorTick_inv (de : DevEnv) (debug : bool) (probeEvs : string -> list Event)
    (st : MonState) :
  NoDup (seen st) ->
  let '(o, st') := monitorTick de debug probeEvs st in
  o <> Panicked /\ NoDup (seen st')
  /\ (o = Returned None -> forall d, In d (seen st') -> stat de d <> StatNotExist)
  /\ (exists more, outs st' = (outs st ++ more)%list /\ tidy (seen st) more)
  /\ (forall r, o = Returned (Some r) ->
        r = FindUnsupportedOS (GOOS (osEnv de))
        /\ unsupportedOS (osEnv de) = true
        /\ st' = st).
Proof.
  intros Hnd. unfold monitorTick.
  assert (Hgo : forall devices w,
            let '(o, st') :=
              match newLoop de debug probeEvs devices (mkMonState (seen st) w (outs st)) with
              | (Returned _, st1) => (Returned None, removeLoop de (seen st1) st1)
              | (Panicked, st1) => (Panicked, st1)
              | (Pending, st1) => (Pending, st1)
              end in
            o <> Panicked /\ NoDup (seen st')
            /\ (o = Returned None ->
                forall d, In d (seen st') -> stat de d <> StatNotExist)
            /\ (exists more, outs st' = (outs st ++ more)%list /\ tidy (seen st) more)
            /\ (forall r, o = Returned (Some r) ->
                  r = FindUnsupportedOS (GOOS (osEnv de))
                  /\ unsupportedOS (osEnv de) = true
                  /\ st' = st)).
  { intros devices w.
    pose proof (newLoop_inv de debug probeEvs devices
                  (mkMonState (seen st) w (outs st)) Hnd) as Hn.
    destruct (newLoop de debug probeEvs devices _) as [o st1].
    destruct Hn as (H1 & H2 & _ & more & H4 & H5). cbn [seen outs] in *.
    destruct o as [u| |]; [|contradiction|].
    - pose proof (removeLoop_inv de (seen st1) st1) as Hr. cbv zeta in Hr.
      destruct Hr as (R1 & R2 & R3 & _ & more' & R5 & R6 & R7).
      split; [discriminate|]. split; [exact (R2 H2)|]. split.
      + intros _ d Hd Hs. exact (R3 d (R1 d Hd) Hs Hd).
      + split.
        * exists (more ++ more')%list. split.
          -- rewrite R5, H4, <- app_assoc. reflexivity.
          -- apply tidy_app_removed; assumption.
        * intros r Hr. discriminate Hr.
    - split; [discriminate|]. split; [exact H2|]. split; [discriminate|].
      split; [eauto|]. intros r Hr. discriminate Hr. }
  destruct (FindGPSDevices de (world st)) as [r w] eqn:Ef.
  destruct r as [devices| |goos].
  - apply Hgo.
  - apply Hgo.
  - destruct (FindGPSDevices_unsupported_inv de _ _ _ Ef) as (-> & Hu & ->).
    split; [discriminate|]. split; [exact Hnd|]. split; [discriminate|]. split.
    + exists []. rewrite app_nil_r. split; [reflexivity | apply tidy_nil].
    + intros r Hr. injection Hr as <-. destruct st; auto.
Qed.

(** ** pkg/device: which devices a poll opens *)

Lemma count_IsPotentialGPSDevice (p : Effect -> bool) (de : DevEnv) (device : string)
    (w : World) :
  (forall argv, p (EExec argv) = false) ->
  count p (snd (IsPotentialGPSDevice de device w)) = count p w.
Proof.
  intros Hp. unfold IsPotentialGPSDevice.
  destruct (negb (statOk de device)); [reflexivity|].
  destruct (GOOS (osEnv de) =? "windows"); [reflexivity|].
  destruct (isUnix (GOOS (osEnv de))); [|reflexivity].
  destruct (cmdOutput de _); cbn [snd]; rewrite count_emit, Hp; lia.
Qed.

Lemma count_serialLoop (p : Effect -> bool) (de : DevEnv) (serial devices : list string)
    (w : World) :
  (forall argv, p (EExec argv) = false) ->
  count p (snd (serialLoop de serial devices w)) = count p w.
Proof.
  intros Hp. revert devices w; induction serial as [|s serial IH]; intros devices w;
    cbn [serialLoop]; [reflexivity|].
  pose proof (count_IsPotentialGPSDevice p de s w Hp) as H.
  destruct (IsPotentialGPSDevice de s w) as [ok w1]. cbn [snd] in H.
  rewrite IH. exact H.
Qed.

(** FindGPSDevices runs commands at most: it opens and closes nothing *)
Lemma count_FindGPSDevices (p : Effect -> bool) (de : DevEnv) (w : World) :
  (forall argv, p (EExec argv) = false) ->
  count p (snd (FindGPSDevices de w)) = count p w.
Proof.
  intros Hp. unfold FindGPSDevices. cbv beta zeta.
  destruct (GOOS (osEnv de) =? "windows").
  - destruct (Nat.eqb _ 0); reflexivity.
  - destruct (isUnix (GOOS (osEnv de))); [|reflexivity].
    destruct (Nat.eqb _ 0).
    + destruct (glob de "/dev/ttyS*") as [serial|].
      * pose proof (count_serialLoop p de serial
                      (globOrEmpty de "/dev/ttyUSB*" ++ globOrEmpty de "/dev/ttyACM*")%list
                      w Hp) as H.
        destruct (serialLoop de serial _ w) as [ds w1]. cbn [snd] in H.
        destruct (List.length ds =? 0)%nat; exact H.
      * reflexivity.
    + reflexivity.
Qed.

(** the probe opens its device once when the path passes the check, and no
    other device *)
Lemma IsGPSDevice_opens (g : GPSTimeSync) (env : Env) (device : string)
    (evs : list Event) (w : World) (d : string) :
  count (isOpenOf d) (snd (fst (IsGPSDevice g env device evs w))) =
  count (isOpenOf d) w
  + (if validDevicePath env device && String.eqb d device then 1 else 0).
Proof.
  unfold IsGPSDevice, validDevicePath.
  assert (Hinv : count (isOpenOf d) w = count (isOpenOf d) w + (if false then 1 else 0))
    by lia.
  destruct (GOOS env =? "windows").
  - destruct (HasPrefix device "COM"); cbn [negb andb]; [|exact Hinv].
    destruct (openFile env device) as [x|]; cbn [fst snd].
    + rewrite count_emit. reflexivity.
    + pose proof (count_ConfigureSerialPort (isOpenOf d) (fun _ => eq_refl) env device
                    (BaudRate g) (emit w (EOpenFile device))) as Hc.
      rewrite count_emit in Hc.
      destruct (ConfigureSerialPort env device (BaudRate g) (emit w (EOpenFile device)))
        as [[x|] w1]; cbn [fst snd] in *.
      * rewrite count_emit, Hc. cbn [isOpenOf]. lia.
      * pose proof (count_probeLoop (isOpenOf d) (fun _ => eq_refl) evs w1) as Hl.
        destruct (probeLoop evs w1) as [[o w2] rest]. cbn [fst snd] in *.
        assert (Hcl : count (isOpenOf d) (closeOn o device w2) = count (isOpenOf d) w2)
          by (destruct o; cbn [closeOn]; rewrite ?count_emit; cbn [isOpenOf]; lia).
        cbn [isOpenOf] in Hc. lia.
  - destruct (HasPrefix device "/dev/"); cbn [negb andb]; [|exact Hinv].
    destruct (openFile env device) as [x|]; cbn [fst snd].
    + rewrite count_emit. reflexivity.
    + pose proof (count_ConfigureSerialPort (isOpenOf d) (fun _ => eq_refl) env device
                    (BaudRate g) (emit w (EOpenFile device))) as Hc.
      rewrite count_emit in Hc.
      destruct (ConfigureSerialPort env device (BaudRate g) (emit w (EOpenFile device)))
        as [[x|] w1]; cbn [fst snd] in *.
      * rewrite count_emit, Hc. cbn [isOpenOf]. lia.
      * pose proof (count_probeLoop (isOpenOf d) (fun _ => eq_refl) evs w1) as Hl.
        destruct (probeLoop evs w1) as [[o w2] rest]. cbn [fst snd] in *.
        assert (Hcl : count (isOpenOf d) (closeOn o device w2) = count (isOpenOf d) w2)
          by (destruct o; cbn [closeOn]; rewrite ?count_emit; cbn [isOpenOf]; lia).
        cbn [isOpenOf] in Hc. lia.
Qed.

Lemma announced_say (d : string) (o : list DevOut) (x : DevOut) :
  announced d (say o x) = announced d o + (if isNew d x then 1 else 0).
Proof.
  unfold announced, say. rewrite filter_app, length_app. simpl.
  destruct (isNew d x); reflexivity.
Qed.

Lemma announced_app (d : string) (o more : list DevOut) :
  announced d (o ++ more) = announced d o + announced d more.
Proof. unfold announced. rewrite filter_app, length_app. reflexivity. Qed.

(** in the loop over the devices found, every opening of a device follows
    its announcement *)
Lemma newLoop_opens (de : DevEnv) (debug : bool) (probeEvs : string -> list Event)
    (devices : list string) (st : MonState) (d : string) :
  let st' := snd (newLoop de debug probeEvs devices st) in
  count (isOpenOf d) (world st')
  + (if validDevicePath (osEnv de) d then announced d (outs st) else 0)
  = count (isOpenOf d) (world st)
    + (if validDevicePath (osEnv de) d then announced d (outs st') else 0).
Proof.
  cbv zeta. revert st; induction devices as [|device rest IH]; intros st;
    cbn [newLoop]; [reflexivity|].
  destruct (seenHas (seen st) device); cbn [negb]; [apply IH|].
  pose proof (IsGPSDevice_opens (mkGPSTimeSync device 9600 debug) (osEnv de) device
                (probeEvs device) (world st) d) as Ho.
  assert (Hv : validDevicePath (osEnv de) device && String.eqb d device
               = validDevicePath (osEnv de) d && String.eqb d device).
  { destruct (String.eqb d device) eqn:E; [|now rewrite !andb_false_r].
    apply String.eqb_eq in E. now subst. }
  rewrite Hv in Ho. clear Hv.
  assert (Hstep : forall w1 extra,
            count (isOpenOf d) w1 =
              count (isOpenOf d) (world st)
              + (if validDevicePath (osEnv de) d && String.eqb d device then 1 else 0) ->
            (forall x, In x extra -> isNew d x = false) ->
            let st1 := mkMonState (push (seen st) device) w1
                         (say (outs st) (OutNewDevice device) ++ extra)%list in
            count (isOpenOf d) (world st1)
            + (if validDevicePath (osEnv de) d then announced d (outs st) else 0)
            = count (isOpenOf d) (world st)
              + (if validDevicePath (osEnv de) d then announced d (outs st1) else 0)).
  { intros w1 extra Hw Hx. cbn [world outs].
    rewrite announced_app, announced_say. cbn [isNew].
    assert (Hz : announced d extra = 0).
    { unfold announced. clear -Hx. induction extra as [|x extra IHx]; [reflexivity|].
      simpl. rewrite (Hx x (or_introl eq_refl)). apply IHx.
      intros y Hy. apply Hx. right. exact Hy. }
    rewrite Hz, Hw.
    destruct (validDevicePath (osEnv de) d), (String.eqb d device); simpl; lia. }
  destruct (IsGPSDevice (mkGPSTimeSync device 9600 debug) (osEnv de) device
              (probeEvs device) (world st)) as [[o w1] r]. cbn [fst snd] in Ho.
  assert (Hnil : forall x : DevOut, In x [] -> isNew d x = false) by (intros x []).
  pose proof (Hstep w1 [] Ho Hnil) as Hs0. cbv zeta in Hs0. rewrite app_nil_r in Hs0.
  destruct o as [[isGPS err]| |].
  - destruct err as [e|].
    + destruct debug.
      * assert (He : forall x, In x [OutTestError device e] -> isNew d x = false)
          by (intros x [<-|[]]; reflexivity).
        pose proof (Hstep w1 [OutTestError device e] Ho He) as Hs. cbv zeta in Hs.
        pose proof (IH (mkMonState (push (seen st) device) w1
                          (say (say (outs st) (OutNewDevice device))
                               (OutTestError device e)))) as Hi.
        unfold say in *. cbn [world outs] in *. lia.
      * pose proof (IH (mkMonState (push (seen st) device) w1
                          (say (outs st) (OutNewDevice device)))) as Hi.
        unfold say in *. cbn [world outs] in *. lia.
    + assert (He : forall x,
                In x [if isGPS then OutConfirmed device else OutNotGPS device] ->
                isNew d x = false)
        by (intros x [<-|[]]; destruct isGPS; reflexivity).
      pose proof (Hstep w1 [if isGPS then OutConfirmed device else OutNotGPS device]
                    Ho He) as Hs. cbv zeta in Hs.
      pose proof (IH (mkMonState (push (seen st) device) w1
                        (say (say (outs st) (OutNewDevice device))
                             (if isGPS then OutConfirmed device else OutNotGPS device))))
        as Hi.
      unfold say in *. cbn [world outs] in *. lia.
  - cbn [snd world outs] in *. unfold say in *. lia.
  - cbn [snd world outs] in *. unfold say in *. lia.
Qed.

(** one poll: the devices are opened by the probes of the new devices only *)
Lemma monitorTick_opens (de : DevEnv) (debug : bool) (probeEvs : string -> list Event)
    (st : MonState) (d : string) :
  let st' := snd (monitorTick de debug probeEvs st) in
  count (isOpenOf d) (world st')
  + (if validDevicePath (osEnv de) d then announced d (outs st) else 0)
  = count (isOpenOf d) (world st)
    + (if validDevicePath (osEnv de) d then announced d (outs st') else 0).
Proof.
  cbv zeta. unfold monitorTick.
  pose proof (count_FindGPSDevices (isOpenOf d) de (world st) (fun _ => eq_refl)) as Hf.
  destruct (FindGPSDevices de (world st)) as [r w1]. cbn [snd] in Hf.
  destruct (validDevicePath (osEnv de) d) eqn:Ev.
  all: (  destruct r as [devices| |goos]; cbv beta zeta;
    [ pose proof (newLoop_opens de debug probeEvs devices
                    (mkMonState (seen st) w1 (outs st)) d) as Hn
    | pose proof (newLoop_opens de debug probeEvs []
                    (mkMonState (seen st) w1 (outs st)) d) as Hn
    | cbn [snd world outs]; lia ];
    (cbv zeta in Hn; rewrite Ev in Hn; cbn [world outs] in Hn;
     destruct (newLoop de debug probeEvs _ _) as [o st1]; cbn [snd] in Hn;
     destruct o as [u| |]; cbn [snd]; try lia;
     pose proof (removeLoop_inv de (seen st1) st1) as Hr; cbv zeta in Hr;
     destruct Hr as (_ & _ & _ & Hw & more & Ho & _ & Hz);
     rewrite ?Hw, ?Ho, ?announced_app; unfold announced in *; rewrite ?Hz; simpl; lia)).
Qed.

(** X18: one poll of MonitorDevices.  A device is announced only if it was
    not remembered from an earlier poll, and at most once.  The poll opens a
    device only for the probe that follows its announcement: each device is
    opened as often as it is announced when its path passes the check of
    IsGPSDevice, and not at all otherwise, so a remembered device is not
    opened and a new device at most once.  "does not appear to be a GPS
    device" is never printed, because the probe never answers false without
    an error.  After the poll no remembered device is one that [os.Stat]
    reports as not existing, so a device that is unplugged and plugged in
    again is announced again.  The poll never panics, and it makes
    MonitorDevices return only on an operating system the program does not
    know. *)
Theorem MonitorDevices_poll (de : DevEnv) (debug : bool)
    (probeEvs : string -> list Event) (st : MonState) :
  NoDup (seen st) ->
  let '(o, st') := monitorTick de debug probeEvs st in
  o <> Panicked /\ NoDup (seen st')
  /\ (o = Returned None -> forall d, In d (seen st') -> stat de d <> StatNotExist)
  /\ (exists more, outs st' = (outs st ++ more)%list /\ tidy (seen st) more
        /\ forall d, count (isOpenOf d) (world st') =
                     count (isOpenOf d) (world st)
                     + (if validDevicePath (osEnv de) d then announced d more else 0))
  /\ (forall d, count (isOpenOf d) (world st')
                <= count (isOpenOf d) (world st)
                   + (if seenHas (seen st) d then 0 else 1))
  /\ (forall r, o = Returned (Some r) ->
        r = FindUnsupportedOS (GOOS (osEnv de))
        /\ unsupportedOS (osEnv de) = true
        /\ st' = st).
Proof.
  intros Hnd.
  pose proof (monitorTick_inv de debug probeEvs st Hnd) as Hi.
  pose proof (fun d => monitorTick_opens de debug probeEvs st d) as Ho.
  cbv zeta in Ho.
  destruct (monitorTick de debug probeEvs st) as [o st']. cbn [snd] in Ho.
  destruct Hi as (H1 & H2 & H3 & (more & H4 & H5) & H6).
  assert (Hopen : forall d, count (isOpenOf d) (world st') =
                    count (isOpenOf d) (world st)
                    + (if validDevicePath (osEnv de) d then announced d more else 0)).
  { intros d. specialize (Ho d). rewrite H4, announced_app in Ho.
    destruct (validDevicePath (osEnv de) d); lia. }
  split; [exact H1|]. split; [exact H2|]. split; [exact H3|]. split; [|split].
  - exists more. auto.
  - intros d. rewrite (Hopen d). destruct H5 as [_ H5]. specialize (H5 d).
    unfold announced. destruct (validDevicePath (osEnv de) d); lia.
  - exact H6.
Qed.

Lemma monitorDevicesLoop_inv (debug : bool)
    (polls : list (DevEnv * (string -> list Event))) (st : MonState) :
  NoDup (seen st) ->
  let '(o, st') := monitorDevicesLoop debug polls st in
  o <> Panicked /\ NoDup (seen st')
  /\ (forall r, o = Returned r -> exists goos, r = FindUnsupportedOS goos)
  /\ exists more, outs st' = (outs st ++ more)%list
                  /\ forallb (fun o => negb (isNotGPS o)) more = true.
Proof.
  revert st; induction polls as [|[de probeEvs] polls IH]; intros st Hnd;
    cbn [monitorDevicesLoop].
  - split; [discriminate|]. split; [exact Hnd|]. split; [discriminate|].
    exists []. now rewrite app_nil_r.
  - pose proof (monitorTick_inv de debug probeEvs st Hnd) as Ht.
    destruct (monitorTick de debug probeEvs st) as [o st1].
    destruct Ht as (H1 & H2 & _ & (more & H4 & H5 & _) & H6).
    destruct o as [[r|]| |].
    + split; [discriminate|]. split; [exact H2|]. split; [|eauto].
      intros r0 Hr. injection Hr as <-. destruct (H6 r eq_refl) as [-> _]. eauto.
    + specialize (IH st1 H2). destruct (monitorDevicesLoop debug polls st1) as [o' st'].
      destruct IH as (I1 & I2 & I3 & more' & I4 & I5).
      repeat split; try assumption.
      exists (more ++ more')%list. split.
      * rewrite I4, H4, <- app_assoc. reflexivity.
      * rewrite forallb_app, H5, I5. reflexivity.
    + contradiction.
    + split; [discriminate|]. split; [exact H2|]. split; [discriminate|]. eauto.
Qed.

(** X19: MonitorDevices, over any number of polls: it never panics, it
    returns only when FindGPSDevices fails on an unknown operating system
    (finding no device is not an error here), it remembers each device once,
    and it never prints "does not appear to be a GPS device". *)
Theorem MonitorDevices_run (interval : Z) (debug : bool)
    (polls : list (DevEnv * (string -> list Event))) (w : World) :
  let '(o, st') := MonitorDevices interval debug polls w in
  o <> Panicked /\ NoDup (seen st')
  /\ (forall r, o = Returned r -> exists goos, r = FindUnsupportedOS goos)
  /\ exists more, outs st' = ([OutBanner interval; OutPressCtrlC] ++ more)%list
                  /\ forallb (fun o => negb (isNotGPS o)) more = true.
Proof.
  unfold MonitorDevices.
  apply (monitorDevicesLoop_inv debug polls
           (mkMonState [] w [OutBanner interval; OutPressCtrlC])).
  constructor.
Qed.


(** ** SetSystemTime *)

(** X20: SetSystemTime returns nil exactly when the operating system is
    one it knows and every command it ran succeeded.  It runs one command on
    the Unix-like systems, none on an unknown system, and on Windows the
    [time] command and then, only if that succeeded, the [date] command: when
    [date] fails there, the error is returned after the time of day has
    already been set.  The last lines give the commands for three times: on
    Linux the argument of [date -s] is the time in the layout
    "2006-01-02 15:04:05", with a minus sign before a negative year, and on
    Windows a year above 9999 is written with all its digits. *)
Theorem SetSystemTime_commands (env : Env) (t : Time) (w : World) :
  (let '(r, w') := SetSystemTime env t w in
   exists cmds,
     w' = (w ++ ESetSystemTime t :: map EExec cmds)%list
     /\ List.length cmds <= 2
     /\ (r = None <->
         unsupportedOS env = false /\ Forall (fun c => runCmd env c = None) cmds)
     /\ (isUnix (GOOS env) = true -> GOOS env <> "windows" ->
         cmds = [["date"; "-s"; Format_datetime t]])
     /\ (GOOS env = "windows" ->
         cmds = ["time"; Format_time t]
                :: match runCmd env ["time"; Format_time t] with
                   | None => [["date"; Format_usdate t]]
                   | Some _ => []
                   end))
  /\ commands (snd (SetSystemTime linuxOk (Date 2024 2 29 23 59 58) [])) =
     [["date"; "-s"; "2024-02-29 23:59:58"]]
  /\ commands (snd (SetSystemTime linuxOk (mkTime (-1) 1 2 3 4 5 0) [])) =
     [["date"; "-s"; "-0001-01-02 03:04:05"]]
  /\ commands (snd (SetSystemTime windowsOk (mkTime 12024 1 2 3 4 5 0) [])) =
     [["time"; "03:04:05"]; ["date"; "01/02/12024"]].
Proof.
  split; [|repeat split].
  unfold SetSystemTime, unsupportedOS, emit.
  destruct (String.eqb_spec (GOOS env) "windows") as [Ew|Ew].
  - destruct (runCmd env ["time"; Format_time t]) as [e1|] eqn:E1.
    + exists [["time"; Format_time t]]. rewrite <- app_assoc.
      split; [reflexivity|]. split; [simpl; lia|]. split.
      * split; [discriminate|]. intros [_ H]. inversion H; congruence.
      * split; [congruence|]. intros _. reflexivity.
    + destruct (runCmd env ["date"; Format_usdate t]) as [e2|] eqn:E2.
      * exists [["time"; Format_time t]; ["date"; Format_usdate t]].
        rewrite <- !app_assoc. split; [reflexivity|]. split; [simpl; lia|]. split.
        -- split; [discriminate|]. intros [_ H].
           inversion H as [|? ? _ H']; inversion H'; congruence.
        -- split; [congruence|]. intros _. reflexivity.
      * exists [["time"; Format_time t]; ["date"; Format_usdate t]].
        rewrite <- !app_assoc. split; [reflexivity|]. split; [simpl; lia|]. split.
        -- split; [|reflexivity]. intros _. split; [reflexivity|].
           repeat constructor; assumption.
        -- split; [congruence|]. intros _. reflexivity.
  - destruct (isUnix (GOOS env)) eqn:Eu.
    + destruct (runCmd env ["date"; "-s"; Format_datetime t]) as [e|] eqn:E;
        exists [["date"; "-s"; Format_datetime t]]; rewrite <- app_assoc;
        (split; [reflexivity|]); (split; [simpl; lia|]); split.
      * split; [discriminate|]. intros [_ H]. inversion H; congruence.
      * split; [reflexivity | contradiction].
      * split; [|reflexivity]. intros _. split; [reflexivity|].
        repeat constructor; assumption.
      * split; [reflexivity | contradiction].
    + exists []. split; [reflexivity|]. split; [simpl; lia|]. split.
      * split; [discriminate|]. intros [H _]. discriminate H.
      * split; [discriminate | contradiction].
Qed.

Lemma SetSystemTime_commands_witness :
  let env := mkEnv "windows" (fun _ => None)
               (fun argv => if nth 0 argv "" =? "date" then Some "denied" else None) in
  exists cmds,
    snd (SetSystemTime env (Date 2024 2 29 23 59 58) []) =
      ESetSystemTime (Date 2024 2 29 23 59 58) :: map EExec cmds
    /\ cmds = [["time"; "23:59:58"]; ["date"; "02/29/2024"]]
    /\ fst (SetSystemTime env (Date 2024 2 29 23 59 58) []) <> None.
Proof.
  intros env.
  destruct (SetSystemTime_commands env (Date 2024 2 29 23 59 58) []) as [H _].
  destruct (SetSystemTime env (Date 2024 2 29 23 59 58) []) as [r w'] eqn:E.
  destruct H as (cmds & Hw & _ & _ & _ & Hwin).
  exists cmds. split; [exact Hw|]. split; [exact (Hwin eq_refl)|].
  vm_compute in E. injection E as <- _. discriminate.
Defined.

(** ** From the sentence to the [date] command *)

Lemma appendInt_20xx (y : Z) :
  (2000 <= y <= 2099)%Z ->
  appendInt y 4 = String "2" (String "0" (p2 (y - 2000))).
Proof.
  intros H.
  assert (E : exists n, n < 100 /\ y = (2000 + Z.of_nat n)%Z)
    by (exists (Z.to_nat (y - 2000)); lia).
  destruct E as (n & Hn & ->). clear H.
  do 100 (destruct n as [|n]; [vm_compute; reflexivity|]).
  lia.
Qed.

(** X21: the time SyncTime hands on survives the formatting.  For every
    time [T] that ParseNMEATime returns, the argument that SetSystemTime
    gives to [date -s] on the Unix-like systems, [T] in the layout
    "2006-01-02 15:04:05", parses back to [T] in that same layout, and so
    does the timestamp of the log line. *)
Theorem date_argument_roundtrip (timeStr dateStr : string) (T : Time) :
  ParseNMEATime timeStr dateStr = Ok T ->
  GoTime.Parse (Format_datetime T) = Ok T
  /\ len (Format_datetime T) = 19
  /\ Format_RFC3339 T =
     substring 0 10 (Format_datetime T) ++ "T"
     ++ substring 11 8 (Format_datetime T) ++ "Z".
Proof.
  intros H. destruct (ParseNMEATime_Ok_inv _ _ _ H) as (_ & _ & V & Hy & Hn).
  destruct T as [y mo d h mi s ns]. cbn [year nsec] in *. subst ns.
  unfold validTime in V. cbn [year month day hour minute second nsec] in V.
  split_guards.
  assert (Dmax : (daysIn mo y <= 31)%Z)
    by (unfold daysIn; destruct (mo =? 2)%Z; [destruct (isLeap y); lia|];
        destruct (_ || _); lia).
  destruct (p2_digits h) as (h1 & h2 & Eh & Hh1 & Hh2 & Vh); [lia|].
  destruct (p2_digits mi) as (n1 & n2 & En & Hn1 & Hn2 & Vn); [lia|].
  destruct (p2_digits s) as (s1 & s2 & Es & Hs1 & Hs2 & Vs); [lia|].
  destruct (p2_digits d) as (d1 & d2 & Ed & Hd1 & Hd2 & Vd); [lia|].
  destruct (p2_digits mo) as (m1 & m2 & Em & Hm1 & Hm2 & Vm); [lia|].
  destruct (p2_digits (y - 2000)) as (y1 & y2 & Ey & Hy1 & Hy2 & Vy); [lia|].
  unfold Format_RFC3339, Format_datetime, Format_time.
  cbn [year month day hour minute second].
  rewrite (appendInt_20xx y Hy), Eh, En, Es, Ed, Em, Ey.
  cbn [append]. split; [|split; reflexivity].
  unfold GoTime.Parse.
  pose proof (parseFields_digits y1 y2 m1 m2 d1 d2 h1 h2 n1 n2 s1 s2
                Hy1 Hy2 Hm1 Hm2 Hd1 Hd2 Hh1 Hh2 Hn1 Hn2 Hs1 Hs2) as P.
  cbv zeta in P. rewrite Vy, Vm, Vd, Vh, Vn, Vs in P.
  replace (2000 + (y - 2000))%Z with y in P by lia.
  rewrite P by lia. reflexivity.
Qed.

Lemma date_argument_roundtrip_witness :
  GoTime.Parse (Format_datetime (Date 2094 3 23 12 35 19)) = Ok (Date 2094 3 23 12 35 19).
Proof.
  apply (date_argument_roundtrip "123519" "230394" (Date 2094 3 23 12 35 19)).
  reflexivity.
Defined.

(** ** The theorems at concrete runs *)

Lemma SyncTime_sets_clock_once_witness :
  let '(o, w', _) :=
    SyncTime g0 linuxOk [EvScan (Some rmcVoid) None; EvScan (Some rmc) None; EvTimeout] [] in
  clockSets [] <= clockSets w' <= S (clockSets [])
  /\ (o = Returned None -> clockSets w' = S (clockSets []))
  /\ (o = Pending -> clockSets w' = clockSets []).
Proof.
  exact (SyncTime_sets_clock_once g0 linuxOk
           [EvScan (Some rmcVoid) None; EvScan (Some rmc) None; EvTimeout] []).
Defined.

Lemma SyncTime_releases_device_witness :
  let '(o, w', _) :=
    SyncTime g0 linuxNoRoot [EvScan (Some rmc) None; EvTimeout] [] in
  count isOpen w' = S (count isOpen [])
  /\ count isClose w' =
     count isClose []
     + (match openFile linuxNoRoot (DevicePath g0), o with
        | None, Returned _ => 1
        | None, Panicked => 1
        | _, _ => 0
        end)
  /\ (openFile linuxNoRoot (DevicePath g0) = None -> o <> Pending ->
      exists w0, w' = emit w0 (EClose (DevicePath g0))).
Proof.
  exact (SyncTime_releases_device g0 linuxNoRoot [EvScan (Some rmc) None; EvTimeout] []).
Defined.

Lemma MonitorDevices_poll_witness :
  let st := mkMonState ["/dev/ttyUSB0"] [] [] in
  let '(o, st') := monitorTick deTwo true gpsStream st in
  o <> Panicked /\ NoDup (seen st')
  /\ (o = Returned None -> forall d, In d (seen st') -> stat deTwo d <> StatNotExist)
  /\ (exists more, outs st' = (outs st ++ more)%list /\ tidy (seen st) more
        /\ forall d, count (isOpenOf d) (world st') =
                     count (isOpenOf d) (world st)
                     + (if validDevicePath (osEnv deTwo) d then announced d more else 0))
  /\ (forall d, count (isOpenOf d) (world st')
                <= count (isOpenOf d) (world st)
                   + (if seenHas (seen st) d then 0 else 1))
  /\ (forall r, o = Returned (Some r) ->
        r = FindUnsupportedOS (GOOS (osEnv deTwo))
        /\ unsupportedOS (osEnv deTwo) = true
        /\ st' = st).
Proof.
  intros st.
  apply (MonitorDevices_poll deTwo true gpsStream st).
  repeat constructor. intros [].
Defined.

(** the poll of the witness: the remembered device is left alone, the new
    one is announced, opened once, probed and confirmed *)
Example monitorTick_two_devices :
  monitorTick deTwo true gpsStream (mkMonState ["/dev/ttyUSB0"] [] []) =
    (Returned None,
     mkMonState ["/dev/ttyUSB0"; "/dev/ttyACM0"]
       [EOpenFile "/dev/ttyACM0";
        EExec ["stty"; "-F"; "/dev/ttyACM0"; "9600"; "raw"; "-echo"];
        ELog (LogDetected "$GPGGA,1");
        EClose "/dev/ttyACM0"]
       [OutNewDevice "/dev/ttyACM0"; OutConfirmed "/dev/ttyACM0"]).
Proof. reflexivity. Qed.

Lemma MonitorDevices_run_witness :
  let '(o, st') :=
    MonitorDevices 5 true
      [(deUSB, gpsStream); (deUSB, gpsStream); (deNone, gpsStream); (deUSB, silent)] [] in
  o <> Panicked /\ NoDup (seen st')
  /\ (forall r, o = Returned r -> exists goos, r = FindUnsupportedOS goos)
  /\ exists more, outs st' = ([OutBanner 5; OutPressCtrlC] ++ more)%list
                  /\ forallb (fun o => negb (isNotGPS o)) more = true.
Proof.
  exact (MonitorDevices_run 5 true
           [(deUSB, gpsStream); (deUSB, gpsStream); (deNone, gpsStream); (deUSB, silent)] []).
Defined.
